(** * SmartFarm Italia: the simulated-data generator [genera_dati]

    A shallow embedding of [src/simulatore.py] and the properties of its
    time-series generator.

    Modelling choices.
    - Python floats are exact rationals ([Q]): the order, the branching
      and the algebra of the generator are modelled, the binary64
      rounding error of each arithmetic operation is not.  The values
      the data frame stores after [round(3)] are the binary64 numbers
      nearest to the decimals ([Np.float64]).
    - A timestamp is a whole number of days ([pd.to_datetime] of a date
      such as ["2024-01-01"]); the frequency is the default ["D"].
    - numpy's random generator, [np.sin], [np.pi] and the calendar
      function [tm_yday] are library code: they are the fields of the
      class [Externals].  Every draw the generator makes is also written
      to a log, so that a statement can speak of the draws a day consumed.
    - The operating system (entropy, clock, file system) is the record
      [World], passed to [genera_dati] and returned by it.
    - Of [src/dashboard.py] the data side is embedded ([filtra_dati],
      [reset_filtri], the module-level options and date bounds, the sums
      and means of the indicators), with the module-level [df] as an
      argument; the Dash components and the plotly figures are not. *)

From Stdlib Require Import ZArith QArith Qround Qabs Qminmax Qpower List Sorted String
  Ascii Bool Lia Lqa.
Import ListNotations.
Local Open Scope Q_scope.

(* ------------------------------------------------------------------ *)
(** ** Exceptions and results *)

Inductive Exception : Type :=
| IndexError
| KeyError (key : string)
| OSError.

Inductive Result (A : Type) : Type :=
| Ok (a : A)
| Raise (e : Exception).

Arguments Ok {A} a.
Arguments Raise {A} e.

(* ------------------------------------------------------------------ *)
(** ** Python builtins used by the generator *)

Module Py.

(** [x < y] on floats. *)
Definition lt (x y : Q) : bool := negb (Qle_bool y x).

(** [x > y]. *)
Definition gt (x y : Q) : bool := lt y x.

(** [max(a, b)]: the first argument unless the second is greater. *)
Definition max (a b : Q) : Q := if lt a b then b else a.

(** [min(a, b)]: the first argument unless the second is smaller. *)
Definition min (a b : Q) : Q := if lt b a then b else a.

(** [c.lower()] on one ASCII character. *)
Definition lower_ascii (c : ascii) : ascii :=
  let n := nat_of_ascii c in
  if (65 <=? n)%nat && (n <=? 90)%nat then ascii_of_nat (n + 32) else c.

(** [s.lower()], on ASCII text. *)
Fixpoint lower (s : string) : string :=
  match s with
  | EmptyString => EmptyString
  | String c s' => String (lower_ascii c) (lower s')
  end.

End Py.

(* ------------------------------------------------------------------ *)
(** ** numpy functions used by the generator *)

Module Np.

(** [np.maximum(a, b)]. *)
Definition maximum (a b : Q) : Q := if Qle_bool b a then a else b.

(** [np.minimum(a, b)]. *)
Definition minimum (a b : Q) : Q := if Qle_bool a b then a else b.

(** [np.clip(x, lo, hi)]. *)
Definition clip (x lo hi : Q) : Q := minimum (maximum x lo) hi.

(** [np.rint]: the nearest integer, ties to the even one. *)
Definition rint (x : Q) : Z :=
  let f := Qfloor x in
  match Qcompare (x - inject_Z f) (1 # 2) with
  | Lt => f
  | Gt => (f + 1)%Z
  | Eq => if Z.even f then f else (f + 1)%Z
  end.

(** The binade of a positive number: the [e] with [2^e <= x < 2^(e+1)]. *)
Definition exponent (x : Q) : Z :=
  let k := (Z.log2 (Qnum x) - Z.log2 (Zpos (Qden x)))%Z in
  if Qle_bool (2 ^ k) x then k else (k - 1)%Z.

(** The value a [float64] array stores for [x]: the nearest number with a
    significand of 53 bits, ties to the even one.  The range of the
    exponent is not limited (no subnormal numbers, no overflow). *)
Definition float64 (x : Q) : Q :=
  let ulp := 2 ^ (exponent (Qabs x) - 52) in
  inject_Z (rint (x / ulp)) * ulp.

(** The decimal [x.round(3)] aims at: scale by 1000, round to the nearest
    integer, scale back. *)
Definition decimal3 (x : Q) : Q := inject_Z (rint (x * 1000)) / 1000.

(** [x.round(3)] as the column stores it: the quotient [rint(x * 1000) /
    1000] is a float, the nearest one to the decimal. *)
Definition round3 (x : Q) : Q := float64 (decimal3 x).

End Np.

(** The operator [/] of [pathlib] on POSIX paths, on the text of the
    paths. *)
Module Pathlib.

(** The pieces of a text between its slashes. *)
Fixpoint split (s : string) : list string :=
  match s with
  | EmptyString => [EmptyString]
  | String c s' =>
      if Ascii.eqb c "/" then EmptyString :: split s'
      else
        match split s' with
        | [] => [String c EmptyString]
        | piece :: pieces => String c piece :: pieces
        end
  end.

(** The parts of a path: its pieces, the empty ones and ["."] left out. *)
Definition parts (s : string) : list string :=
  filter (fun piece => negb (String.eqb piece "") && negb (String.eqb piece "."))
    (split s).

(** The root of a path: ["/"], ["//"] for exactly two leading slashes, or
    none. *)
Definition root (s : string) : string :=
  match s with
  | String c1 (String c2 (String c3 _)) =>
      if Ascii.eqb c1 "/" then
        if Ascii.eqb c2 "/" then if Ascii.eqb c3 "/" then "/" else "//"
        else "/"
      else ""
  | String c1 (String c2 EmptyString) =>
      if Ascii.eqb c1 "/" then if Ascii.eqb c2 "/" then "//" else "/" else ""
  | String c1 EmptyString => if Ascii.eqb c1 "/" then "/" else ""
  | EmptyString => ""
  end.

(** [str] of the path with the root [r] and the parts [ps]. *)
Definition str (r : string) (ps : list string) : string :=
  match r, ps with
  | EmptyString, [] => "."
  | _, _ => r ++ String.concat "/" ps
  end.

(** [str(base / name)]: a [name] with a root replaces [base]. *)
Definition joinpath (base name : string) : string :=
  match root name with
  | EmptyString => str (root base) (parts base ++ parts name)
  | r => str r (parts name)
  end.



End Pathlib.

(* ------------------------------------------------------------------ *)
(** ** Data model *)

Definition Timestamp : Type := Z.

(** The dataclass [Appezzamento]. *)
Record Appezzamento : Type := mkAppezzamento {
  id_appezzamento : string;
  coltura : string;
  superficie_ha : Q;
  zona_climatica : string
}.

Definition get_appezzamenti_default : list Appezzamento :=
  [ mkAppezzamento "A1" "Grano" 12.5 "pianura";
    mkAppezzamento "A2" "Mais" 8.0 "collina";
    mkAppezzamento "A3" "Ortaggi" 5.2 "pianura" ].

(** One [record] dictionary of the generator: a row of the dataset. *)
Module Rec.

Record t : Type := mk {
  data : Timestamp;
  id_appezzamento : string;
  coltura : string;
  superficie_ha : Q;
  temperatura_c : Q;
  umidita_suolo_pct : Q;
  precipitazioni_mm : Q;
  nutrienti_n : Q;
  nutrienti_p : Q;
  nutrienti_k : Q;
  stadio_crescita : Q;
  resa_kg_ha : Q;
  resa_totale_kg : Q;
  costo_totale_eur : Q;
  ricavi_totali_eur : Q;
  margine_eur : Q
}.

(** The keys of the dictionary, in insertion order. *)
Definition keys : list string :=
  [ "data"; "id_appezzamento"; "coltura"; "superficie_ha"; "temperatura_c";
    "umidita_suolo_pct"; "precipitazioni_mm"; "nutrienti_n"; "nutrienti_p";
    "nutrienti_k"; "stadio_crescita"; "resa_kg_ha"; "resa_totale_kg";
    "costo_totale_eur"; "ricavi_totali_eur"; "margine_eur" ]%string.

End Rec.

(* ------------------------------------------------------------------ *)
(** ** Library code the generator calls *)

(** numpy's [Generator] with the three methods the simulator calls,
    [np.sin], [np.pi] and [datetime.timetuple().tm_yday]. *)
Class Externals : Type := {
  Generator : Type;
  default_rng : Z -> Generator;
  gen_random : Generator -> Q * Generator;
  gen_normal : Q -> Q -> Generator -> Q * Generator;
  gen_uniform : Q -> Q -> Generator -> Q * Generator;
  np_sin : Q -> Q;
  np_pi : Q;
  tm_yday : Timestamp -> Z
}.

(** [Generator.uniform(lo, hi)] returns a value between its bounds. *)
Definition UniformInRange (E : Externals) : Prop :=
  forall lo hi g, lo <= hi ->
    lo <= fst (gen_uniform lo hi g) /\ fst (gen_uniform lo hi g) <= hi.

(** A call of a method of the random generator. *)
Inductive Call : Type :=
| Random
| Normal (loc scale : Q)
| Uniform (low high : Q).

(* ------------------------------------------------------------------ *)
(** ** The state of one run and its monad *)

Section Simulatore.

Context {E : Externals}.

(** What the loops of [genera_dati] read and write: the generator [rng],
    the list [records], and the log of the draws made so far, the most
    recent one first. *)
Record Stato : Type := mkStato {
  rng : Generator;
  drawn : list (Call * Q);
  records : list Rec.t
}.

Definition Sim (A : Type) : Type := Stato -> Result (A * Stato).

Definition ret {A : Type} (a : A) : Sim A := fun s => Ok (a, s).

Definition bind {A B : Type} (m : Sim A) (k : A -> Sim B) : Sim B :=
  fun s => match m s with
           | Ok (a, s') => k a s'
           | Raise e => Raise e
           end.

Notation "x <- m ;; k" := (bind m (fun x => k))
  (at level 61, m at next level, right associativity).
Notation "' pat <- m ;; k" := (bind m (fun x => match x with pat => k end))
  (at level 61, pat pattern, m at next level, right associativity).

(** The value and the next generator of one method call. *)
Definition sample (c : Call) (g : Generator) : Q * Generator :=
  match c with
  | Random => gen_random g
  | Normal loc scale => gen_normal loc scale g
  | Uniform low high => gen_uniform low high g
  end.

Definition call (c : Call) : Sim Q :=
  fun s => let r := sample c (rng s) in
           Ok (fst r, mkStato (snd r) ((c, fst r) :: drawn s) (records s)).

(** [rng.random()], [rng.normal(loc, scale)], [rng.uniform(low, high)]. *)
Definition rng_random : Sim Q := call Random.
Definition rng_normal (loc scale : Q) : Sim Q := call (Normal loc scale).
Definition rng_uniform (low high : Q) : Sim Q := call (Uniform low high).

(** [l[-1]] *)
Fixpoint last_item {A : Type} (l : list A) : option A :=
  match l with
  | [] => None
  | [x] => Some x
  | _ :: l' => last_item l'
  end.

(** [records[-1]] *)
Definition records_last : Sim Rec.t :=
  fun s => match last_item (records s) with
           | Some r => Ok (r, s)
           | None => Raise IndexError
           end.

(** [records.append(record)] *)
Definition records_append (record : Rec.t) : Sim unit :=
  fun s => Ok (tt, mkStato (rng s) (drawn s) (records s ++ [record])).

(** [for x in l: body(x)] *)
Fixpoint for_each {A : Type} (l : list A) (body : A -> Sim unit) : Sim unit :=
  match l with
  | [] => ret tt
  | x :: l' => _ <- body x ;; for_each l' body
  end.

(** [enumerate(l)], counting from [k]. *)
Fixpoint enumerate_from {A : Type} (k : Z) (l : list A) : list (Z * A) :=
  match l with
  | [] => []
  | x :: l' => (k, x) :: enumerate_from (k + 1) l'
  end.

Definition enumerate {A : Type} (l : list A) : list (Z * A) := enumerate_from 0 l.

(* ------------------------------------------------------------------ *)
(** ** The body of the two loops (lines 131-239) *)

(** [stadio_base] (lines 171-174). *)
Definition stadio_base (crop : string) (progress : Q) : Q :=
  if String.eqb crop "grano" || String.eqb crop "mais"
  then Np.clip (np_sin (np_pi * progress)) 0 1
  else Np.clip (0.3 + 0.7 * progress) 0 1.

(** [penalita_umidita] (lines 180-184). *)
Definition penalita_umidita (umidita_suolo_pct : Q) : Q :=
  if Py.lt umidita_suolo_pct 25 || Py.gt umidita_suolo_pct 80 then 0.3
  else if Py.lt umidita_suolo_pct 35 || Py.gt umidita_suolo_pct 70 then 0.15
  else 0.

(** [penalita_nutrienti] (lines 187-191). *)
Definition penalita_nutrienti (media_nutrients : Q) : Q :=
  if Py.lt media_nutrients 20 then 0.4
  else if Py.lt media_nutrients 35 then 0.2
  else 0.

(** [prezzo_kg] (lines 211-216). *)
Definition prezzo_kg (crop : string) : Q :=
  if String.eqb crop "grano" then 0.25
  else if String.eqb crop "mais" then 0.22
  else 0.8.

Definition genera_record (appez : Appezzamento) (giorni_totali : Z)
    (i : Z) (data : Timestamp) : Sim unit :=
  let progress := inject_Z i / inject_Z (Z.max (giorni_totali - 1) 1) in

  (* 1) SIMULAZIONE AMBIENTALE *)
  let day_of_year := tm_yday data in
  let temp_media :=
    17.5 + 12.5 * np_sin (2 * np_pi * inject_Z (day_of_year - 80) / 365) in
  noise_t <- rng_normal 0 2 ;;
  let temperatura_c := temp_media + noise_t in

  gate <- rng_random ;;
  precipitazioni_mm <-
    (if Py.lt gate 0.3
     then x <- rng_normal 10 8 ;; ret (Py.max 0 x)
     else ret 0) ;;

  '(umidita_suolo_pct, nutrienti_n, nutrienti_p, nutrienti_k) <-
    (if (i =? 0)%Z then
       u <- rng_uniform 30 60 ;;
       n <- rng_uniform 40 80 ;;
       p <- rng_uniform 20 50 ;;
       k <- rng_uniform 30 70 ;;
       ret (u, n, p, k)
     else
       r <- records_last ;;
       let prev := Rec.umidita_suolo_pct r in
       d <- rng_uniform 0.1 0.8 ;;
       let delta := - d in
       delta <-
         (if Py.gt precipitazioni_mm 0
          then f <- rng_uniform 0.3 0.6 ;;
               ret (delta + Py.min 20 (precipitazioni_mm * f))
          else ret delta) ;;
       let u := Np.clip (prev + delta) 10 90 in

       r_n <- records_last ;;
       d_n <- rng_uniform 0.05 0.3 ;;
       let n := Py.max 5 (Rec.nutrienti_n r_n - d_n) in
       r_p <- records_last ;;
       d_p <- rng_uniform 0.02 0.15 ;;
       let p := Py.max 5 (Rec.nutrienti_p r_p - d_p) in
       r_k <- records_last ;;
       d_k <- rng_uniform 0.05 0.25 ;;
       let k := Py.max 5 (Rec.nutrienti_k r_k - d_k) in

       gate_f <- rng_random ;;
       if Py.lt gate_f 0.03 then
         b_n <- rng_uniform 10 25 ;;
         b_p <- rng_uniform 5 15 ;;
         b_k <- rng_uniform 8 20 ;;
         ret (u, n + b_n, p + b_p, k + b_k)
       else ret (u, n, p, k)) ;;

  (* 2) STADIO DI CRESCITA & RESA *)
  let crop := Py.lower (coltura appez) in
  noise_s <- rng_normal 0 0.05 ;;
  let stadio_crescita := Np.clip (stadio_base crop progress + noise_s) 0 1 in

  let resa_potenziale := stadio_crescita * 80 in

  let media_nutrients := (nutrienti_n + nutrienti_p + nutrienti_k) / 3 in
  let fattore_penalizzante :=
    1 - (penalita_umidita umidita_suolo_pct
         + penalita_nutrienti media_nutrients) in
  let fattore_penalizzante := Py.max 0.1 fattore_penalizzante in

  noise_r <- rng_normal 0 3 ;;
  let resa_kg_ha := Py.max 0 (resa_potenziale * fattore_penalizzante + noise_r) in

  let resa_totale_kg := resa_kg_ha * superficie_ha appez in

  (* 3) COSTI, RICAVI, MARGINE *)
  noise_m <- rng_normal 0 3 ;;
  let costo_manodopera := 25 + noise_m in
  noise_i <- rng_normal 0 2 ;;
  let costo_input := 10 + noise_i in
  let costo_totale_eur := Py.max 0 (costo_manodopera + costo_input) in

  let ricavi_totali_eur := Py.max 0 (resa_totale_kg * prezzo_kg crop) in
  let margine_eur := ricavi_totali_eur - costo_totale_eur in

  records_append
    (Rec.mk data (id_appezzamento appez) (coltura appez) (superficie_ha appez)
       temperatura_c umidita_suolo_pct precipitazioni_mm
       nutrienti_n nutrienti_p nutrienti_k stadio_crescita
       resa_kg_ha resa_totale_kg costo_totale_eur ricavi_totali_eur margine_eur).

(* ------------------------------------------------------------------ *)
(** ** pandas: date ranges and data frames *)

(** [pd.date_range(start, end, freq="D")]: every day from [start] to [end],
    both included; empty when [end] is before [start]. *)
Definition date_range (start stop : Timestamp) : list Timestamp :=
  map (fun k => (start + Z.of_nat k)%Z) (seq 0 (Z.to_nat (stop - start + 1))).

(** A data frame: its column labels and its rows. *)
Record DataFrame : Type := mkDataFrame {
  columns : list string;
  rows : list Rec.t
}.

(** [pd.DataFrame.from_records(records)]: the columns are the keys of the
    records; a frame built from no record has no column. *)
Definition from_records (recs : list Rec.t) : DataFrame :=
  mkDataFrame (match recs with [] => [] | _ :: _ => Rec.keys end) recs.

(** The order of [sort_values(["data", "id_appezzamento"])]. *)
Definition row_le (r1 r2 : Rec.t) : bool :=
  (Rec.data r1 <? Rec.data r2)%Z
  || ((Rec.data r1 =? Rec.data r2)%Z
      && String.leb (Rec.id_appezzamento r1) (Rec.id_appezzamento r2)).

Fixpoint insert_row (r : Rec.t) (l : list Rec.t) : list Rec.t :=
  match l with
  | [] => [r]
  | r' :: l' => if row_le r r' then r :: l else r' :: insert_row r l'
  end.

(** A stable sort of the rows. *)
Fixpoint sort_rows (l : list Rec.t) : list Rec.t :=
  match l with
  | [] => []
  | r :: l' => insert_row r (sort_rows l')
  end.

Definition has_column (df : DataFrame) (label : string) : bool :=
  existsb (String.eqb label) (columns df).

(** [df.sort_values(["data", "id_appezzamento"], inplace=True)] followed by
    [df.reset_index(drop=True, inplace=True)]: a label that is not a
    column raises [KeyError]. *)
Definition sort_values (df : DataFrame) : Result DataFrame :=
  if negb (has_column df "data") then Raise (KeyError "data")
  else if negb (has_column df "id_appezzamento")
       then Raise (KeyError "id_appezzamento")
       else Ok (mkDataFrame (columns df) (sort_rows (rows df))).

(** [round(3)] on the columns of dtype float of one row. *)
Definition round_row (r : Rec.t) : Rec.t :=
  Rec.mk (Rec.data r) (Rec.id_appezzamento r) (Rec.coltura r)
    (Np.round3 (Rec.superficie_ha r))
    (Np.round3 (Rec.temperatura_c r))
    (Np.round3 (Rec.umidita_suolo_pct r))
    (Np.round3 (Rec.precipitazioni_mm r))
    (Np.round3 (Rec.nutrienti_n r))
    (Np.round3 (Rec.nutrienti_p r))
    (Np.round3 (Rec.nutrienti_k r))
    (Np.round3 (Rec.stadio_crescita r))
    (Np.round3 (Rec.resa_kg_ha r))
    (Np.round3 (Rec.resa_totale_kg r))
    (Np.round3 (Rec.costo_totale_eur r))
    (Np.round3 (Rec.ricavi_totali_eur r))
    (Np.round3 (Rec.margine_eur r)).

(** [for col in df.select_dtypes(...).columns: df[col] = df[col].round(3)] *)
Definition round_columns (df : DataFrame) : DataFrame :=
  mkDataFrame (columns df) (map round_row (rows df)).

(* ------------------------------------------------------------------ *)
(** ** The operating system *)

(** The entropy [default_rng(None)] seeds itself with, the text of
    [datetime.now().strftime("%Y%m%d_%H%M%S")], whether [mkdir] and
    [to_csv] raise, the files written so far and the lines printed so
    far, the most recent first. *)
Record World : Type := mkWorld {
  os_entropy : Z;
  clock : string;
  mkdir_raises : bool;
  to_csv_raises : bool;
  files : list (string * DataFrame);
  stdout : list string
}.

(** [config.OUTPUT_DIR], relative to the project directory. *)
Definition OUTPUT_DIR : string := "data/output".

(** The body of [if salva_csv:] (lines 250-256). *)
Definition salva (w : World) (df : DataFrame) (nome_file : option string)
    : Result World :=
  if mkdir_raises w then Raise OSError
  else
    let nome_file :=
      match nome_file with
      | None => ("smartfarm_dati_" ++ clock w ++ ".csv")%string
      | Some nome => nome
      end in
    let percorso := Pathlib.joinpath OUTPUT_DIR nome_file in
    if to_csv_raises w then Raise OSError
    else Ok (mkWorld (os_entropy w) (clock w) (mkdir_raises w)
               (to_csv_raises w) ((percorso, df) :: files w)
               (("Dati simulati salvati in: " ++ percorso)%string :: stdout w)).

(* ------------------------------------------------------------------ *)
(** ** [genera_dati] *)

(** Lines 116-239: the generator, the date index and the two loops; the
    result is the state the loops end in. *)
Definition simula (w : World) (data_inizio data_fine : Timestamp)
    (appezzamenti : option (list Appezzamento)) (random_state : option Z)
    : Result Stato :=
  let rng :=
    default_rng (match random_state with
                 | Some seed => seed
                 | None => os_entropy w
                 end) in
  let date_index := date_range data_inizio data_fine in
  let appezzamenti :=
    match appezzamenti with
    | None => get_appezzamenti_default
    | Some l => l
    end in
  match last_item date_index, hd_error date_index with
  | Some last_day, Some first_day =>
      let giorni_totali := (last_day - first_day + 1)%Z in
      match
        for_each appezzamenti (fun appez =>
          for_each (enumerate date_index) (fun '(i, data) =>
            genera_record appez giorni_totali i data))
          (mkStato rng [] [])
      with
      | Ok (_, s) => Ok s
      | Raise e => Raise e
      end
  | _, _ => Raise IndexError
  end.

Definition genera_dati (w : World) (data_inizio data_fine : Timestamp)
    (appezzamenti : option (list Appezzamento)) (random_state : option Z)
    (salva_csv : bool) (nome_file : option string)
    : Result (DataFrame * World) :=
  match simula w data_inizio data_fine appezzamenti random_state with
  | Raise e => Raise e
  | Ok s =>
      match sort_values (from_records (records s)) with
      | Raise e => Raise e
      | Ok df =>
          let df := round_columns df in
          if salva_csv then
            match salva w df nome_file with
            | Raise e => Raise e
            | Ok w' => Ok (df, w')
            end
          else Ok (df, w)
      end
  end.

End Simulatore.

(* ------------------------------------------------------------------ *)
(** ** A small instance of the library code

    A linear congruential generator on [Z] and rational stand-ins for
    [np.sin], [np.pi] and the day of the year; used to run the generator
    on concrete inputs. *)

Module Sample.

Definition next (g : Z) : Z := ((g * 1103515245 + 12345) mod 2147483648)%Z.

(** A rational in [0, 1) read off the state. *)
Definition unit_draw (g : Z) : Q := ((g / 65536) mod 1000)%Z # 1000.

(** A rational in [-3, 3] read off the state. *)
Definition bell_draw (g : Z) : Q := (((g / 65536) mod 601) - 300)%Z # 100.

Definition random (g : Z) : Q * Z := (unit_draw g, next g).

Definition normal (loc scale : Q) (g : Z) : Q * Z :=
  (loc + scale * bell_draw g, next g).

Definition uniform (low high : Q) (g : Z) : Q * Z :=
  (low + (high - low) * unit_draw g, next g).

Definition sin (x : Q) : Q := x - x * x * x / 6.

Definition pi : Q := 355 # 113.

Definition yday (d : Timestamp) : Z := (d mod 365 + 1)%Z.

Definition externals : Externals :=
  {| Generator := Z;
     default_rng := fun seed => next seed;
     gen_random := random;
     gen_normal := normal;
     gen_uniform := uniform;
     np_sin := sin;
     np_pi := pi;
     tm_yday := yday |}.

(** The same instance with a finer bell: a rational in [-3, 3] with five
    decimals, so that the costs of a day are not whole cents. *)
Definition fine_bell_draw (g : Z) : Q := ((g mod 600001) - 300000)%Z # 100000.

Definition fine_normal (loc scale : Q) (g : Z) : Q * Z :=
  (loc + scale * fine_bell_draw g, next g).

Definition fine_externals : Externals :=
  {| Generator := Z;
     default_rng := fun seed => next seed;
     gen_random := random;
     gen_normal := fine_normal;
     gen_uniform := uniform;
     np_sin := sin;
     np_pi := pi;
     tm_yday := yday |}.

(** A world where nothing fails, and two where the export does. *)
Definition world : World := mkWorld 7 "20240101_120000" false false [] [].
Definition world_no_mkdir : World := mkWorld 9 "20240101_120001" true false [] [].
Definition world_no_write : World := mkWorld 11 "20240101_120002" false true [] [].

End Sample.

(** Inputs of the concrete runs. *)
Module Run.

(** The first three days of 2024, as days since 1970-01-01. *)
Definition start : Timestamp := 19723%Z.
Definition stop : Timestamp := 19725%Z.

Definition a1 : Appezzamento := mkAppezzamento "A1" "Grano" 1 "pianura".
Definition a2 : Appezzamento := mkAppezzamento "A2" "Mais" 8 "collina".
Definition b2 : Appezzamento := mkAppezzamento "B2" "Ortaggi" 3.5 "pianura".
Definition a3 : Appezzamento := mkAppezzamento "A3" "Ortaggi" 5.2 "pianura".

(** The state before the first day of a run with seed 42. *)
Definition s0 : @Stato Sample.externals :=
  @mkStato Sample.externals (@default_rng Sample.externals 42) [] [].

End Run.

(* ------------------------------------------------------------------ *)
(** ** Vocabulary of the statements *)

(** The yield formula, in the words of the specification. *)
Module Spec.

Definition below (x y : Q) : bool := if Qlt_le_dec x y then true else false.

Definition moisture_penalty (moisture : Q) : Q :=
  if below moisture 25 || below 80 moisture then 0.3
  else if below moisture 35 || below 70 moisture then 0.15
  else 0.

Definition nutrient_penalty (n p k : Q) : Q :=
  let mean := (n + p + k) / 3 in
  if below mean 20 then 0.4
  else if below mean 35 then 0.2
  else 0.

Definition combined_factor (moisture n p k : Q) : Q :=
  Qmax 0.1 (1 - moisture_penalty moisture - nutrient_penalty n p k).

Definition yield_kg_ha (growth_stage moisture n p k noise : Q) : Q :=
  let potential := growth_stage * 80 in
  Qmax 0 (potential * combined_factor moisture n p k + noise).

Definition yield_total_kg (yield area_ha : Q) : Q := yield * area_ha.

End Spec.

(** The bounds of a record. *)
Definition in_bounds (r : Rec.t) : Prop :=
  (10 <= Rec.umidita_suolo_pct r /\ Rec.umidita_suolo_pct r <= 90)
  /\ 0 <= Rec.precipitazioni_mm r
  /\ (5 <= Rec.nutrienti_n r /\ 5 <= Rec.nutrienti_p r /\ 5 <= Rec.nutrienti_k r)
  /\ (0 <= Rec.stadio_crescita r /\ Rec.stadio_crescita r <= 1)
  /\ 0 <= Rec.resa_kg_ha r
  /\ 0 <= Rec.costo_totale_eur r
  /\ 0 <= Rec.ricavi_totali_eur r.

(** The number of days from [start] to [stop], both included. *)
Definition days_inclusive (start stop : Timestamp) : Z := (stop - start + 1)%Z.

(** The rows of one plot, in the order of the data frame. *)
Definition rows_of (id : string) (l : list Rec.t) : list Rec.t :=
  filter (fun r => String.eqb (Rec.id_appezzamento r) id) l.

(** Rows in the order of [sort_values]. *)
Definition sorted_rows (l : list Rec.t) : Prop :=
  StronglySorted (fun x y => row_le x y = true) l.

(** The draw of the recharge term, [rng.uniform(0.3, 0.6)]. *)
Definition is_recharge (entry : Call * Q) : bool :=
  match fst entry with
  | Uniform low high => Qeq_bool low 0.3 && Qeq_bool high 0.6
  | _ => false
  end.

Definition recharge_drawn (log : list (Call * Q)) : bool := existsb is_recharge log.

(** The yield of a record [r], given the log of the draws of the run. *)
Definition yield_rule (log : list (Call * Q)) (r : Rec.t) : Prop :=
  Rec.resa_totale_kg r = Spec.yield_total_kg (Rec.resa_kg_ha r) (Rec.superficie_ha r)
  /\ exists noise,
      In (Normal 0 3, noise) log
      /\ Rec.resa_kg_ha r
         == Spec.yield_kg_ha (Rec.stadio_crescita r) (Rec.umidita_suolo_pct r)
              (Rec.nutrienti_n r) (Rec.nutrienti_p r) (Rec.nutrienti_k r) noise.

(** What one day does with the rain, branch by branch, read off the draws
    of the day [day_log] (in the order they were made), the records [rs]
    made before the day and the record [r] of the day. *)
Definition rain_facts (i : Z) (rs : list Rec.t) (day_log : list (Call * Q))
    (r : Rec.t) : Prop :=
  (exists t gate rest,
      day_log = (Normal 0 2, t) :: (Random, gate) :: rest
      /\ (gate < 0.3 ->
          exists x rest',
            rest = (Normal 10 8, x) :: rest'
            /\ (x <= 0 ->
                Rec.precipitazioni_mm r = 0 /\ recharge_drawn day_log = false)))
  /\ (i = 0%Z ->
      recharge_drawn day_log = false
      /\ exists u, In (Uniform 30 60, u) day_log /\ Rec.umidita_suolo_pct r = u)
  /\ (i <> 0%Z ->
      (recharge_drawn day_log = true <-> 0 < Rec.precipitazioni_mm r))
  /\ (i <> 0%Z -> ~ 0 < Rec.precipitazioni_mm r ->
      exists prev decay,
        last_item rs = Some prev
        /\ In (Uniform 0.1 0.8, decay) day_log
        /\ Rec.umidita_suolo_pct r
           = Np.clip (Rec.umidita_suolo_pct prev + - decay) 10 90)
  /\ (i <> 0%Z -> 0 < Rec.precipitazioni_mm r ->
      exists prev decay f,
        last_item rs = Some prev
        /\ In (Uniform 0.1 0.8, decay) day_log
        /\ In (Uniform 0.3 0.6, f) day_log
        /\ Rec.umidita_suolo_pct r
           = Np.clip (Rec.umidita_suolo_pct prev
                      + (- decay + Py.min 20 (Rec.precipitazioni_mm r * f)))
               10 90).

(** The moisture of a day on which the recharge term is applied: the
    moisture of the previous record less the decay, plus the recharge
    [min(20, precipitazioni_mm * rng.uniform(0.3, 0.6))], clipped. *)
Definition with_recharge (rs : list Rec.t) (day_log : list (Call * Q))
    (r : Rec.t) : Prop :=
  exists prev decay f,
    last_item rs = Some prev
    /\ In (Uniform 0.1 0.8, decay) day_log
    /\ In (Uniform 0.3 0.6, f) day_log
    /\ Rec.umidita_suolo_pct r
       = Np.clip (Rec.umidita_suolo_pct prev
                  + (- decay + Py.min 20 (Rec.precipitazioni_mm r * f)))
           10 90.

(** The moisture of a day on which the recharge term is not applied: on
    the first day of a plot the draw [rng.uniform(30, 60)], on a later day
    the moisture of the previous record less the decay, clipped. *)
Definition without_recharge (i : Z) (rs : list Rec.t)
    (day_log : list (Call * Q)) (r : Rec.t) : Prop :=
  (i = 0%Z ->
   exists u, In (Uniform 30 60, u) day_log /\ Rec.umidita_suolo_pct r = u)
  /\ (i <> 0%Z ->
      exists prev decay,
        last_item rs = Some prev
        /\ In (Uniform 0.1 0.8, decay) day_log
        /\ Rec.umidita_suolo_pct r
           = Np.clip (Rec.umidita_suolo_pct prev + - decay) 10 90).

(** The rain gate that fires on a draw [rng.normal(10, 8)] of at most 0:
    no precipitation, no recharge draw, no recharge term. *)
Definition rain_rule (i : Z) (rs : list Rec.t) (day_log : list (Call * Q))
    (r : Rec.t) : Prop :=
  exists t gate rest,
    day_log = (Normal 0 2, t) :: (Random, gate) :: rest
    /\ (gate < 0.3 ->
        exists x rest',
          rest = (Normal 10 8, x) :: rest'
          /\ (x <= 0 ->
              Rec.precipitazioni_mm r = 0
              /\ recharge_drawn day_log = false
              /\ without_recharge i rs day_log r
              /\ (recharge_drawn day_log = true
                  <-> 0 < Rec.precipitazioni_mm r))).

Section PerPlot.

Context {E : Externals}.

(** A state with the draws [pd] and the records [pr] made before it. *)
Definition extend (pd : list (Call * Q)) (pr : list Rec.t) (s : Stato) : Stato :=
  mkStato (rng s) (drawn s ++ pd) (pr ++ records s).

Definition lift {A : Type} (f : Stato -> Stato) (r : Result (A * Stato))
    : Result (A * Stato) :=
  match r with
  | Ok (a, s) => Ok (a, f s)
  | Raise e => Raise e
  end.

(** The inner loop of [genera_dati] for one plot, counting from [k]. *)
Definition giorni_da (appez : Appezzamento) (giorni_totali k : Z)
    (date_index : list Timestamp) : Sim unit :=
  for_each (enumerate_from k date_index) (fun '(i, data) =>
    genera_record appez giorni_totali i data).

(** The inner loop of [genera_dati] for one plot. *)
Definition giorni (appez : Appezzamento) (giorni_totali : Z)
    (date_index : list Timestamp) : Sim unit :=
  giorni_da appez giorni_totali 0 date_index.

(** The two loops of [genera_dati]. *)
Definition appezzamenti_giorni (appezzamenti : list Appezzamento)
    (giorni_totali : Z) (date_index : list Timestamp) : Sim unit :=
  for_each appezzamenti (fun appez => giorni appez giorni_totali date_index).

(** The inner loop run on its own: the records of one plot, computed from
    the generator alone, with no record of any other plot in reach. *)
Definition simula_appezzamento (appez : Appezzamento) (giorni_totali : Z)
    (date_index : list Timestamp) (g : Generator)
    : Result (list Rec.t * Generator) :=
  match giorni appez giorni_totali date_index (mkStato g [] []) with
  | Ok (_, s) => Ok (records s, rng s)
  | Raise e => Raise e
  end.

(** The plots one after the other, each on its own, sharing the generator. *)
Fixpoint per_plot (appezzamenti : list Appezzamento) (giorni_totali : Z)
    (date_index : list Timestamp) (g : Generator)
    : Result (list Rec.t * Generator) :=
  match appezzamenti with
  | [] => Ok ([], g)
  | appez :: rest =>
      match simula_appezzamento appez giorni_totali date_index g with
      | Raise e => Raise e
      | Ok (block, g') =>
          match per_plot rest giorni_totali date_index g' with
          | Raise e => Raise e
          | Ok (blocks, g'') => Ok (block ++ blocks, g'')
          end
      end
  end.

(** The generator [default_rng(random_state)] of a run. *)
Definition seeded (w : World) (random_state : option Z) : Generator :=
  default_rng (match random_state with
               | Some seed => seed
               | None => os_entropy w
               end).

(** The list of plots of a run. *)
Definition plots_of (appezzamenti : option (list Appezzamento)) : list Appezzamento :=
  match appezzamenti with
  | None => get_appezzamenti_default
  | Some l => l
  end.

(** The data frame of a run that ends in the state [s]. *)
Definition dataset (s : Stato) : DataFrame :=
  mkDataFrame Rec.keys (map round_row (sort_rows (records s))).

End PerPlot.

(* ------------------------------------------------------------------ *)
(** ** More vocabulary: the records of a plot and the dynamics of a day *)

(** The identity columns of a record made for the plot [p]. *)
Definition from_plot (p : Appezzamento) (r : Rec.t) : Prop :=
  Rec.id_appezzamento r = id_appezzamento p
  /\ Rec.coltura r = coltura p
  /\ Rec.superficie_ha r = superficie_ha p.

(** The ranges of the draws of the first day of a plot (lines 147-150). *)
Definition initial_ranges (r : Rec.t) : Prop :=
  (30 <= Rec.umidita_suolo_pct r /\ Rec.umidita_suolo_pct r <= 60)
  /\ (40 <= Rec.nutrienti_n r /\ Rec.nutrienti_n r <= 80)
  /\ (20 <= Rec.nutrienti_p r /\ Rec.nutrienti_p r <= 50)
  /\ (30 <= Rec.nutrienti_k r /\ Rec.nutrienti_k r <= 70).

(** The first draw of the fertilisation, [rng.uniform(10, 25)]. *)
Definition is_fertilisation (entry : Call * Q) : bool :=
  match fst entry with
  | Uniform low high => Qeq_bool low 10 && Qeq_bool high 25
  | _ => false
  end.

Definition fertilised (log : list (Call * Q)) : bool := existsb is_fertilisation log.

(** How far a day after the first of a plot moves the moisture of the
    previous record [prev]. *)
Definition moisture_step (prev r : Rec.t) : Prop :=
  Rec.umidita_suolo_pct prev - 0.8 <= Rec.umidita_suolo_pct r
  /\ Rec.umidita_suolo_pct r <= Rec.umidita_suolo_pct prev + 20
  /\ (~ 0 < Rec.precipitazioni_mm r ->
      Rec.umidita_suolo_pct r <= Rec.umidita_suolo_pct prev).

(** How far a day after the first of a plot moves one nutrient, from
    [before] to [after], the depletion being at most [depletion] and the
    fertilisation at most [bonus]. *)
Definition nutrient_step (log : list (Call * Q)) (depletion bonus before after : Q)
    : Prop :=
  before - depletion <= after
  /\ after <= before + bonus
  /\ (fertilised log = false -> after <= before).

(** The magnitude of the three economic fields of a row. *)
Definition economic_magnitude (r : Rec.t) : Q :=
  Qabs (Rec.margine_eur r) + Qabs (Rec.ricavi_totali_eur r)
  + Qabs (Rec.costo_totale_eur r).

(** In [l] the value [a] makes its first appearance before [b] makes its
    own. *)
Definition first_before (l : list string) (a b : string) : Prop :=
  exists pre post, l = pre ++ b :: post /\ ~ In b pre /\ In a pre.

(** Two plots that differ at most in [zona_climatica]. *)
Definition same_but_zona (p q : Appezzamento) : Prop :=
  id_appezzamento p = id_appezzamento q
  /\ coltura p = coltura q
  /\ superficie_ha p = superficie_ha q.

(* ------------------------------------------------------------------ *)
(** ** The dashboard ([src/dashboard.py]) *)

Module Dashboard.

(** [df[label]]: the values of a column; a label that is not a column
    raises [KeyError]. *)
Definition column {A : Type} (df : DataFrame) (label : string)
    (field : Rec.t -> A) : Result (list A) :=
  if has_column df label then Ok (map field (rows df))
  else Raise (KeyError label).

(** [df[mask]], the mask computed from the column [label]. *)
Definition select (df : DataFrame) (label : string) (test : Rec.t -> bool)
    : Result DataFrame :=
  if has_column df label
  then Ok (mkDataFrame (columns df) (filter test (rows df)))
  else Raise (KeyError label).

(** [df.empty]: no row or no column. *)
Definition empty (df : DataFrame) : bool :=
  match columns df, rows df with
  | [], _ => true
  | _, [] => true
  | _ :: _, _ :: _ => false
  end.

(** [series.sum()]; 0 on an empty series. *)
Fixpoint sum (l : list Q) : Q :=
  match l with
  | [] => 0
  | x :: l' => x + sum l'
  end.

(** [series.mean()]; [None] is the NaN of an empty series. *)
Definition mean (l : list Q) : option Q :=
  match l with
  | [] => None
  | _ :: _ => Some (sum l / inject_Z (Z.of_nat (List.length l)))
  end.

(** [series.unique()]: the values in the order of their first appearance. *)
Fixpoint unique_from (seen l : list string) : list string :=
  match l with
  | [] => []
  | x :: l' =>
      if existsb (String.eqb x) seen then unique_from seen l'
      else x :: unique_from (x :: seen) l'
  end.

Definition unique (l : list string) : list string := unique_from [] l.

(** [series.min()] and [series.max()] of dates; [None] is the NaT of an
    empty series. *)
Definition min_date (l : list Timestamp) : option Timestamp :=
  match l with
  | [] => None
  | x :: l' => Some (fold_left Z.min l' x)
  end.

Definition max_date (l : list Timestamp) : option Timestamp :=
  match l with
  | [] => None
  | x :: l' => Some (fold_left Z.max l' x)
  end.

(** The module-level [appezzamenti_options] (lines 31-35), as pairs of a
    label and a value, from the module-level [df]. *)
Definition appezzamenti_options (df : DataFrame) : Result (list (string * string)) :=
  match column df "id_appezzamento" Rec.id_appezzamento with
  | Raise e => Raise e
  | Ok ids =>
      Ok (("Tutti gli appezzamenti", "ALL")
          :: map (fun appez_id => ("Appezzamento " ++ appez_id, appez_id))
               (unique ids))%string
  end.

(** The module-level [data_min] and [data_max] (lines 37-38). *)
Definition data_min (df : DataFrame) : Result (option Timestamp) :=
  match column df "data" Rec.data with
  | Raise e => Raise e
  | Ok dates => Ok (min_date dates)
  end.

Definition data_max (df : DataFrame) : Result (option Timestamp) :=
  match column df "data" Rec.data with
  | Raise e => Raise e
  | Ok dates => Ok (max_date dates)
  end.

(** The two columns [filtra_dati] reads. *)
Definition has_columns (df : DataFrame) : Prop :=
  has_column df "id_appezzamento" = true /\ has_column df "data" = true.

(** [bool(appezzamento)]: neither [None] nor the empty string. *)
Definition truthy (appezzamento : option string) : bool :=
  match appezzamento with
  | None => false
  | Some s => negb (String.eqb s "")
  end.

(** [filtra_dati] (lines 214-225), on the module-level [df]. *)
Definition filtra_dati (df : DataFrame) (appezzamento : option string)
    (start_date end_date : option Timestamp) : Result DataFrame :=
  let df_filtrato := df in
  match
    (match appezzamento with
     | Some id =>
         if truthy appezzamento && negb (String.eqb id "ALL")
         then select df_filtrato "id_appezzamento"
                (fun r => String.eqb (Rec.id_appezzamento r) id)
         else Ok df_filtrato
     | None => Ok df_filtrato
     end)
  with
  | Raise e => Raise e
  | Ok df_filtrato =>
      match
        (match start_date with
         | Some start =>
             select df_filtrato "data" (fun r => (start <=? Rec.data r)%Z)
         | None => Ok df_filtrato
         end)
      with
      | Raise e => Raise e
      | Ok df_filtrato =>
          match end_date with
          | Some stop =>
              select df_filtrato "data" (fun r => (Rec.data r <=? stop)%Z)
          | None => Ok df_filtrato
          end
      end
  end.

(** [reset_filtri] (lines 239-240). *)
Definition reset_filtri (df : DataFrame) (n_clicks : Z)
    : Result (string * option Timestamp * option Timestamp) :=
  match data_min df with
  | Raise e => Raise e
  | Ok lo =>
      match data_max df with
      | Raise e => Raise e
      | Ok hi => Ok ("ALL"%string, lo, hi)
      end
  end.

(** The rows a call of [filtra_dati] keeps. *)
Definition keeps (appezzamento : option string)
    (start_date end_date : option Timestamp) (r : Rec.t) : bool :=
  (match appezzamento with
   | Some id =>
       if negb (String.eqb id "") && negb (String.eqb id "ALL")
       then String.eqb (Rec.id_appezzamento r) id
       else true
   | None => true
   end)
  && (match start_date with
      | Some start => (start <=? Rec.data r)%Z
      | None => true
      end)
  && (match end_date with
      | Some stop => (Rec.data r <=? stop)%Z
      | None => true
      end).

(** The later of two optional lower bounds, the earlier of two optional
    upper bounds. *)
Definition later (a b : option Timestamp) : option Timestamp :=
  match a, b with
  | Some x, Some y => Some (Z.max x y)
  | Some x, None => Some x
  | None, _ => b
  end.

Definition earlier (a b : option Timestamp) : option Timestamp :=
  match a, b with
  | Some x, Some y => Some (Z.min x y)
  | Some x, None => Some x
  | None, _ => b
  end.

End Dashboard.

(* ------------------------------------------------------------------ *)
(** ** The primitives on concrete values *)

Example lower_grano : Py.lower "Grano" = "grano"%string.
Proof. reflexivity. Qed.

Example max_keeps_first : Py.max 0 (-3.5) = 0.
Proof. reflexivity. Qed.

Example clip_above : Np.clip 93.2 10 90 = 90.
Proof. reflexivity. Qed.

Example decimal3_nearest : Np.decimal3 2.34567 == 2.346.
Proof. reflexivity. Qed.

Example decimal3_tie_even : Np.decimal3 0.0005 == 0 /\ Np.decimal3 0.0015 == 0.002.
Proof. split; reflexivity. Qed.

Example decimal3_negative_tie : Np.decimal3 (-1.2345) == -1.234.
Proof. reflexivity. Qed.

Example float64_tenth : Np.float64 0.1 == 3602879701896397 # 36028797018963968.
Proof. vm_compute. reflexivity. Qed.

Example float64_whole : Np.float64 90 == 90.
Proof. vm_compute. reflexivity. Qed.

(** The float of 2.346 is a little above it. *)
Example round3_stored :
  Np.round3 2.34567 == 660340295363199 # 281474976710656
  /\ 2.346 < Np.round3 2.34567.
Proof. split; vm_compute; reflexivity. Qed.

Example date_range_three_days : date_range 5%Z 7%Z = [5; 6; 7]%Z.
Proof. reflexivity. Qed.

Example date_range_backwards : date_range 7%Z 5%Z = [].
Proof. reflexivity. Qed.

(* ------------------------------------------------------------------ *)
(** ** Order lemmas for the Python and numpy primitives *)

Lemma lt_true (x y : Q) : Py.lt x y = true <-> x < y.
Proof.
  unfold Py.lt. rewrite negb_true_iff, <- not_true_iff_false, Qle_bool_iff.
  split; [apply Qnot_le_lt | apply Qlt_not_le].
Qed.

Lemma lt_false (x y : Q) : Py.lt x y = false <-> y <= x.
Proof.
  unfold Py.lt. rewrite negb_false_iff. apply Qle_bool_iff.
Qed.

Lemma max_lower (a b : Q) : a <= Py.max a b.
Proof.
  unfold Py.max. destruct (Py.lt a b) eqn:H.
  - apply lt_true in H. lra.
  - lra.
Qed.

Lemma max_upper (a b : Q) : b <= Py.max a b.
Proof.
  unfold Py.max. destruct (Py.lt a b) eqn:H.
  - lra.
  - apply lt_false in H. lra.
Qed.

Lemma clip_bounds (x lo hi : Q) :
  lo <= hi -> lo <= Np.clip x lo hi /\ Np.clip x lo hi <= hi.
Proof.
  intros Hlh. unfold Np.clip, Np.minimum, Np.maximum.
  destruct (Qle_bool lo x) eqn:H1.
  - apply Qle_bool_iff in H1.
    destruct (Qle_bool x hi) eqn:H2.
    + apply Qle_bool_iff in H2. lra.
    + lra.
  - destruct (Qle_bool lo hi) eqn:H2; lra.
Qed.

(** ** Rounding *)

Lemma rint_comp (x y : Q) : x == y -> Np.rint x = Np.rint y.
Proof.
  intros H. unfold Np.rint. rewrite (Qfloor_comp _ _ H).
  assert (Hc : Qcompare (x - inject_Z (Qfloor y)) (1 # 2)
               = Qcompare (y - inject_Z (Qfloor y)) (1 # 2)).
  { apply Qcompare_comp; [rewrite H|]; reflexivity. }
  rewrite Hc. reflexivity.
Qed.

Lemma rint_close (x : Q) :
  inject_Z (Np.rint x) - x <= 1 # 2 /\ x - inject_Z (Np.rint x) <= 1 # 2.
Proof.
  unfold Np.rint.
  pose proof (Qfloor_le x) as Hlo. pose proof (Qlt_floor x) as Hhi.
  rewrite inject_Z_plus in Hhi. change (inject_Z 1) with 1 in Hhi.
  destruct (Qcompare_spec (x - inject_Z (Qfloor x)) (1 # 2)) as [He|Hl|Hg].
  - destruct (Z.even (Qfloor x));
      rewrite ?inject_Z_plus; change (inject_Z 1) with 1; split; lra.
  - split; lra.
  - rewrite inject_Z_plus. change (inject_Z 1) with 1. split; lra.
Qed.

Lemma inject_Z_lt_succ (a b : Z) : inject_Z a < inject_Z b + 1 -> (a <= b)%Z.
Proof.
  intros H. change 1 with (inject_Z 1) in H. rewrite <- inject_Z_plus in H.
  rewrite <- Zlt_Qlt in H. lia.
Qed.

Lemma rint_mono (x y : Q) : x <= y -> (Np.rint x <= Np.rint y)%Z.
Proof.
  intros Hxy. destruct (Qlt_le_dec x y) as [Hlt|Hge].
  - apply inject_Z_lt_succ.
    pose proof (rint_close x). pose proof (rint_close y). lra.
  - rewrite (rint_comp x y); [lia | lra].
Qed.

Lemma rint_inject_Z (n : Z) : Np.rint (inject_Z n) = n.
Proof.
  unfold Np.rint. rewrite Qfloor_Z.
  destruct (Qcompare_spec (inject_Z n - inject_Z n) (1 # 2)) as [He|Hl|Hg];
    [lra | reflexivity | lra].
Qed.

Lemma decimal3_unfold (x : Q) :
  Np.decimal3 x = inject_Z (Np.rint (x * 1000)) * (1 # 1000).
Proof. reflexivity. Qed.

Lemma decimal3_mono (x y : Q) : x <= y -> Np.decimal3 x <= Np.decimal3 y.
Proof.
  intros H. rewrite !decimal3_unfold.
  assert (Hz : (Np.rint (x * 1000) <= Np.rint (y * 1000))%Z)
    by (apply rint_mono; lra).
  rewrite Zle_Qle in Hz. lra.
Qed.

(** The rounded difference and the difference of the rounded values are
    at most 0.001 apart. *)
Lemma decimal3_sub (a b : Q) :
  Qabs (Np.decimal3 (a - b) - (Np.decimal3 a - Np.decimal3 b)) <= 0.001.
Proof.
  rewrite !decimal3_unfold.
  pose proof (rint_close (a * 1000)) as [Ha1 Ha2].
  pose proof (rint_close (b * 1000)) as [Hb1 Hb2].
  pose proof (rint_close ((a - b) * 1000)) as [Hc1 Hc2].
  set (A := Np.rint (a * 1000)) in *.
  set (B := Np.rint (b * 1000)) in *.
  set (C := Np.rint ((a - b) * 1000)) in *.
  assert (H1 : (C - (A - B) <= 1)%Z).
  { assert (H : (C <= (A - B) + 1)%Z); [|lia].
    apply inject_Z_lt_succ. rewrite inject_Z_plus.
    unfold Zminus. rewrite inject_Z_plus, inject_Z_opp. change (inject_Z 1) with 1. lra. }
  assert (H2 : (A - B - C <= 1)%Z).
  { assert (H : (A - B <= C + 1)%Z); [|lia].
    apply inject_Z_lt_succ. rewrite inject_Z_plus.
    unfold Zminus. rewrite inject_Z_plus, inject_Z_opp. change (inject_Z 1) with 1. lra. }
  apply Qabs_Qle_condition.
  rewrite Zle_Qle in H1, H2.
  unfold Zminus in H1, H2.
  repeat rewrite ?inject_Z_plus, ?inject_Z_opp in H1, H2.
  change (inject_Z 1) with 1 in *.
  split; lra.
Qed.

(** ** Binary64 *)

Lemma two_not_0 : ~ 2 == 0.
Proof. lra. Qed.

Lemma pow2_pos (e : Z) : 0 < 2 ^ e.
Proof. apply Qpower_0_lt. lra. Qed.

Lemma pow2_succ (e : Z) : 2 ^ (e + 1) == 2 * 2 ^ e.
Proof. rewrite (Qpower_plus 2 e 1 two_not_0). change (2 ^ 1) with 2. lra. Qed.

Lemma pow2_le (a b : Z) : (a <= b)%Z -> 2 ^ a <= 2 ^ b.
Proof. intros H. apply Qpower_le_compat_l; [exact H | lra]. Qed.

Lemma pow2_inject (n : Z) : (0 <= n)%Z -> inject_Z (2 ^ n) == 2 ^ n.
Proof. intros H. now rewrite (Zpower_Qpower 2 n H). Qed.

(** A positive integer between two powers of 2. *)
Lemma log2_bounds (n : Z) :
  (0 < n)%Z -> 2 ^ Z.log2 n <= inject_Z n /\ inject_Z n < 2 * 2 ^ Z.log2 n.
Proof.
  intros H. destruct (Z.log2_spec n H) as [Hlo Hhi].
  pose proof (Z.log2_nonneg n) as Hnn.
  rewrite <- (pow2_inject _ Hnn).
  split.
  - now rewrite <- Zle_Qle.
  - rewrite Z.pow_succ_r in Hhi by exact Hnn.
    change 2 with (inject_Z 2) at 1. rewrite <- inject_Z_mult.
    now rewrite <- Zlt_Qlt.
Qed.

Lemma exponent_spec (x : Q) :
  0 < x -> 2 ^ Np.exponent x <= x /\ x < 2 ^ (Np.exponent x + 1).
Proof.
  intros Hx. unfold Np.exponent.
  destruct x as [n d]. cbn [Qnum Qden].
  assert (Hn : (0 < n)%Z).
  { unfold Qlt in Hx. cbn in Hx. lia. }
  destruct (log2_bounds n Hn) as [Hn1 Hn2].
  destruct (log2_bounds (Zpos d) (Pos2Z.is_pos d)) as [Hd1 Hd2].
  set (a := Z.log2 n) in *. set (b := Z.log2 (Zpos d)) in *.
  assert (Hq : n # d == inject_Z n / inject_Z (Zpos d)) by apply Qmake_Qdiv.
  pose proof (pow2_pos a) as Ha. pose proof (pow2_pos b) as Hb.
  assert (Hd : 0 < inject_Z (Zpos d)) by (change 0 with (inject_Z 0); now rewrite <- Zlt_Qlt).
  assert (Hab : 2 ^ (a - b) == 2 ^ a / 2 ^ b) by apply (Qpower_minus 2 a b two_not_0).
  assert (Hup : n # d < 2 ^ (a - b + 1)).
  { rewrite pow2_succ, Hab, Hq.
    apply Qlt_shift_div_r; [exact Hd|].
    setoid_replace (2 * (2 ^ a / 2 ^ b) * inject_Z (Z.pos d))
      with ((2 * 2 ^ a) * (inject_Z (Z.pos d) / 2 ^ b)) by (field; lra).
    assert (H1 : 1 <= inject_Z (Z.pos d) / 2 ^ b)
      by (apply Qle_shift_div_l; [exact Hb | lra]).
    nra. }
  assert (Hlow : 2 ^ (a - b - 1) < n # d).
  { assert (Hs : 2 ^ (a - b) == 2 * 2 ^ (a - b - 1)).
    { rewrite <- pow2_succ. apply Qpower_comp; [reflexivity | lia]. }
    assert (H2 : 2 ^ (a - b) < 2 * (n # d)); [|lra].
    rewrite Hab, Hq.
    apply Qlt_shift_div_r; [exact Hb|].
    setoid_replace (2 * (inject_Z n / inject_Z (Z.pos d)) * 2 ^ b)
      with (inject_Z n * ((2 * 2 ^ b) / inject_Z (Z.pos d))) by (field; lra).
    assert (H1 : 1 < (2 * 2 ^ b) / inject_Z (Z.pos d))
      by (apply Qlt_shift_div_l; [exact Hd | lra]).
    nra. }
  destruct (Qle_bool (2 ^ (a - b)) (n # d)) eqn:Hc.
  - apply Qle_bool_iff in Hc. split; [exact Hc | exact Hup].
  - assert (Hlt : n # d < 2 ^ (a - b)).
    { apply Qnot_le_lt. intros Hle. apply Qle_bool_iff in Hle. congruence. }
    split; [lra|].
    assert (He : 2 ^ (a - b - 1 + 1) == 2 ^ (a - b))
      by (apply Qpower_comp; [reflexivity | lia]).
    rewrite He. exact Hlt.
Qed.

Lemma exponent_mono (x y : Q) :
  0 < x -> x <= y -> (Np.exponent x <= Np.exponent y)%Z.
Proof.
  intros Hx Hxy.
  destruct (exponent_spec x Hx) as [Hx1 _].
  destruct (exponent_spec y) as [_ Hy2]; [lra|].
  assert (H : 2 ^ Np.exponent x < 2 ^ (Np.exponent y + 1)) by lra.
  apply Qpower_lt_compat_l_inv in H; [lia | lra].
Qed.

Lemma exponent_comp (x y : Q) : 0 < x -> x == y -> Np.exponent x = Np.exponent y.
Proof.
  intros Hx H. apply Z.le_antisymm; apply exponent_mono; lra.
Qed.

(** The unit in the last place of the binade of [x]. *)
Lemma ulp_split (e : Z) : 2 ^ e == inject_Z (2 ^ 52) * 2 ^ (e - 52).
Proof.
  rewrite pow2_inject by lia. rewrite <- (Qpower_plus 2 52 (e - 52) two_not_0).
  apply Qpower_comp; [reflexivity | lia].
Qed.

(** The significand of a positive number is between [2^52] and [2^53]. *)
Lemma significand_bounds (x : Q) :
  0 < x ->
  (2 ^ 52 <= Np.rint (x / 2 ^ (Np.exponent x - 52)) <= 2 ^ 53)%Z.
Proof.
  intros Hx. destruct (exponent_spec x Hx) as [H1 H2].
  set (e := Np.exponent x) in *.
  pose proof (pow2_pos (e - 52)) as Hu.
  rewrite (ulp_split e) in H1.
  rewrite pow2_succ, (ulp_split e) in H2.
  split.
  - rewrite <- (rint_inject_Z (2 ^ 52)). apply rint_mono.
    apply Qle_shift_div_l; [exact Hu | exact H1].
  - rewrite <- (rint_inject_Z (2 ^ 53)). apply rint_mono.
    apply Qle_shift_div_r; [exact Hu|].
    change (2 ^ 53)%Z with (2 * 2 ^ 52)%Z. rewrite inject_Z_mult.
    change (inject_Z 2) with 2. lra.
Qed.

(** A positive number and its nearest float are in the same binade, ends
    included. *)
Lemma float64_pos (x : Q) :
  0 < x ->
  2 ^ Np.exponent x <= Np.float64 x /\ Np.float64 x <= 2 ^ (Np.exponent x + 1).
Proof.
  intros Hx. unfold Np.float64.
  rewrite (exponent_comp (Qabs x) x) by (rewrite Qabs_pos; lra).
  destruct (significand_bounds x Hx) as [H1 H2].
  set (e := Np.exponent x) in *.
  pose proof (pow2_pos (e - 52)) as Hu.
  rewrite Zle_Qle in H1, H2.
  rewrite pow2_succ, (ulp_split e).
  change (2 ^ 53)%Z with (2 * 2 ^ 52)%Z in H2. rewrite inject_Z_mult in H2.
  change (inject_Z 2) with 2 in H2.
  split; nra.
Qed.

Lemma float64_neg (x : Q) :
  x < 0 ->
  - 2 ^ (Np.exponent (- x) + 1) <= Np.float64 x
  /\ Np.float64 x <= - 2 ^ Np.exponent (- x).
Proof.
  intros Hx. unfold Np.float64.
  assert (Hnx : 0 < - x) by lra.
  rewrite (exponent_comp (Qabs x) (- x)) by (rewrite Qabs_neg; lra).
  destruct (exponent_spec (- x) Hnx) as [H1 H2].
  set (e := Np.exponent (- x)) in *.
  pose proof (pow2_pos (e - 52)) as Hu.
  rewrite (ulp_split e) in H1.
  rewrite pow2_succ, (ulp_split e) in H2.
  rewrite pow2_succ, (ulp_split e).
  assert (Hlo : (- 2 ^ 53 <= Np.rint (x / 2 ^ (e - 52)))%Z).
  { rewrite <- (rint_inject_Z (- 2 ^ 53)). apply rint_mono.
    apply Qle_shift_div_l; [exact Hu|].
    change (- 2 ^ 53)%Z with (- (2 * 2 ^ 52))%Z.
    rewrite inject_Z_opp, inject_Z_mult. change (inject_Z 2) with 2. lra. }
  assert (Hhi : (Np.rint (x / 2 ^ (e - 52)) <= - 2 ^ 52)%Z).
  { rewrite <- (rint_inject_Z (- 2 ^ 52)). apply rint_mono.
    apply Qle_shift_div_r; [exact Hu|].
    rewrite inject_Z_opp. lra. }
  rewrite Zle_Qle in Hlo, Hhi.
  change (- 2 ^ 53)%Z with (- (2 * 2 ^ 52))%Z in Hlo.
  rewrite inject_Z_opp, inject_Z_mult in Hlo. change (inject_Z 2) with 2 in Hlo.
  rewrite inject_Z_opp in Hhi.
  split; nra.
Qed.

Lemma float64_0 (x : Q) : x == 0 -> Np.float64 x == 0.
Proof.
  intros H. unfold Np.float64.
  assert (Hr : Np.rint (x / 2 ^ (Np.exponent (Qabs x) - 52)) = 0%Z).
  { rewrite <- (rint_inject_Z 0). apply rint_comp.
    set (u := 2 ^ _). rewrite H. change (inject_Z 0) with 0.
    unfold Qdiv. apply Qmult_0_l. }
  rewrite Hr. change (inject_Z 0) with 0. lra.
Qed.

(** Rounding to the nearest float keeps the order. *)
Lemma float64_mono (x y : Q) : x <= y -> Np.float64 x <= Np.float64 y.
Proof.
  intros Hxy.
  destruct (Q_dec x 0) as [[Hx|Hx]|Hx], (Q_dec y 0) as [[Hy|Hy]|Hy];
    try lra.
  - (* both negative *)
    destruct (float64_neg x Hx) as [_ Hx2].
    destruct (float64_neg y Hy) as [Hy1 _].
    assert (He : (Np.exponent (- y) <= Np.exponent (- x))%Z)
      by (apply exponent_mono; lra).
    destruct (Z.eq_dec (Np.exponent (- y)) (Np.exponent (- x))) as [Heq|Hne].
    + unfold Np.float64.
      rewrite (exponent_comp (Qabs x) (- x)) by (rewrite Qabs_neg; lra).
      rewrite (exponent_comp (Qabs y) (- y)) by (rewrite Qabs_neg; lra).
      rewrite Heq.
      pose proof (pow2_pos (Np.exponent (- x) - 52)) as Hu.
      assert (Hr : (Np.rint (x / 2 ^ (Np.exponent (- x) - 52))
                    <= Np.rint (y / 2 ^ (Np.exponent (- x) - 52)))%Z).
      { apply rint_mono. apply Qle_shift_div_l; [exact Hu|].
        setoid_replace (x / 2 ^ (Np.exponent (- x) - 52) * 2 ^ (Np.exponent (- x) - 52))
          with x by (field; lra). exact Hxy. }
      rewrite Zle_Qle in Hr. nra.
    + assert (Hp : 2 ^ (Np.exponent (- y) + 1) <= 2 ^ Np.exponent (- x))
        by (apply pow2_le; lia).
      lra.
  - destruct (float64_neg x Hx) as [_ Hx2].
    destruct (float64_pos y Hy) as [Hy1 _].
    pose proof (pow2_pos (Np.exponent (- x))). pose proof (pow2_pos (Np.exponent y)).
    lra.
  - destruct (float64_neg x Hx) as [_ Hx2].
    rewrite (float64_0 y Hy).
    pose proof (pow2_pos (Np.exponent (- x))). lra.
  - (* both positive *)
    destruct (float64_pos x Hx) as [_ Hx2].
    destruct (float64_pos y Hy) as [Hy1 _].
    assert (He : (Np.exponent x <= Np.exponent y)%Z)
      by (apply exponent_mono; lra).
    destruct (Z.eq_dec (Np.exponent x) (Np.exponent y)) as [Heq|Hne].
    + unfold Np.float64.
      rewrite (exponent_comp (Qabs x) x) by (rewrite Qabs_pos; lra).
      rewrite (exponent_comp (Qabs y) y) by (rewrite Qabs_pos; lra).
      rewrite Heq.
      pose proof (pow2_pos (Np.exponent y - 52)) as Hu.
      assert (Hr : (Np.rint (x / 2 ^ (Np.exponent y - 52))
                    <= Np.rint (y / 2 ^ (Np.exponent y - 52)))%Z).
      { apply rint_mono. apply Qle_shift_div_l; [exact Hu|].
        setoid_replace (x / 2 ^ (Np.exponent y - 52) * 2 ^ (Np.exponent y - 52))
          with x by (field; lra). exact Hxy. }
      rewrite Zle_Qle in Hr. nra.
    + assert (Hp : 2 ^ (Np.exponent x + 1) <= 2 ^ Np.exponent y)
        by (apply pow2_le; lia).
      lra.
  - rewrite (float64_0 x Hx).
    destruct (float64_pos y Hy) as [Hy1 _].
    pose proof (pow2_pos (Np.exponent y)). lra.
  - rewrite (float64_0 x Hx), (float64_0 y Hy). lra.
Qed.

(** The representation error is at most [2^-53] of the float. *)
Lemma float64_error (x : Q) :
  Qabs (Np.float64 x - x) <= Qabs (Np.float64 x) * (1 # 9007199254740992).
Proof.
  assert (Hhalf : forall e : Z, 2 ^ (e - 52) * (1 # 2) == 2 ^ e * (1 # 9007199254740992)).
  { intros e. rewrite (ulp_split e).
    change (inject_Z (2 ^ 52)) with (4503599627370496 # 1). field. }
  assert (Herr : forall u : Q, 0 < u ->
            Qabs (inject_Z (Np.rint (x / u)) * u - x) <= u * (1 # 2)).
  { intros u Hu. destruct (rint_close (x / u)) as [H1 H2].
    assert (Hx : x == (x / u) * u) by (field; lra).
    set (q := x / u) in *.
    apply Qabs_Qle_condition. split.
    - rewrite Hx at 1. nra.
    - rewrite Hx at 1. nra. }
  destruct (Q_dec x 0) as [[Hx|Hx]|Hx].
  - destruct (float64_neg x Hx) as [_ H2].
    pose proof (pow2_pos (Np.exponent (- x))) as Hp.
    rewrite (Qabs_neg (Np.float64 x)) by lra.
    unfold Np.float64 at 1.
    rewrite (exponent_comp (Qabs x) (- x)) by (rewrite Qabs_neg; lra).
    eapply Qle_trans; [apply Herr, pow2_pos|].
    rewrite Hhalf. nra.
  - destruct (float64_pos x Hx) as [H1 _].
    pose proof (pow2_pos (Np.exponent x)) as Hp.
    rewrite (Qabs_pos (Np.float64 x)) by lra.
    unfold Np.float64 at 1.
    rewrite (exponent_comp (Qabs x) x) by (rewrite Qabs_pos; lra).
    eapply Qle_trans; [apply Herr, pow2_pos|].
    rewrite Hhalf. nra.
  - pose proof (float64_0 x Hx) as H0.
    pose proof (Qabs_nonneg (Np.float64 x)) as Hn.
    apply Qabs_Qle_condition. split; lra.
Qed.

(** ** The rounded values, as they are stored *)

Lemma round3_mono (x y : Q) : x <= y -> Np.round3 x <= Np.round3 y.
Proof.
  intros H. unfold Np.round3. now apply float64_mono, decimal3_mono.
Qed.

(** A bound that is stored as it is stays a bound after the rounding. *)
Lemma round3_lower (c x : Q) : Np.round3 c == c -> c <= x -> c <= Np.round3 x.
Proof.
  intros Hc Hx. pose proof (round3_mono c x Hx). lra.
Qed.

Lemma round3_upper (c x : Q) : Np.round3 c == c -> x <= c -> Np.round3 x <= c.
Proof.
  intros Hc Hx. pose proof (round3_mono x c Hx). lra.
Qed.

(** The rounded difference and the difference of the rounded values, as
    stored, are at most 0.001 apart, up to the representation error of the
    three floats. *)
Lemma round3_sub (a b : Q) :
  Qabs (Np.round3 (a - b) - (Np.round3 a - Np.round3 b))
  <= 0.001
     + (Qabs (Np.round3 (a - b)) + Qabs (Np.round3 a) + Qabs (Np.round3 b))
       * (1 # 9007199254740992).
Proof.
  pose proof (decimal3_sub a b) as Hd.
  pose proof (float64_error (Np.decimal3 (a - b))) as Hc.
  pose proof (float64_error (Np.decimal3 a)) as Ha.
  pose proof (float64_error (Np.decimal3 b)) as Hb.
  fold (Np.round3 (a - b)) in Hc. fold (Np.round3 a) in Ha. fold (Np.round3 b) in Hb.
  set (ec := Qabs (Np.round3 (a - b)) * (1 # 9007199254740992)) in *.
  set (ea := Qabs (Np.round3 a) * (1 # 9007199254740992)) in *.
  set (eb := Qabs (Np.round3 b) * (1 # 9007199254740992)) in *.
  apply Qabs_Qle_condition in Hd, Hc, Ha, Hb.
  apply Qabs_Qle_condition.
  assert (He : (Qabs (Np.round3 (a - b)) + Qabs (Np.round3 a) + Qabs (Np.round3 b))
               * (1 # 9007199254740992) == ec + ea + eb)
    by (unfold ec, ea, eb; ring).
  rewrite He. split; lra.
Qed.

(* ------------------------------------------------------------------ *)
(** ** One run of the loop body *)

Section BodyFacts.
Context {E : Externals}.

Lemma last_item_app_cons {A} (l1 l2 : list A) :
  l2 <> [] -> last_item (l1 ++ l2) = last_item l2.
Proof.
  intros H. induction l1 as [|y l1 IH]; [reflexivity|].
  cbn [app last_item]. destruct (l1 ++ l2) eqn:Hl; [|exact IH].
  apply app_eq_nil in Hl. tauto.
Qed.

Lemma last_item_none {A} (l : list A) : last_item l = None -> l = [].
Proof.
  induction l as [|x l IH]; [reflexivity|].
  cbn [last_item]. destruct l; [discriminate|]. intros H. discriminate (IH H).
Qed.

Ltac sim_cbn :=
  lazy beta iota zeta delta
    [sample rng drawn records bind ret rng_normal rng_uniform rng_random call
     records_last records_append].

(** Run the body: choose a branch at each test whose condition is closed,
    and read [records[-1]] with the equations at hand. *)
Ltac sim_step :=
  first
    [ match goal with
      | H : last_item ?l = _ |- context [last_item ?l] => rewrite H
      end
    | match goal with
      | |- context [if ?c then _ else _] => destruct c eqn:?
      end ];
  sim_cbn.

Ltac sim_run := sim_cbn; repeat sim_step.

Lemma genera_record_frame appez gt i d g pd ds pr rs :
  i = 0%Z \/ rs <> [] ->
  genera_record appez gt i d (mkStato g (ds ++ pd) (pr ++ rs))
  = lift (extend pd pr) (genera_record appez gt i d (mkStato g ds rs)).
Proof.
  intros H. unfold genera_record.
  destruct (i =? 0)%Z eqn:Hi; [|apply Z.eqb_neq in Hi].
  - (sim_run; unfold lift, extend; cbn [rng drawn records app];
      rewrite <- app_assoc; reflexivity).
  - assert (Hrs : rs <> []) by tauto.
    pose proof (last_item_app_cons pr rs Hrs) as Hl.
    destruct (last_item rs) as [prev|] eqn:Hlast.
    + (sim_run; unfold lift, extend; cbn [rng drawn records app];
        rewrite <- app_assoc; reflexivity).
    + sim_run; reflexivity.
Qed.

Lemma genera_record_runs appez appez' gt i d g rs rs' :
  i = 0%Z \/ (rs <> [] /\ rs' <> []) ->
  exists g' seg r r',
    genera_record appez gt i d (mkStato g [] rs)
      = Ok (tt, mkStato g' seg (rs ++ [r]))
    /\ genera_record appez' gt i d (mkStato g [] rs')
      = Ok (tt, mkStato g' seg (rs' ++ [r']))
    /\ Rec.id_appezzamento r = id_appezzamento appez
    /\ Rec.id_appezzamento r' = id_appezzamento appez'.
Proof.
  intros H. unfold genera_record.
  destruct (i =? 0)%Z eqn:Hi; [|apply Z.eqb_neq in Hi].
  - (sim_run; do 4 eexists; repeat split; reflexivity).
  - destruct H as [H|[H1 H2]]; [contradiction|].
    destruct (last_item rs) as [prev|] eqn:Hlast;
      [|apply last_item_none in Hlast; contradiction].
    destruct (last_item rs') as [prev'|] eqn:Hlast';
      [|apply last_item_none in Hlast'; contradiction].
    (sim_run; do 4 eexists; repeat split; reflexivity).
Qed.


Lemma genera_record_raises appez gt i d g ds :
  i <> 0%Z -> genera_record appez gt i d (mkStato g ds []) = Raise IndexError.
Proof.
  intros Hi. unfold genera_record. apply Z.eqb_neq in Hi. rewrite Hi.
  sim_run; reflexivity.
Qed.

(** The two runs of the body that can return: the first day, and a later
    day with a previous record. *)
Lemma genera_record_ok appez gt i d s s' :
  genera_record appez gt i d s = Ok (tt, s') -> i = 0%Z \/ records s <> [].
Proof.
  intros H. destruct (Z.eq_dec i 0) as [Hi|Hi]; [now left|right].
  intros Hr. destruct s as [g ds rs]. cbn [records] in Hr. subst rs.
  rewrite (genera_record_raises _ _ _ _ _ _ Hi) in H. discriminate.
Qed.

Lemma genera_record_shape appez gt i d s :
  i = 0%Z \/ records s <> [] ->
  exists g' seg r,
    genera_record appez gt i d s
      = Ok (tt, mkStato g' (seg ++ drawn s) (records s ++ [r]))
    /\ Rec.id_appezzamento r = id_appezzamento appez.
Proof.
  intros H. destruct s as [g ds rs]. cbn [records drawn] in *.
  destruct (genera_record_runs appez appez gt i d g rs rs) as (g' & seg & r & _ & H1 & _ & Hid & _);
    [tauto|].
  exists g', seg, r. split; [|exact Hid].
  change (mkStato g ds rs) with (mkStato g ([] ++ ds) ([] ++ rs)).
  rewrite genera_record_frame by exact H. rewrite H1. reflexivity.
Qed.

Section Bounds.

Hypothesis uniform_in_range : UniformInRange E.

Lemma uniform_lower (c low high : Q) (g : Generator) :
  c <= low -> low <= high -> c <= fst (gen_uniform low high g).
Proof.
  intros Hc Hlh. destruct (uniform_in_range low high g Hlh) as [H _]. lra.
Qed.

Lemma uniform_upper (c low high : Q) (g : Generator) :
  high <= c -> low <= high -> fst (gen_uniform low high g) <= c.
Proof.
  intros Hc Hlh. destruct (uniform_in_range low high g Hlh) as [_ H]. lra.
Qed.

Ltac bound :=
  first
    [ apply clip_bounds; lra
    | apply max_lower
    | apply Qle_refl
    | apply uniform_lower; lra
    | apply uniform_upper; lra
    | apply Qle_trans with (y := (5 + 0)%Q); [lra|];
      apply Qplus_le_compat; [apply max_lower | apply uniform_lower; lra] ].

Lemma genera_record_bounds appez gt i d g ds rs :
  match genera_record appez gt i d (mkStato g ds rs) with
  | Ok (_, s') => exists r, records s' = rs ++ [r] /\ in_bounds r
  | Raise _ => True
  end.
Proof.
  unfold genera_record.
  destruct (i =? 0)%Z eqn:Hi.
  - (sim_run; eexists; (split; [reflexivity|]);
      unfold in_bounds; cbv beta iota delta [Rec.umidita_suolo_pct Rec.precipitazioni_mm
        Rec.nutrienti_n Rec.nutrienti_p Rec.nutrienti_k Rec.stadio_crescita Rec.resa_kg_ha
        Rec.costo_totale_eur Rec.ricavi_totali_eur];
      repeat split; bound).
  - destruct (last_item rs) as [prev|] eqn:Hlast.
    + (sim_run; eexists; (split; [reflexivity|]);
      unfold in_bounds; cbv beta iota delta [Rec.umidita_suolo_pct Rec.precipitazioni_mm
        Rec.nutrienti_n Rec.nutrienti_p Rec.nutrienti_k Rec.stadio_crescita Rec.resa_kg_ha
        Rec.costo_totale_eur Rec.ricavi_totali_eur];
      repeat split; bound).
    + sim_run; exact I.
Qed.

End Bounds.

Lemma genera_record_margine appez gt i d g ds rs :
  match genera_record appez gt i d (mkStato g ds rs) with
  | Ok (_, s') =>
      exists r, records s' = rs ++ [r]
        /\ Rec.margine_eur r = Rec.ricavi_totali_eur r - Rec.costo_totale_eur r
  | Raise _ => True
  end.
Proof.
  unfold genera_record.
  destruct (i =? 0)%Z eqn:Hi.
  - sim_run; eexists; (split; [reflexivity|]);
      cbv beta iota delta
        [Rec.margine_eur Rec.ricavi_totali_eur Rec.costo_totale_eur];
      reflexivity.
  - destruct (last_item rs) as [prev|] eqn:Hlast.
    + sim_run; eexists; (split; [reflexivity|]);
        cbv beta iota delta
          [Rec.margine_eur Rec.ricavi_totali_eur Rec.costo_totale_eur];
        reflexivity.
    + sim_run; exact I.
Qed.


Lemma below_lt (x y : Q) : Spec.below x y = Py.lt x y.
Proof.
  unfold Spec.below. destruct (Qlt_le_dec x y) as [H|H]; symmetry.
  - now apply lt_true.
  - now apply lt_false.
Qed.

Lemma penalita_umidita_spec (u : Q) : penalita_umidita u = Spec.moisture_penalty u.
Proof.
  unfold penalita_umidita, Spec.moisture_penalty, Py.gt.
  rewrite !below_lt. reflexivity.
Qed.

Lemma penalita_nutrienti_spec (n p k : Q) :
  penalita_nutrienti ((n + p + k) / 3) = Spec.nutrient_penalty n p k.
Proof.
  unfold penalita_nutrienti, Spec.nutrient_penalty.
  rewrite !below_lt. reflexivity.
Qed.

Lemma max_Qmax (a b : Q) : Py.max a b == Qmax a b.
Proof.
  unfold Py.max. destruct (Py.lt a b) eqn:H.
  - apply lt_true in H. rewrite Q.max_r; [reflexivity | lra].
  - apply lt_false in H. rewrite Q.max_l; [reflexivity | lra].
Qed.

Lemma resa_spec (stadio u n p k z : Q) :
  Py.max 0
    (stadio * 80
     * Py.max 0.1 (1 - (penalita_umidita u + penalita_nutrienti ((n + p + k) / 3)))
     + z)
  == Spec.yield_kg_ha stadio u n p k z.
Proof.
  unfold Spec.yield_kg_ha, Spec.combined_factor.
  rewrite penalita_umidita_spec, penalita_nutrienti_spec, !max_Qmax.
  apply Q.max_compat; [reflexivity|].
  apply Qplus_comp; [|reflexivity].
  apply Qmult_comp; [reflexivity|].
  apply Q.max_compat; [reflexivity|]. ring.
Qed.

Lemma genera_record_resa appez gt i d g rs :
  match genera_record appez gt i d (mkStato g [] rs) with
  | Ok (_, s') =>
      exists r z c1 c2 pre,
        records s' = rs ++ [r]
        /\ drawn s' = (Normal 0 2, c2) :: (Normal 0 3, c1) :: (Normal 0 3, z) :: pre
        /\ Rec.resa_kg_ha r
           == Spec.yield_kg_ha (Rec.stadio_crescita r) (Rec.umidita_suolo_pct r)
                (Rec.nutrienti_n r) (Rec.nutrienti_p r) (Rec.nutrienti_k r) z
        /\ Rec.resa_totale_kg r
           = Spec.yield_total_kg (Rec.resa_kg_ha r) (superficie_ha appez)
        /\ Rec.superficie_ha r = superficie_ha appez
  | Raise _ => True
  end.
Proof.
  unfold genera_record.
  destruct (i =? 0)%Z eqn:Hi.
  - sim_run; do 5 eexists; (split; [reflexivity|]); (split; [reflexivity|]);
      cbv beta iota delta
        [Rec.resa_kg_ha Rec.resa_totale_kg Rec.stadio_crescita
         Rec.umidita_suolo_pct Rec.nutrienti_n Rec.nutrienti_p Rec.nutrienti_k
         Rec.superficie_ha Spec.yield_total_kg];
      (split; [apply resa_spec | split; reflexivity]).
  - destruct (last_item rs) as [prev|] eqn:Hlast.
    + sim_run; do 5 eexists; (split; [reflexivity|]); (split; [reflexivity|]);
        cbv beta iota delta
          [Rec.resa_kg_ha Rec.resa_totale_kg Rec.stadio_crescita
           Rec.umidita_suolo_pct Rec.nutrienti_n Rec.nutrienti_p Rec.nutrienti_k
           Rec.superficie_ha Spec.yield_total_kg];
        (split; [apply resa_spec | split; reflexivity]).
    + sim_run; exact I.
Qed.


Lemma max_nonpos (x : Q) : x <= 0 -> Py.max 0 x = 0.
Proof.
  intros H. unfold Py.max. apply lt_false in H. rewrite H. reflexivity.
Qed.

Lemma gt_max_pos (x : Q) : Py.gt (Py.max 0 x) 0 = true -> 0 < x.
Proof.
  unfold Py.gt, Py.max. destruct (Py.lt 0 x) eqn:H; intros H'.
  - now apply lt_true.
  - apply lt_true in H'. lra.
Qed.

(** The test [if precipitazioni_mm > 0] after a day without rain. *)
Ltac no_rain_no_recharge :=
  try match goal with
      | H : Py.gt 0 0 = true |- _ => vm_compute in H; discriminate H
      end.

Ltac rain_gate :=
  do 3 eexists; split; [reflexivity|]; intros Hgate;
  match goal with
  | H : Py.lt _ 0.3 = false |- _ => exfalso; apply lt_false in H; lra
  | H : Py.lt _ 0.3 = true |- _ =>
      do 2 eexists; split; [reflexivity|]; intros Hx;
      split; [apply max_nonpos; exact Hx|];
      first
        [ reflexivity
        | exfalso;
          match goal with
          | H' : Py.gt (Py.max 0 _) 0 = true |- _ => apply gt_max_pos in H'; lra
          end ]
  end.

Ltac rain_iff :=
  split; intros H0;
  [ first
      [ apply lt_true; assumption
      | lazy in H0; discriminate H0 ]
  | first
      [ reflexivity
      | exfalso;
        match goal with
        | H' : Py.gt _ 0 = false |- _ => apply lt_false in H'; lra
        end
      | exfalso; lra ] ].

Ltac rain_dry Hlast :=
  intros Hdry;
  first
    [ exfalso; apply Hdry; apply lt_true; assumption
    | do 2 eexists; split; [exact Hlast|]; split;
      [ cbn [In]; repeat first [left; reflexivity | right]
      | reflexivity ] ].

Ltac rain_wet Hlast :=
  intros Hwet;
  first
    [ exfalso;
      match goal with
      | H' : Py.gt _ 0 = false |- _ => apply lt_false in H'; lra
      end
    | exfalso; lra
    | do 3 eexists; split; [exact Hlast|]; split;
      [ cbn [In]; repeat first [left; reflexivity | right]
      | split;
        [ cbn [In]; repeat first [left; reflexivity | right]
        | reflexivity ] ] ].

Lemma genera_record_rain appez gt i d g rs :
  match genera_record appez gt i d (mkStato g [] rs) with
  | Ok (_, s') =>
      exists r, records s' = rs ++ [r] /\ rain_facts i rs (rev (drawn s')) r
  | Raise _ => True
  end.
Proof.
  unfold genera_record.
  destruct (i =? 0)%Z eqn:Hi; [apply Z.eqb_eq in Hi | apply Z.eqb_neq in Hi].
  - sim_run; eexists; (split; [reflexivity|]); unfold rain_facts;
      lazy beta iota delta [rev app drawn Rec.precipitazioni_mm Rec.umidita_suolo_pct];
      (split; [rain_gate|]);
      (split;
       [ intros _; split;
         [ reflexivity
         | eexists; split;
           [ cbn [In]; repeat first [left; reflexivity | right]
           | reflexivity ] ]
       | ]);
      (split; [intros Hn; contradiction|]);
      split; intros Hn; contradiction.
  - destruct (last_item rs) as [prev|] eqn:Hlast.
    + sim_run; no_rain_no_recharge;
        eexists; (split; [reflexivity|]); unfold rain_facts;
        lazy beta iota delta [rev app drawn Rec.precipitazioni_mm Rec.umidita_suolo_pct];
        (split; [rain_gate|]); (split; [intros Hn; contradiction|]);
        (split; [intros _; rain_iff|]);
        (split; intros _; [rain_dry Hlast | rain_wet Hlast]).
    + sim_run; exact I.
Qed.

End BodyFacts.

(* ------------------------------------------------------------------ *)
(** ** The loops *)

Section LoopFacts.
Context {E : Externals}.

(** The body on two plots, from the same generator: the same draws. *)
Lemma genera_record_indep appez appez' gt i d (s s' : Stato) :
  rng s = rng s' ->
  i = 0%Z \/ (records s <> [] /\ records s' <> []) ->
  exists g' seg r r',
    genera_record appez gt i d s
      = Ok (tt, mkStato g' (seg ++ drawn s) (records s ++ [r]))
    /\ genera_record appez' gt i d s'
      = Ok (tt, mkStato g' (seg ++ drawn s') (records s' ++ [r']))
    /\ Rec.id_appezzamento r = id_appezzamento appez
    /\ Rec.id_appezzamento r' = id_appezzamento appez'.
Proof.
  destruct s as [g ds rs], s' as [g0 ds' rs']. cbn [rng drawn records].
  intros <- H.
  destruct (genera_record_runs appez appez' gt i d g rs rs' H)
    as (g' & seg & r & r' & H1 & H2 & Hid & Hid').
  exists g', seg, r, r'. repeat split; try assumption.
  - change (mkStato g ds rs) with (mkStato g ([] ++ ds) ([] ++ rs)).
    rewrite genera_record_frame by tauto. rewrite H1. reflexivity.
  - change (mkStato g ds' rs') with (mkStato g ([] ++ ds') ([] ++ rs')).
    rewrite genera_record_frame by tauto. rewrite H2. reflexivity.
Qed.

Lemma giorni_da_cons appez gt k d dates s :
  giorni_da appez gt k (d :: dates) s
  = match genera_record appez gt k d s with
    | Ok (_, s') => giorni_da appez gt (k + 1) dates s'
    | Raise e => Raise e
    end.
Proof.
  unfold giorni_da. cbn [enumerate_from for_each]. unfold bind.
  destruct (genera_record appez gt k d s) as [[u s']|e]; reflexivity.
Qed.

Lemma app_not_nil {A} (l : list A) (x : A) : l ++ [x] <> [].
Proof. destruct l; discriminate. Qed.

Lemma giorni_da_frame appez gt dates : forall k g pd ds pr rs,
  (0 <= k)%Z -> k = 0%Z \/ rs <> [] ->
  giorni_da appez gt k dates (mkStato g (ds ++ pd) (pr ++ rs))
  = lift (extend pd pr) (giorni_da appez gt k dates (mkStato g ds rs)).
Proof.
  induction dates as [|d dates IH]; intros k g pd ds pr rs Hk H.
  - reflexivity.
  - rewrite !giorni_da_cons, genera_record_frame by exact H.
    destruct (genera_record_shape appez gt k d (mkStato g ds rs) H)
      as (g' & seg & r & Hrun & _).
    rewrite Hrun. cbn [lift extend rng drawn records].
    apply IH; [lia | right; apply app_not_nil].
Qed.

Lemma giorni_da_runs appez appez' gt dates : forall k (s s' : Stato),
  (0 <= k)%Z -> rng s = rng s' ->
  k = 0%Z \/ (records s <> [] /\ records s' <> []) ->
  exists g' seg b b',
    giorni_da appez gt k dates s
      = Ok (tt, mkStato g' (seg ++ drawn s) (records s ++ b))
    /\ giorni_da appez' gt k dates s'
      = Ok (tt, mkStato g' (seg ++ drawn s') (records s' ++ b'))
    /\ List.length b = List.length dates
    /\ List.length b' = List.length dates
    /\ Forall (fun r => Rec.id_appezzamento r = id_appezzamento appez) b
    /\ Forall (fun r => Rec.id_appezzamento r = id_appezzamento appez') b'.
Proof.
  induction dates as [|d dates IH]; intros k s s' Hk Hg H.
  - destruct s as [g ds rs], s' as [g0 ds' rs']. cbn [rng drawn records] in *.
    subst g0. exists g, [], [], []. rewrite !app_nil_r.
    repeat split; constructor.
  - rewrite !giorni_da_cons.
    destruct (genera_record_indep appez appez' gt k d s s' Hg H)
      as (g1 & seg1 & r & r' & H1 & H2 & Hid & Hid').
    rewrite H1, H2.
    destruct (IH (k + 1)%Z (mkStato g1 (seg1 ++ drawn s) (records s ++ [r]))
                 (mkStato g1 (seg1 ++ drawn s') (records s' ++ [r'])))
      as (g2 & seg2 & b & b' & H3 & H4 & Hl & Hl' & Hb & Hb').
    { lia. } { reflexivity. }
    { right. cbn [records]. split; apply app_not_nil. }
    cbn [rng drawn records] in H3, H4.
    exists g2, (seg2 ++ seg1), (r :: b), (r' :: b').
    rewrite H3, H4, <- !app_assoc. cbn [app List.length].
    repeat split; try (f_equal; assumption); constructor; assumption.
Qed.


Lemma simula_appezzamento_runs appez appez' gt dates g :
  exists g' b b',
    simula_appezzamento appez gt dates g = Ok (b, g')
    /\ simula_appezzamento appez' gt dates g = Ok (b', g')
    /\ List.length b = List.length dates
    /\ List.length b' = List.length dates
    /\ Forall (fun r => Rec.id_appezzamento r = id_appezzamento appez) b
    /\ Forall (fun r => Rec.id_appezzamento r = id_appezzamento appez') b'.
Proof.
  destruct (giorni_da_runs appez appez' gt dates 0 (mkStato g [] []) (mkStato g [] []))
    as (g' & seg & b & b' & H1 & H2 & Hl & Hl' & Hb & Hb'); [lia|reflexivity|now left|].
  exists g', b, b'. unfold simula_appezzamento, giorni. rewrite H1, H2.
  cbn [rng records app]. repeat split; assumption.
Qed.

(** The inner loop reads no record made before it started. *)
Lemma giorni_fresh appez gt dates (s : Stato) :
  giorni appez gt dates s
  = lift (extend (drawn s) (records s))
      (giorni appez gt dates (mkStato (rng s) [] [])).
Proof.
  destruct s as [g ds rs]. cbn [rng drawn records]. unfold giorni.
  rewrite <- giorni_da_frame; [|lia|now left].
  rewrite app_nil_r. reflexivity.
Qed.

(** The two loops are the plots one after the other, each on its own. *)
Lemma appezzamenti_giorni_per_plot gt dates : forall appezzamenti (s : Stato),
  match appezzamenti_giorni appezzamenti gt dates s with
  | Ok (_, s') => Ok (records s', rng s')
  | Raise e => Raise e
  end
  = match per_plot appezzamenti gt dates (rng s) with
    | Ok (recs, g') => Ok (records s ++ recs, g')
    | Raise e => Raise e
    end.
Proof.
  induction appezzamenti as [|appez rest IH]; intros s.
  - cbn. rewrite app_nil_r. reflexivity.
  - unfold appezzamenti_giorni in *. cbn [for_each per_plot]. unfold bind.
    rewrite giorni_fresh. unfold simula_appezzamento.
    destruct (giorni appez gt dates (mkStato (rng s) [] [])) as [[u s1]|e];
      cbn [lift]; [|reflexivity].
    rewrite IH. cbn [extend rng records].
    destruct (per_plot rest gt dates (rng s1)) as [[recs g']|e]; [|reflexivity].
    rewrite app_assoc. reflexivity.
Qed.

Lemma per_plot_app gt dates : forall ps1 ps2 g,
  per_plot (ps1 ++ ps2) gt dates g
  = match per_plot ps1 gt dates g with
    | Ok (b1, g1) =>
        match per_plot ps2 gt dates g1 with
        | Ok (b2, g2) => Ok (b1 ++ b2, g2)
        | Raise e => Raise e
        end
    | Raise e => Raise e
    end.
Proof.
  induction ps1 as [|appez ps1 IH]; intros ps2 g.
  - cbn. destruct (per_plot ps2 gt dates g) as [[b2 g2]|e]; reflexivity.
  - cbn [app per_plot].
    destruct (simula_appezzamento appez gt dates g) as [[b g1]|e]; [|reflexivity].
    rewrite IH.
    destruct (per_plot ps1 gt dates g1) as [[b1 g2]|e]; [|reflexivity].
    destruct (per_plot ps2 gt dates g2) as [[b2 g3]|e]; [|reflexivity].
    rewrite app_assoc. reflexivity.
Qed.

Lemma per_plot_total gt dates : forall appezzamenti g,
  exists recs g',
    per_plot appezzamenti gt dates g = Ok (recs, g')
    /\ List.length recs = (List.length appezzamenti * List.length dates)%nat.
Proof.
  induction appezzamenti as [|appez rest IH]; intros g.
  - exists [], g. split; reflexivity.
  - destruct (simula_appezzamento_runs appez appez gt dates g)
      as (g1 & b & _ & H1 & _ & Hl & _).
    destruct (IH g1) as (recs & g2 & H2 & Hl2).
    exists (b ++ recs), g2. cbn [per_plot]. rewrite H1, H2.
    split; [reflexivity|]. rewrite length_app. cbn [List.length]. lia.
Qed.

(** Changing one plot changes its block of records and nothing else. *)
Lemma per_plot_isolation gt dates ps1 appez appez' ps2 g :
  exists b1 b b' b2 g',
    per_plot (ps1 ++ appez :: ps2) gt dates g = Ok (b1 ++ b ++ b2, g')
    /\ per_plot (ps1 ++ appez' :: ps2) gt dates g = Ok (b1 ++ b' ++ b2, g')
    /\ List.length b = List.length b'
    /\ Forall (fun r => Rec.id_appezzamento r = id_appezzamento appez) b
    /\ Forall (fun r => Rec.id_appezzamento r = id_appezzamento appez') b'.
Proof.
  destruct (per_plot_total gt dates ps1 g) as (b1 & g1 & H1 & _).
  destruct (simula_appezzamento_runs appez appez' gt dates g1)
    as (g2 & b & b' & Hb & Hb' & Hl & Hl' & Hid & Hid').
  destruct (per_plot_total gt dates ps2 g2) as (b2 & g3 & H2 & _).
  exists b1, b, b', b2, g3.
  rewrite !per_plot_app, H1. cbn [per_plot]. rewrite Hb, Hb', H2.
  repeat split; try assumption. congruence.
Qed.

(** An invariant of the body is an invariant of a loop. *)
Lemma for_each_invariant {A : Type} (I : Stato -> Prop) (body : A -> Sim unit) :
  (forall x s s', I s -> body x s = Ok (tt, s') -> I s') ->
  forall l s s', I s -> for_each l body s = Ok (tt, s') -> I s'.
Proof.
  intros Hbody. induction l as [|x l IH]; intros s s' Hs H.
  - cbn in H. injection H as <-. exact Hs.
  - cbn [for_each] in H. unfold bind in H.
    destruct (body x s) as [[[] s1]|e] eqn:Hx; [|discriminate].
    exact (IH s1 s' (Hbody x s s1 Hs Hx) H).
Qed.

(** A property of every record the body appends holds of every record. *)
Lemma appezzamenti_giorni_forall (P : Rec.t -> Prop) :
  (forall appez gt i d g ds rs,
      match genera_record appez gt i d (mkStato g ds rs) with
      | Ok (_, s') => exists r, records s' = rs ++ [r] /\ P r
      | Raise _ => True
      end) ->
  forall appezzamenti gt dates s s',
    Forall P (records s) ->
    appezzamenti_giorni appezzamenti gt dates s = Ok (tt, s') ->
    Forall P (records s').
Proof.
  intros Hbody appezzamenti gt dates.
  apply (for_each_invariant (fun s => Forall P (records s))).
  intros appez. unfold giorni, giorni_da.
  apply (for_each_invariant (fun s => Forall P (records s))).
  intros [i d] [g ds rs] s' Hs H.
  specialize (Hbody appez gt i d g ds rs). rewrite H in Hbody.
  destruct Hbody as (r & -> & Hr). cbn [records] in Hs.
  apply Forall_app. split; [exact Hs | constructor; [exact Hr | constructor]].
Qed.

End LoopFacts.

(* ------------------------------------------------------------------ *)
(** ** The order of the rows and the sort *)

Lemma ascii_compare_trans (a b c : ascii) (o : comparison) :
  Ascii.compare a b = o -> Ascii.compare b c = o -> Ascii.compare a c = o.
Proof.
  unfold Ascii.compare. intros <- H.
  destruct (N.compare_spec (N_of_ascii a) (N_of_ascii b));
    destruct (N.compare_spec (N_of_ascii b) (N_of_ascii c));
    destruct (N.compare_spec (N_of_ascii a) (N_of_ascii c));
    try reflexivity; try discriminate; lia.
Qed.

Lemma ascii_compare_eq (a b : ascii) : Ascii.compare a b = Eq -> a = b.
Proof. apply Ascii.compare_eq_iff. Qed.

Lemma string_leb_trans (s1 s2 s3 : string) :
  String.leb s1 s2 = true -> String.leb s2 s3 = true -> String.leb s1 s3 = true.
Proof.
  unfold String.leb. revert s2 s3.
  induction s1 as [|a s1 IH]; intros [|b s2] [|c s3]; cbn [String.compare];
    try reflexivity; try discriminate.
  destruct (Ascii.compare a b) eqn:Hab.
  - apply ascii_compare_eq in Hab. subst b.
    destruct (Ascii.compare a c) eqn:Hac; try reflexivity; try discriminate.
    apply IH.
  - destruct (Ascii.compare b c) eqn:Hbc.
    + apply ascii_compare_eq in Hbc. subst c. rewrite Hab. reflexivity.
    + rewrite (ascii_compare_trans a b c Lt Hab Hbc). reflexivity.
    + discriminate.
  - discriminate.
Qed.

Lemma row_le_trans (x y z : Rec.t) :
  row_le x y = true -> row_le y z = true -> row_le x z = true.
Proof.
  unfold row_le. intros H1 H2.
  apply orb_true_iff in H1. apply orb_true_iff in H2. apply orb_true_iff.
  rewrite !andb_true_iff, !Z.ltb_lt, !Z.eqb_eq in *.
  destruct H1 as [H1|[H1 L1]], H2 as [H2|[H2 L2]].
  - left. lia.
  - left. lia.
  - left. lia.
  - right. split; [lia|]. exact (string_leb_trans _ _ _ L1 L2).
Qed.

Lemma row_le_total (x y : Rec.t) : row_le x y = false -> row_le y x = true.
Proof.
  unfold row_le. intros H.
  apply orb_false_iff in H. destruct H as [H1 H2].
  apply Z.ltb_ge in H1. apply orb_true_iff.
  destruct (Z.eq_dec (Rec.data x) (Rec.data y)) as [He|Hn].
  - right. rewrite He, Z.eqb_refl in *. cbn [andb] in *.
    destruct (String.leb_total (Rec.id_appezzamento x) (Rec.id_appezzamento y));
      congruence.
  - left. apply Z.ltb_lt. lia.
Qed.

Lemma insert_row_in (x y : Rec.t) (l : list Rec.t) :
  In y (insert_row x l) <-> y = x \/ In y l.
Proof.
  induction l as [|z l IH]; cbn [insert_row].
  - cbn. intuition congruence.
  - destruct (row_le x z); cbn [In] in *; intuition congruence.
Qed.

Lemma insert_row_sorted (x : Rec.t) (l : list Rec.t) :
  sorted_rows l -> sorted_rows (insert_row x l).
Proof.
  unfold sorted_rows. induction 1 as [|z l Hs IH Hz]; cbn [insert_row].
  - repeat constructor.
  - destruct (row_le x z) eqn:Hxz.
    + constructor; [constructor; assumption|].
      constructor; [exact Hxz|].
      eapply Forall_impl; [|exact Hz]. intros r. apply row_le_trans. exact Hxz.
    + constructor; [exact IH|].
      apply Forall_forall. intros r Hr. apply insert_row_in in Hr.
      destruct Hr as [->|Hr].
      * now apply row_le_total.
      * rewrite Forall_forall in Hz. now apply Hz.
Qed.

Lemma sort_rows_sorted (l : list Rec.t) : sorted_rows (sort_rows l).
Proof.
  induction l as [|x l IH]; [constructor|]. now apply insert_row_sorted.
Qed.

Lemma insert_row_length (x : Rec.t) (l : list Rec.t) :
  List.length (insert_row x l) = S (List.length l).
Proof.
  induction l as [|z l IH]; [reflexivity|]. cbn [insert_row].
  destruct (row_le x z); cbn [List.length]; congruence.
Qed.

Lemma sort_rows_length (l : list Rec.t) : List.length (sort_rows l) = List.length l.
Proof.
  induction l as [|x l IH]; [reflexivity|].
  cbn [sort_rows]. rewrite insert_row_length. cbn. congruence.
Qed.

Lemma sort_rows_in (x : Rec.t) (l : list Rec.t) : In x (sort_rows l) <-> In x l.
Proof.
  induction l as [|z l IH]; [reflexivity|].
  cbn [sort_rows]. rewrite insert_row_in. cbn [In]. intuition congruence.
Qed.

Lemma sort_rows_forall (P : Rec.t -> Prop) (l : list Rec.t) :
  Forall P l -> Forall P (sort_rows l).
Proof.
  rewrite !Forall_forall. intros H x Hx. apply H. now apply sort_rows_in.
Qed.

(** Inserting before a list of rows that all come after. *)
Lemma insert_row_first (x : Rec.t) (l : list Rec.t) :
  Forall (fun y => row_le x y = true) l -> insert_row x l = x :: l.
Proof.
  intros H. destruct H as [|z l Hz _]; [reflexivity|].
  cbn [insert_row]. rewrite Hz. reflexivity.
Qed.

Lemma filter_insert_row (P : Rec.t -> bool) (x : Rec.t) (l : list Rec.t) :
  sorted_rows l ->
  filter P (insert_row x l)
  = if P x then insert_row x (filter P l) else filter P l.
Proof.
  unfold sorted_rows. induction 1 as [|z l Hs IH Hz]; cbn [insert_row filter].
  - destruct (P x); reflexivity.
  - destruct (row_le x z) eqn:Hxz.
    + cbn [filter]. destruct (P x) eqn:Hx; [|reflexivity].
      symmetry. apply insert_row_first.
      assert (Hall : Forall (fun y => row_le x y = true) (z :: l)).
      { constructor; [exact Hxz|].
        eapply Forall_impl; [|exact Hz]. intros r. apply row_le_trans. exact Hxz. }
      change (Forall (fun y => row_le x y = true) (filter P (z :: l))).
      rewrite Forall_forall in *. intros y Hy. apply Hall.
      apply filter_In in Hy. tauto.
    + cbn [filter]. rewrite IH.
      destruct (P z), (P x); cbn [insert_row]; rewrite ?Hxz; reflexivity.
Qed.

(** The sort is stable: the rows of one plot keep their order. *)
Lemma filter_sort_rows (P : Rec.t -> bool) (l : list Rec.t) :
  filter P (sort_rows l) = sort_rows (filter P l).
Proof.
  induction l as [|x l IH]; [reflexivity|].
  cbn [sort_rows filter].
  rewrite filter_insert_row by apply sort_rows_sorted.
  rewrite IH. destruct (P x); reflexivity.
Qed.

Lemma rows_of_round (id : string) (l : list Rec.t) :
  rows_of id (map round_row l) = map round_row (rows_of id l).
Proof.
  unfold rows_of. induction l as [|x l IH]; [reflexivity|].
  cbn [map filter]. rewrite IH.
  change (Rec.id_appezzamento (round_row x)) with (Rec.id_appezzamento x).
  destruct (String.eqb (Rec.id_appezzamento x) id); reflexivity.
Qed.

Lemma rows_of_other (id : string) (p : Appezzamento) (b : list Rec.t) :
  id <> id_appezzamento p ->
  Forall (fun r => Rec.id_appezzamento r = id_appezzamento p) b ->
  rows_of id b = [].
Proof.
  intros Hid Hb. unfold rows_of. induction Hb as [|x b Hx Hb IH]; [reflexivity|].
  cbn [filter]. rewrite Hx.
  destruct (String.eqb_spec (id_appezzamento p) id) as [He|_]; [congruence|exact IH].
Qed.

(* ------------------------------------------------------------------ *)
(** ** The date index *)

Lemma last_item_app {A : Type} (l : list A) (x : A) : last_item (l ++ [x]) = Some x.
Proof. rewrite last_item_app_cons; [reflexivity | discriminate]. Qed.

Lemma date_range_length (start stop : Timestamp) :
  List.length (date_range start stop) = Z.to_nat (days_inclusive start stop).
Proof.
  unfold date_range, days_inclusive. now rewrite length_map, length_seq.
Qed.

Lemma date_range_empty (start stop : Timestamp) :
  (stop < start)%Z -> date_range start stop = [].
Proof.
  intros H. unfold date_range.
  replace (Z.to_nat (stop - start + 1)) with 0%nat by lia. reflexivity.
Qed.

Lemma date_range_first_last (start stop : Timestamp) :
  (start <= stop)%Z ->
  hd_error (date_range start stop) = Some start
  /\ last_item (date_range start stop) = Some stop.
Proof.
  intros H. unfold date_range.
  destruct (Z.to_nat (stop - start + 1)) as [|n] eqn:Hn; [lia|]. split.
  - cbn [seq map hd_error]. f_equal. lia.
  - rewrite seq_S, map_app. cbn [map]. rewrite last_item_app.
    f_equal. lia.
Qed.

Section RunFacts.
Context {E : Externals}.

Lemma simula_empty_range w start stop appezzamenti random_state :
  (stop < start)%Z ->
  simula w start stop appezzamenti random_state = Raise IndexError.
Proof.
  intros H. unfold simula. rewrite (date_range_empty _ _ H). reflexivity.
Qed.

Lemma simula_loops w start stop appezzamenti random_state :
  (start <= stop)%Z ->
  simula w start stop appezzamenti random_state
  = match appezzamenti_giorni (plots_of appezzamenti) (days_inclusive start stop)
            (date_range start stop) (mkStato (seeded w random_state) [] []) with
    | Ok (_, s) => Ok s
    | Raise e => Raise e
    end.
Proof.
  intros H. unfold simula.
  destruct (date_range_first_last start stop H) as [-> ->].
  reflexivity.
Qed.

(** A run over a range that is not empty is the plots one after the other. *)
Lemma simula_per_plot w start stop appezzamenti random_state :
  (start <= stop)%Z ->
  exists s,
    simula w start stop appezzamenti random_state = Ok s
    /\ per_plot (plots_of appezzamenti) (days_inclusive start stop)
         (date_range start stop) (seeded w random_state)
       = Ok (records s, rng s).
Proof.
  intros H. rewrite (simula_loops _ _ _ _ _ H).
  pose proof (appezzamenti_giorni_per_plot (days_inclusive start stop)
                (date_range start stop) (plots_of appezzamenti)
                (mkStato (seeded w random_state) [] [])) as Hpp.
  cbn [rng records app] in Hpp.
  destruct (per_plot_total (days_inclusive start stop) (date_range start stop)
              (plots_of appezzamenti) (seeded w random_state))
    as (recs & g' & Hrecs & _).
  rewrite Hrecs in Hpp |- *.
  destruct (appezzamenti_giorni _ _ _ _) as [[u s]|e]; [|discriminate].
  exists s. split; [reflexivity|]. congruence.
Qed.

Lemma simula_length w start stop appezzamenti random_state s :
  simula w start stop appezzamenti random_state = Ok s ->
  List.length (records s)
  = (List.length (plots_of appezzamenti)
     * Z.to_nat (days_inclusive start stop))%nat.
Proof.
  intros Hs. destruct (Z_lt_le_dec stop start) as [Hlt|Hle].
  - rewrite (simula_empty_range _ _ _ _ _ Hlt) in Hs. discriminate.
  - destruct (simula_per_plot w start stop appezzamenti random_state Hle)
      as (s0 & Hs0 & Hpp).
    rewrite Hs in Hs0. injection Hs0 as <-.
    destruct (per_plot_total (days_inclusive start stop) (date_range start stop)
                (plots_of appezzamenti) (seeded w random_state))
      as (recs & g' & Hrecs & Hlen).
    rewrite Hpp in Hrecs. injection Hrecs as <- <-.
    rewrite Hlen, date_range_length. reflexivity.
Qed.

Lemma sort_from_records (recs : list Rec.t) :
  sort_values (from_records recs)
  = match recs with
    | [] => Raise (KeyError "data")
    | _ :: _ => Ok (mkDataFrame Rec.keys (sort_rows recs))
    end.
Proof. destruct recs; reflexivity. Qed.

(** [genera_dati] in three steps: the loops, the frame, the export. *)
Lemma genera_dati_steps w start stop appezzamenti random_state salva_csv nome_file :
  genera_dati w start stop appezzamenti random_state salva_csv nome_file
  = match simula w start stop appezzamenti random_state with
    | Raise e => Raise e
    | Ok s =>
        match records s with
        | [] => Raise (KeyError "data")
        | _ :: _ =>
            if salva_csv then
              match salva w (dataset s) nome_file with
              | Raise e => Raise e
              | Ok w' => Ok (dataset s, w')
              end
            else Ok (dataset s, w)
        end
    end.
Proof.
  unfold genera_dati.
  destruct (simula w start stop appezzamenti random_state) as [s|e]; [|reflexivity].
  rewrite sort_from_records. unfold dataset.
  destruct (records s); reflexivity.
Qed.

Lemma genera_dati_ok w start stop appezzamenti random_state salva_csv nome_file d w' :
  genera_dati w start stop appezzamenti random_state salva_csv nome_file = Ok (d, w') ->
  exists s,
    simula w start stop appezzamenti random_state = Ok s
    /\ records s <> [] /\ d = dataset s.
Proof.
  rewrite genera_dati_steps.
  destruct (simula w start stop appezzamenti random_state) as [s|e]; [|discriminate].
  destruct (records s) as [|r rs] eqn:Hr; [discriminate|].
  intros H. exists s. split; [reflexivity|]. split; [rewrite Hr; discriminate|].
  destruct salva_csv.
  - destruct (salva w (dataset s) nome_file); [|discriminate]. congruence.
  - congruence.
Qed.

Lemma genera_dati_empty_range w start stop appezzamenti random_state salva_csv
    nome_file :
  (stop < start)%Z ->
  genera_dati w start stop appezzamenti random_state salva_csv nome_file
  = Raise IndexError.
Proof.
  intros H. rewrite genera_dati_steps, simula_empty_range by exact H. reflexivity.
Qed.

(** Without export, a run over some days and some plots returns. *)
Lemma genera_dati_returns w start stop appezzamenti random_state nome_file :
  (start <= stop)%Z -> plots_of appezzamenti <> [] ->
  exists s,
    simula w start stop appezzamenti random_state = Ok s
    /\ genera_dati w start stop appezzamenti random_state false nome_file
       = Ok (dataset s, w).
Proof.
  intros Hle Hne.
  destruct (simula_per_plot w start stop appezzamenti random_state Hle)
    as (s & Hs & _).
  exists s. split; [exact Hs|]. rewrite genera_dati_steps, Hs.
  pose proof (simula_length _ _ _ _ _ _ Hs) as Hlen.
  destruct (records s) as [|r rs]; [|reflexivity].
  exfalso. cbn [List.length] in Hlen.
  destruct (plots_of appezzamenti) as [|p plots]; [congruence|].
  unfold days_inclusive in Hlen. cbn [List.length] in Hlen. nia.
Qed.

End RunFacts.

(* ------------------------------------------------------------------ *)
(** ** Rounded rows *)

Lemma round_row_bounds (r : Rec.t) : in_bounds r -> in_bounds (round_row r).
Proof.
  unfold in_bounds, round_row. cbn.
  intros ((Hu1 & Hu2) & Hp & (Hn & Hpp & Hk) & (Hs1 & Hs2) & Hr & Hc & Hv).
  repeat split.
  - apply round3_lower; [vm_compute; reflexivity | assumption].
  - apply round3_upper; [vm_compute; reflexivity | assumption].
  - apply round3_lower; [vm_compute; reflexivity | assumption].
  - apply round3_lower; [vm_compute; reflexivity | assumption].
  - apply round3_lower; [vm_compute; reflexivity | assumption].
  - apply round3_lower; [vm_compute; reflexivity | assumption].
  - apply round3_lower; [vm_compute; reflexivity | assumption].
  - apply round3_upper; [vm_compute; reflexivity | assumption].
  - apply round3_lower; [vm_compute; reflexivity | assumption].
  - apply round3_lower; [vm_compute; reflexivity | assumption].
  - apply round3_lower; [vm_compute; reflexivity | assumption].
Qed.

Lemma round_row_margine (r : Rec.t) :
  Rec.margine_eur r = Rec.ricavi_totali_eur r - Rec.costo_totale_eur r ->
  Qabs (Rec.margine_eur (round_row r)
        - (Rec.ricavi_totali_eur (round_row r) - Rec.costo_totale_eur (round_row r)))
  <= 0.001 + economic_magnitude (round_row r) * (1 # 9007199254740992).
Proof.
  intros H. unfold economic_magnitude.
  cbn [round_row Rec.margine_eur Rec.ricavi_totali_eur Rec.costo_totale_eur].
  rewrite H. apply round3_sub.
Qed.

(** ** The sample generator *)

Lemma sample_unit_draw (g : Z) : 0 <= Sample.unit_draw g /\ Sample.unit_draw g <= 1.
Proof.
  unfold Sample.unit_draw.
  pose proof (Z.mod_pos_bound (g / 65536) 1000 eq_refl) as H.
  unfold Qle. cbn [Qnum Qden]. lia.
Qed.

Lemma sample_uniform_in_range : UniformInRange Sample.externals.
Proof.
  intros low high g H. cbn [gen_uniform Sample.externals Sample.uniform fst].
  destruct (sample_unit_draw g) as [H0 H1].
  set (u := Sample.unit_draw g) in *. split; nra.
Qed.

(* ------------------------------------------------------------------ *)
(** ** The claims *)

Section Theorems.
Context {E : Externals}.

(** C1. Determinism: two calls of [genera_dati] with the same dates, the
    same plots and the same integer seed return the same dataset, every
    field of every row equal after the rounding to 3 decimals, whatever
    the entropy, the clock and the file system of each call. *)
Theorem genera_dati_deterministic (w1 w2 : World) (start stop : Timestamp)
    (appezzamenti : option (list Appezzamento)) (seed : Z)
    (salva_csv : bool) (nome_file : option string)
    (d1 d2 : DataFrame) (w1' w2' : World) :
  genera_dati w1 start stop appezzamenti (Some seed) salva_csv nome_file = Ok (d1, w1') ->
  genera_dati w2 start stop appezzamenti (Some seed) salva_csv nome_file = Ok (d2, w2') ->
  d1 = d2.
Proof.
  intros H1 H2.
  apply genera_dati_ok in H1. destruct H1 as (s1 & Hs1 & _ & ->).
  apply genera_dati_ok in H2. destruct H2 as (s2 & Hs2 & _ & ->).
  change (simula w2 start stop appezzamenti (Some seed))
    with (simula w1 start stop appezzamenti (Some seed)) in Hs2.
  congruence.
Qed.

(** C2. Bounds: in every row of a dataset returned by [genera_dati], soil
    moisture is in [10, 90], precipitation is at least 0, each nutrient is
    at least 5, the growth stage is in [0, 1], and yield, cost and revenue
    are at least 0; the rows are the rounded ones. *)
Theorem genera_dati_bounds (w : World) (start stop : Timestamp)
    (appezzamenti : option (list Appezzamento)) (random_state : option Z)
    (salva_csv : bool) (nome_file : option string) (d : DataFrame) (w' : World) :
  UniformInRange E ->
  genera_dati w start stop appezzamenti random_state salva_csv nome_file = Ok (d, w') ->
  Forall in_bounds (rows d).
Proof.
  intros HU H. apply genera_dati_ok in H. destruct H as (s & Hs & _ & ->).
  cbn [dataset rows]. apply Forall_map.
  apply sort_rows_forall.
  assert (Hall : Forall in_bounds (records s)).
  { destruct (Z_lt_le_dec stop start) as [Hlt|Hle].
    - rewrite (simula_empty_range _ _ _ _ _ Hlt) in Hs. discriminate.
    - rewrite (simula_loops _ _ _ _ _ Hle) in Hs.
      destruct (appezzamenti_giorni _ _ _ _) as [[[] s0]|e] eqn:Hrun; [|discriminate].
      injection Hs as ->.
      eapply (appezzamenti_giorni_forall in_bounds (genera_record_bounds HU));
        [|exact Hrun]. apply Forall_nil. }
  eapply Forall_impl; [|exact Hall]. apply round_row_bounds.
Qed.

(** C3. Row count: for a range that is not empty and a list of plots that
    is not empty, [genera_dati] without export returns, and every dataset
    it returns has as many rows as plots times days, the days counted from
    the first to the last, both included. *)
Theorem genera_dati_row_count (w : World) (start stop : Timestamp)
    (plots : list Appezzamento) (random_state : option Z) (nome_file : option string) :
  (start <= stop)%Z -> plots <> [] ->
  (exists d, genera_dati w start stop (Some plots) random_state false nome_file = Ok (d, w))
  /\ forall salva_csv d w',
      genera_dati w start stop (Some plots) random_state salva_csv nome_file = Ok (d, w') ->
      Z.of_nat (List.length (rows d))
      = (Z.of_nat (List.length plots) * days_inclusive start stop)%Z.
Proof.
  intros Hle Hne. split.
  - destruct (genera_dati_returns w start stop (Some plots) random_state
                nome_file Hle Hne) as (s & _ & Hd).
    exists (dataset s). exact Hd.
  - intros salva_csv d w' H.
    apply genera_dati_ok in H. destruct H as (s & Hs & _ & ->).
    cbn [dataset rows]. rewrite length_map, sort_rows_length.
    rewrite (simula_length _ _ _ _ _ _ Hs). cbn [plots_of].
    unfold days_inclusive. nia.
Qed.

(** C4, as amended. Margin identity: in a run of [genera_dati], every
    record has [margine_eur] equal to [ricavi_totali_eur -
    costo_totale_eur] before the rounding (so within 1e-9), and in every
    row of the dataset the three fields, each rounded on its own and
    stored as a float, agree within 0.001 plus the representation error
    of the three floats, at most [2^-53] of the magnitude of each. *)
Theorem margine_identity (w : World) (start stop : Timestamp)
    (appezzamenti : option (list Appezzamento)) (random_state : option Z)
    (salva_csv : bool) (nome_file : option string) (d : DataFrame) (w' : World) :
  genera_dati w start stop appezzamenti random_state salva_csv nome_file = Ok (d, w') ->
  exists s,
    simula w start stop appezzamenti random_state = Ok s
    /\ rows d = map round_row (sort_rows (records s))
    /\ Forall (fun r =>
         Rec.margine_eur r = Rec.ricavi_totali_eur r - Rec.costo_totale_eur r
         /\ Qabs (Rec.margine_eur r
                  - (Rec.ricavi_totali_eur r - Rec.costo_totale_eur r))
            <= 1 # 1000000000)
         (records s)
    /\ Forall (fun r =>
         Qabs (Rec.margine_eur r
               - (Rec.ricavi_totali_eur r - Rec.costo_totale_eur r))
         <= 0.001 + economic_magnitude r * (1 # 9007199254740992))
         (rows d).
Proof.
  intros H. apply genera_dati_ok in H. destruct H as (s & Hs & _ & ->).
  exists s. split; [exact Hs|]. split; [reflexivity|].
  assert (Hall : Forall (fun r =>
            Rec.margine_eur r = Rec.ricavi_totali_eur r - Rec.costo_totale_eur r)
            (records s)).
  { destruct (Z_lt_le_dec stop start) as [Hlt|Hle].
    - rewrite (simula_empty_range _ _ _ _ _ Hlt) in Hs. discriminate.
    - rewrite (simula_loops _ _ _ _ _ Hle) in Hs.
      destruct (appezzamenti_giorni _ _ _ _) as [[[] s0]|e] eqn:Hrun; [|discriminate].
      injection Hs as ->.
      eapply (appezzamenti_giorni_forall _ genera_record_margine);
        [|exact Hrun]. apply Forall_nil. }
  split.
  - eapply Forall_impl; [|exact Hall]. intros r Hr. split; [exact Hr|].
    rewrite Hr. apply Qabs_Qle_condition. split; lra.
  - cbn [dataset rows]. apply Forall_map. apply sort_rows_forall.
    eapply Forall_impl; [|exact Hall]. apply round_row_margine.
Qed.

(** C7. Invalid range: when the end date is before the start date
    [genera_dati] raises, at the first read of the empty date index, and
    returns no dataset. *)
Theorem genera_dati_invalid_range (w : World) (start stop : Timestamp)
    (appezzamenti : option (list Appezzamento)) (random_state : option Z)
    (salva_csv : bool) (nome_file : option string) :
  (stop < start)%Z ->
  genera_dati w start stop appezzamenti random_state salva_csv nome_file
  = Raise IndexError.
Proof.
  apply genera_dati_empty_range.
Qed.

(** C8. Empty configuration: with an explicitly empty list of plots
    [genera_dati] raises and returns no dataset; over a range that is not
    empty the error is the [KeyError] of sorting a frame without columns.
    With the plots left out the call is the call on the three default
    plots, which returns. *)
Theorem genera_dati_empty_plots (w : World) (start stop : Timestamp)
    (random_state : option Z) (salva_csv : bool) (nome_file : option string) :
  (exists e,
      genera_dati w start stop (Some []) random_state salva_csv nome_file = Raise e)
  /\ ((start <= stop)%Z ->
      genera_dati w start stop (Some []) random_state salva_csv nome_file
      = Raise (KeyError "data"))
  /\ genera_dati w start stop None random_state salva_csv nome_file
     = genera_dati w start stop (Some get_appezzamenti_default) random_state
         salva_csv nome_file
  /\ List.length get_appezzamenti_default = 3%nat
  /\ ((start <= stop)%Z ->
      exists d,
        genera_dati w start stop None random_state false nome_file = Ok (d, w)).
Proof.
  assert (Hkey : (start <= stop)%Z ->
            genera_dati w start stop (Some []) random_state salva_csv nome_file
            = Raise (KeyError "data")).
  { intros Hle. rewrite genera_dati_steps.
    destruct (simula_per_plot w start stop (Some []) random_state Hle) as (s & Hs & Hpp).
    rewrite Hs. cbn in Hpp. injection Hpp as <- _. reflexivity. }
  repeat split.
  - destruct (Z_lt_le_dec stop start) as [Hlt|Hle].
    + exists IndexError. now apply genera_dati_empty_range.
    + exists (KeyError "data"). now apply Hkey.
  - exact Hkey.
  - intros Hle.
    destruct (genera_dati_returns w start stop None random_state nome_file Hle)
      as (s & _ & Hd); [discriminate|].
    exists (dataset s). exact Hd.
Qed.


(** A run of the body is its run on an empty log, with the log put back. *)
Lemma genera_record_fresh appez gt i d (s s' : Stato) :
  genera_record appez gt i d s = Ok (tt, s') ->
  exists s1,
    genera_record appez gt i d (mkStato (rng s) [] (records s)) = Ok (tt, s1)
    /\ s' = mkStato (rng s1) (drawn s1 ++ drawn s) (records s1).
Proof.
  intros H. pose proof (genera_record_ok _ _ _ _ _ _ H) as Hok.
  destruct s as [g ds rs]. cbn [rng drawn records] in *.
  change (mkStato g ds rs) with (mkStato g ([] ++ ds) ([] ++ rs)) in H.
  rewrite genera_record_frame in H by exact Hok.
  destruct (genera_record appez gt i d (mkStato g [] rs)) as [[[] s1]|e];
    [|discriminate].
  exists s1. split; [reflexivity|].
  cbn [lift extend app rng drawn records] in H. injection H as <-. reflexivity.
Qed.

(** The yield of one run of the body, from any state. *)
Lemma genera_record_resa_at (appez : Appezzamento) (giorni_totali i : Z)
    (data : Timestamp) (s s' : Stato) :
  genera_record appez giorni_totali i data s = Ok (tt, s') ->
  exists r noise noise_m noise_i before,
    records s' = records s ++ [r]
    /\ drawn s'
       = (Normal 0 2, noise_i) :: (Normal 0 3, noise_m) :: (Normal 0 3, noise)
         :: before ++ drawn s
    /\ Rec.resa_kg_ha r
       == Spec.yield_kg_ha (Rec.stadio_crescita r) (Rec.umidita_suolo_pct r)
            (Rec.nutrienti_n r) (Rec.nutrienti_p r) (Rec.nutrienti_k r) noise
    /\ Rec.resa_totale_kg r
       = Spec.yield_total_kg (Rec.resa_kg_ha r) (superficie_ha appez)
    /\ Rec.superficie_ha r = superficie_ha appez.
Proof.
  intros H. apply genera_record_fresh in H. destruct H as (s1 & H1 & ->).
  pose proof (genera_record_resa appez giorni_totali i data (rng s) (records s)) as Hr.
  rewrite H1 in Hr.
  destruct Hr as (r & z & c1 & c2 & pre & Hrec & Hlog & Hy & Ht & Ha).
  exists r, z, c1, c2, pre. cbn [records drawn].
  rewrite Hlog. repeat split; assumption.
Qed.

(** The rule of the dry gate, from the branches of the day. *)
Lemma rain_facts_rule (i : Z) (rs : list Rec.t) (day_log : list (Call * Q))
    (r : Rec.t) :
  rain_facts i rs day_log r -> rain_rule i rs day_log r.
Proof.
  intros ((t & gate & rest & Hlog & Hgate) & Hfirst & _ & Hdry & _).
  exists t, gate, rest. split; [exact Hlog|].
  intros Hfire. destruct (Hgate Hfire) as (x & rest' & Hrest & Hx).
  exists x, rest'. split; [exact Hrest|].
  intros Hle. destruct (Hx Hle) as [Hp Hnot].
  assert (Hno : ~ 0 < Rec.precipitazioni_mm r) by (rewrite Hp; lra).
  split; [exact Hp|]. split; [exact Hnot|]. split.
  - split.
    + intros Hi. exact (proj2 (Hfirst Hi)).
    + intros Hi. exact (Hdry Hi Hno).
  - rewrite Hnot. split; [discriminate | intros Hpos; contradiction].
Qed.

(** C10. On every plot-day on which the rain gate fires (the draw of
    [rng.random()] is below 0.3) and the draw [rng.normal(10, 8)] is at
    most 0: [precipitazioni_mm] is exactly 0, the recharge draw
    [rng.uniform(0.3, 0.6)] is not made and the recharge term is not
    applied (the moisture is the previous one less the decay, clipped, and
    on the first day of a plot the draw [rng.uniform(30, 60)]), so that
    the recharge branch has run exactly when [precipitazioni_mm] is
    greater than 0.  On a day after the first of a plot, whatever the
    draws, the recharge draw is made exactly when [precipitazioni_mm] is
    greater than 0, and the recharge term is then part of the moisture. *)
Theorem rain_gate_recharge (appez : Appezzamento) (giorni_totali i : Z)
    (data : Timestamp) (s s' : Stato) :
  genera_record appez giorni_totali i data s = Ok (tt, s') ->
  exists r day_log,
    records s' = records s ++ [r]
    /\ drawn s' = rev day_log ++ drawn s
    /\ rain_rule i (records s) day_log r
    /\ (i <> 0%Z ->
        (recharge_drawn day_log = true <-> 0 < Rec.precipitazioni_mm r)
        /\ (0 < Rec.precipitazioni_mm r -> with_recharge (records s) day_log r)).
Proof.
  intros H. apply genera_record_fresh in H. destruct H as (s1 & H1 & ->).
  pose proof (genera_record_rain appez giorni_totali i data (rng s) (records s)) as Hr.
  rewrite H1 in Hr. destruct Hr as (r & Hrec & Hfacts).
  exists r, (rev (drawn s1)). cbn [records drawn].
  rewrite rev_involutive.
  split; [exact Hrec|]. split; [reflexivity|].
  split; [now apply rain_facts_rule|].
  destruct Hfacts as (_ & _ & Hiff & _ & Hwet).
  intros Hi. split; [exact (Hiff Hi) | exact (Hwet Hi)].
Qed.

(** C9, as amended. When the export fails, at the creation of the
    directory or at the write, [genera_dati] raises the error and returns
    no dataset; when it succeeds, [genera_dati] returns the dataset of the
    same call without export, and has written that dataset to one file. *)
Theorem genera_dati_export (w : World) (start stop : Timestamp)
    (appezzamenti : option (list Appezzamento)) (random_state : option Z)
    (nome_file : option string) (d : DataFrame) :
  genera_dati w start stop appezzamenti random_state false nome_file = Ok (d, w) ->
  (mkdir_raises w = true \/ to_csv_raises w = true ->
   genera_dati w start stop appezzamenti random_state true nome_file
   = Raise OSError)
  /\ (mkdir_raises w = false -> to_csv_raises w = false ->
      exists w' percorso,
        genera_dati w start stop appezzamenti random_state true nome_file
        = Ok (d, w')
        /\ files w' = (percorso, d) :: files w).
Proof.
  intros H. apply genera_dati_ok in H. destruct H as (s & Hs & Hne & ->).
  rewrite genera_dati_steps, Hs.
  destruct (records s) as [|r rs] eqn:Hr; [congruence|].
  unfold salva. split.
  - intros [Hm|Hc].
    + rewrite Hm. reflexivity.
    + rewrite Hc. destruct (mkdir_raises w); reflexivity.
  - intros Hm Hc. rewrite Hm, Hc. do 2 eexists. split; reflexivity.
Qed.


Lemma yield_rule_later (log new : list (Call * Q)) (r : Rec.t) :
  yield_rule log r -> yield_rule (new ++ log) r.
Proof.
  intros (Ht & z & Hin & Hy). split; [exact Ht|].
  exists z. split; [apply in_or_app; now right | exact Hy].
Qed.

Lemma genera_record_yield_rule appez gt i d (s s' : Stato) :
  Forall (yield_rule (drawn s)) (records s) ->
  genera_record appez gt i d s = Ok (tt, s') ->
  Forall (yield_rule (drawn s')) (records s').
Proof.
  intros Hs H. apply genera_record_resa_at in H.
  destruct H as (r & z & c1 & c2 & pre & -> & Hlog & Hy & Ht & Ha).
  rewrite Hlog.
  change ((Normal 0 2, c2) :: (Normal 0 3, c1) :: (Normal 0 3, z) :: pre ++ drawn s)
    with (((Normal 0 2, c2) :: (Normal 0 3, c1) :: (Normal 0 3, z) :: pre) ++ drawn s).
  apply Forall_app. split.
  - eapply Forall_impl; [|exact Hs]. intros r0. apply yield_rule_later.
  - constructor; [|constructor]. split.
    + rewrite Ha. exact Ht.
    + exists z. split; [|exact Hy]. cbn [app In]. auto.
Qed.

Lemma simula_yield_rule w start stop appezzamenti random_state s :
  simula w start stop appezzamenti random_state = Ok s ->
  Forall (yield_rule (drawn s)) (records s).
Proof.
  intros Hs. destruct (Z_lt_le_dec stop start) as [Hlt|Hle].
  - rewrite (simula_empty_range _ _ _ _ _ Hlt) in Hs. discriminate.
  - rewrite (simula_loops _ _ _ _ _ Hle) in Hs.
    destruct (appezzamenti_giorni _ _ _ _) as [[[] s0]|e] eqn:Hrun; [|discriminate].
    injection Hs as ->. revert Hrun.
    apply (for_each_invariant (fun s => Forall (yield_rule (drawn s)) (records s)));
      [|apply Forall_nil].
    intros appez. unfold giorni, giorni_da.
    apply (for_each_invariant (fun s => Forall (yield_rule (drawn s)) (records s))).
    intros [i d] s1 s2. apply genera_record_yield_rule.
Qed.

(** C5. Yield: on every plot-day the record has
    [resa_kg_ha = max(0, potential * factor + noise)] with
    [potential = stadio_crescita * 80], the moisture penalty and the
    nutrient penalty of the specification computed from the moisture and
    the nutrients of the same record, [factor = max(0.1, 1 - moisture
    penalty - nutrient penalty)] and [noise] the draw [rng.normal(0, 3)]
    made before the two draws of the costs; and
    [resa_totale_kg = resa_kg_ha * superficie_ha].  The same holds of every
    record of a run of [simula]. *)
Theorem resa_formula :
  (forall (appez : Appezzamento) (giorni_totali i : Z) (data : Timestamp)
          (s s' : Stato),
      genera_record appez giorni_totali i data s = Ok (tt, s') ->
      exists r noise noise_m noise_i before,
        records s' = records s ++ [r]
        /\ drawn s'
           = (Normal 0 2, noise_i) :: (Normal 0 3, noise_m)
             :: (Normal 0 3, noise) :: before ++ drawn s
        /\ Rec.resa_kg_ha r
           == Spec.yield_kg_ha (Rec.stadio_crescita r) (Rec.umidita_suolo_pct r)
                (Rec.nutrienti_n r) (Rec.nutrienti_p r) (Rec.nutrienti_k r) noise
        /\ Rec.resa_totale_kg r
           = Spec.yield_total_kg (Rec.resa_kg_ha r) (superficie_ha appez)
        /\ Rec.superficie_ha r = superficie_ha appez)
  /\ (forall (w : World) (start stop : Timestamp)
             (appezzamenti : option (list Appezzamento))
             (random_state : option Z) (s : Stato),
        simula w start stop appezzamenti random_state = Ok s ->
        Forall (yield_rule (drawn s)) (records s)).
Proof.
  split.
  - exact genera_record_resa_at.
  - exact simula_yield_rule.
Qed.

(** C6. Isolation of the plots.  The records of a run are the records of
    its plots, each plot computed on its own from the shared generator,
    with no record of another plot to read.  And replacing one plot by any
    other descriptor, with the same seed and the plots in the same order,
    leaves the rows of every other plot as they were. *)
Theorem plot_isolation (w : World) (start stop : Timestamp)
    (before : list Appezzamento) (appez appez' : Appezzamento)
    (after : list Appezzamento) (seed : Z) (nome_file : option string) :
  (start <= stop)%Z ->
  (forall plots s,
      simula w start stop (Some plots) (Some seed) = Ok s ->
      per_plot plots (days_inclusive start stop) (date_range start stop)
        (default_rng seed)
      = Ok (records s, rng s))
  /\ exists d d',
      genera_dati w start stop (Some (before ++ appez :: after)) (Some seed)
        false nome_file = Ok (d, w)
      /\ genera_dati w start stop (Some (before ++ appez' :: after)) (Some seed)
           false nome_file = Ok (d', w)
      /\ forall id,
          id <> id_appezzamento appez -> id <> id_appezzamento appez' ->
          rows_of id (rows d) = rows_of id (rows d').
Proof.
  intros Hle. split.
  - intros plots s Hs.
    destruct (simula_per_plot w start stop (Some plots) (Some seed) Hle)
      as (s0 & Hs0 & Hpp).
    rewrite Hs in Hs0. injection Hs0 as <-. exact Hpp.
  - destruct (genera_dati_returns w start stop (Some (before ++ appez :: after))
                (Some seed) nome_file Hle) as (s & Hs & Hd);
      [destruct before; discriminate|].
    destruct (genera_dati_returns w start stop (Some (before ++ appez' :: after))
                (Some seed) nome_file Hle) as (s' & Hs' & Hd');
      [destruct before; discriminate|].
    exists (dataset s), (dataset s'). split; [exact Hd|]. split; [exact Hd'|].
    intros id Hid Hid'.
    destruct (simula_per_plot w start stop (Some (before ++ appez :: after))
                (Some seed) Hle) as (s0 & Hs0 & Hpp).
    rewrite Hs in Hs0. injection Hs0 as <-.
    destruct (simula_per_plot w start stop (Some (before ++ appez' :: after))
                (Some seed) Hle) as (s0 & Hs0 & Hpp').
    rewrite Hs' in Hs0. injection Hs0 as <-.
    destruct (per_plot_isolation (days_inclusive start stop) (date_range start stop)
                before appez appez' after (seeded w (Some seed)))
      as (b1 & b & b' & b2 & g' & H1 & H2 & _ & Hb & Hb').
    cbn [plots_of] in Hpp, Hpp'.
    rewrite H1 in Hpp. rewrite H2 in Hpp'.
    injection Hpp as Hrecs _. injection Hpp' as Hrecs' _.
    cbn [dataset rows]. rewrite !rows_of_round. f_equal.
    pose proof (rows_of_other id appez b Hid Hb) as Hz.
    pose proof (rows_of_other id appez' b' Hid' Hb') as Hz'.
    unfold rows_of in *. rewrite !filter_sort_rows. f_equal.
    rewrite <- Hrecs, <- Hrecs', !filter_app, Hz, Hz'.
    reflexivity.
Qed.

End Theorems.

(* ------------------------------------------------------------------ *)
(** ** The claims on concrete runs *)

(** Evaluate the run on the left of an equation. *)
Ltac run :=
  match goal with
  | |- ?l = _ => let v := eval vm_compute in l in change l with v
  end;
  reflexivity.

Lemma genera_dati_deterministic_witness :
  exists d1 d2 w1' w2',
    @genera_dati Sample.externals Sample.world Run.start Run.stop
       (Some [Run.a1; Run.a2]) (Some 42%Z) false None = Ok (d1, w1')
    /\ @genera_dati Sample.externals Sample.world_no_mkdir Run.start Run.stop
         (Some [Run.a1; Run.a2]) (Some 42%Z) false None = Ok (d2, w2')
    /\ d1 = d2.
Proof.
  do 4 eexists.
  split; [run|].
  split; [run|].
  eapply (@genera_dati_deterministic Sample.externals Sample.world
            Sample.world_no_mkdir Run.start Run.stop (Some [Run.a1; Run.a2])
            42%Z false None);
    run.
Defined.

Lemma genera_dati_bounds_witness :
  UniformInRange Sample.externals
  /\ exists d w',
      @genera_dati Sample.externals Sample.world Run.start Run.stop
         None (Some 42%Z) false None = Ok (d, w')
      /\ Forall in_bounds (rows d).
Proof.
  split; [exact sample_uniform_in_range|].
  do 2 eexists. split; [run|].
  eapply (@genera_dati_bounds Sample.externals Sample.world Run.start Run.stop
            None (Some 42%Z) false None);
    [exact sample_uniform_in_range | run].
Defined.

Lemma genera_dati_row_count_witness :
  (Run.start <= Run.stop)%Z
  /\ [Run.a1; Run.a2] <> []
  /\ (exists d,
        @genera_dati Sample.externals Sample.world Run.start Run.stop
          (Some [Run.a1; Run.a2]) (Some 42%Z) false None = Ok (d, Sample.world))
  /\ forall salva_csv d w',
      @genera_dati Sample.externals Sample.world Run.start Run.stop
        (Some [Run.a1; Run.a2]) (Some 42%Z) salva_csv None = Ok (d, w') ->
      Z.of_nat (List.length (rows d))
      = (Z.of_nat (List.length [Run.a1; Run.a2])
         * days_inclusive Run.start Run.stop)%Z.
Proof.
  split; [unfold Run.start, Run.stop; lia|].
  split; [discriminate|].
  apply (@genera_dati_row_count Sample.externals Sample.world Run.start Run.stop
           [Run.a1; Run.a2] (Some 42%Z) None);
    [unfold Run.start, Run.stop; lia | discriminate].
Defined.

Lemma margine_identity_witness :
  exists d w',
    @genera_dati Sample.fine_externals Sample.world Run.start Run.stop
       None (Some 42%Z) false None = Ok (d, w')
    /\ Forall (fun r =>
         Qabs (Rec.margine_eur r
               - (Rec.ricavi_totali_eur r - Rec.costo_totale_eur r))
         <= 0.001 + economic_magnitude r * (1 # 9007199254740992))
         (rows d).
Proof.
  assert (Hrun : exists d w',
            @genera_dati Sample.fine_externals Sample.world Run.start Run.stop
              None (Some 42%Z) false None = Ok (d, w'))
    by (do 2 eexists; run).
  destruct Hrun as (d & w' & Hrun). exists d, w'. split; [exact Hrun|].
  destruct (@margine_identity Sample.fine_externals Sample.world Run.start Run.stop
              None (Some 42%Z) false None d w' Hrun) as (s & _ & _ & _ & H).
  exact H.
Defined.

Lemma resa_formula_witness :
  exists s' r noise,
    @genera_record Sample.externals Run.a1 3 0 Run.start Run.s0 = Ok (tt, s')
    /\ records s' = [r]
    /\ In (Normal 0 3, noise) (drawn s')
    /\ Rec.resa_kg_ha r
       == Spec.yield_kg_ha (Rec.stadio_crescita r) (Rec.umidita_suolo_pct r)
            (Rec.nutrienti_n r) (Rec.nutrienti_p r) (Rec.nutrienti_k r) noise.
Proof.
  assert (Hrun : exists s',
            @genera_record Sample.externals Run.a1 3 0 Run.start Run.s0 = Ok (tt, s'))
    by (eexists; run).
  destruct Hrun as (s' & Hrun).
  destruct (proj1 (@resa_formula Sample.externals) Run.a1 3%Z 0%Z Run.start Run.s0
              s' Hrun)
    as (r & noise & noise_m & noise_i & before & Hrec & Hlog & Hy & _).
  exists s', r, noise.
  split; [exact Hrun|].
  split; [exact Hrec|].
  split; [rewrite Hlog; cbn [In]; auto | exact Hy].
Defined.

Lemma plot_isolation_witness :
  (Run.start <= Run.stop)%Z
  /\ exists d d',
      @genera_dati Sample.externals Sample.world Run.start Run.stop
        (Some ([Run.a1] ++ Run.a2 :: [Run.a3])) (Some 42%Z) false None
      = Ok (d, Sample.world)
      /\ @genera_dati Sample.externals Sample.world Run.start Run.stop
           (Some ([Run.a1] ++ Run.b2 :: [Run.a3])) (Some 42%Z) false None
         = Ok (d', Sample.world)
      /\ forall id,
          id <> id_appezzamento Run.a2 -> id <> id_appezzamento Run.b2 ->
          rows_of id (rows d) = rows_of id (rows d').
Proof.
  split; [unfold Run.start, Run.stop; lia|].
  apply (@plot_isolation Sample.externals Sample.world Run.start Run.stop
           [Run.a1] Run.a2 Run.b2 [Run.a3] 42%Z None).
  unfold Run.start, Run.stop; lia.
Defined.

Lemma genera_dati_invalid_range_witness :
  (Run.start < Run.stop)%Z
  /\ @genera_dati Sample.externals Sample.world Run.stop Run.start
       None (Some 42%Z) false None = Raise IndexError.
Proof.
  split; [unfold Run.start, Run.stop; lia|].
  apply (@genera_dati_invalid_range Sample.externals).
  unfold Run.start, Run.stop; lia.
Defined.

Lemma genera_dati_empty_plots_witness :
  (Run.start <= Run.stop)%Z
  /\ @genera_dati Sample.externals Sample.world Run.start Run.stop
       (Some []) (Some 42%Z) false None = Raise (KeyError "data")
  /\ exists d,
      @genera_dati Sample.externals Sample.world Run.start Run.stop
        None (Some 42%Z) false None = Ok (d, Sample.world).
Proof.
  assert (H : (Run.start <= Run.stop)%Z) by (unfold Run.start, Run.stop; lia).
  destruct (@genera_dati_empty_plots Sample.externals Sample.world Run.start
              Run.stop (Some 42%Z) false None) as (_ & Hkey & _ & _ & Hdef).
  split; [exact H|]. split; [exact (Hkey H) | exact (Hdef H)].
Defined.

Lemma genera_dati_export_witness :
  exists d,
    @genera_dati Sample.externals Sample.world_no_write Run.start Run.stop
      None (Some 42%Z) false None = Ok (d, Sample.world_no_write)
    /\ to_csv_raises Sample.world_no_write = true
    /\ @genera_dati Sample.externals Sample.world_no_write Run.start Run.stop
         None (Some 42%Z) true None = Raise OSError.
Proof.
  assert (Hrun : exists d,
            @genera_dati Sample.externals Sample.world_no_write Run.start Run.stop
              None (Some 42%Z) false None = Ok (d, Sample.world_no_write))
    by (eexists; run).
  destruct Hrun as (d & Hrun). exists d. split; [exact Hrun|].
  split; [reflexivity|].
  apply (proj1 (@genera_dati_export Sample.externals Sample.world_no_write
                  Run.start Run.stop None (Some 42%Z) None d Hrun)).
  right. reflexivity.
Defined.

Lemma rain_gate_recharge_witness :
  exists s s' r day_log t gate x rest prev decay,
    @genera_record Sample.externals Run.a1 3 1 (Run.start + 1)%Z s = Ok (tt, s')
    /\ records s' = records s ++ [r]
    /\ drawn s' = rev day_log ++ drawn s
    /\ day_log = (Normal 0 2, t) :: (Random, gate) :: (Normal 10 8, x) :: rest
    /\ gate < 0.3
    /\ x <= 0
    /\ Rec.precipitazioni_mm r = 0
    /\ recharge_drawn day_log = false
    /\ (recharge_drawn day_log = true <-> 0 < Rec.precipitazioni_mm r)
    /\ last_item (records s) = Some prev
    /\ In (Uniform 0.1 0.8, decay) day_log
    /\ Rec.umidita_suolo_pct r
       = Np.clip (Rec.umidita_suolo_pct prev + - decay) 10 90.
Proof.
  (* the first day of a run with seed 10, then the second day *)
  let v := eval vm_compute in
      (@genera_record Sample.externals Run.a1 3 0 Run.start
         (@mkStato Sample.externals (@default_rng Sample.externals 10) [] [])) in
  match v with
  | Ok (tt, {| rng := ?g; drawn := _; records := ?rs |}) =>
      pose (s := @mkStato Sample.externals g [] rs)
  end.
  let v := eval vm_compute in
      (@genera_record Sample.externals Run.a1 3 1 (Run.start + 1)%Z s) in
  match v with
  | Ok (tt, ?s2) => pose (s' := s2)
  end.
  assert (Hrun : @genera_record Sample.externals Run.a1 3 1 (Run.start + 1)%Z s
                 = Ok (tt, s')) by run.
  destruct (@rain_gate_recharge Sample.externals Run.a1 3%Z 1%Z (Run.start + 1)%Z
              s s' Hrun)
    as (r & day_log & Hrec & Hlog & Hrule & _).
  assert (Hday : day_log = rev (drawn s')).
  { rewrite Hlog. change (drawn s) with (@nil (Call * Q)).
    rewrite app_nil_r, rev_involutive. reflexivity. }
  destruct Hrule as (t & gate & rest & Hshape & Hgate).
  assert (Hfire : gate < 0.3).
  { rewrite Hday in Hshape. vm_compute in Hshape.
    injection Hshape as _ Hg _. rewrite <- Hg. reflexivity. }
  destruct (Hgate Hfire) as (x & rest' & Hrest & Hdry).
  assert (Hx : x <= 0).
  { rewrite Hday, Hrest in Hshape. vm_compute in Hshape.
    injection Hshape as _ _ Hx _. rewrite <- Hx. vm_compute. discriminate. }
  destruct (Hdry Hx) as (Hp & Hnot & [_ Hlater] & Hiff).
  destruct Hlater as (prev & decay & Hprev & Hdecay & Hu); [discriminate|].
  exists s, s', r, day_log, t, gate, x, rest', prev, decay.
  split; [exact Hrun|]. split; [exact Hrec|]. split; [exact Hlog|].
  split; [rewrite Hshape, Hrest; reflexivity|].
  repeat (split; [assumption|]). exact Hu.
Defined.

(** ** Counterexamples *)

(** C9 as stated fails: the dataset is computed, the creation of the
    directory raises, and the call returns no dataset. *)
Lemma export_failure_loses_dataset :
  (exists d,
      @genera_dati Sample.externals Sample.world_no_mkdir Run.start Run.stop
        None (Some 42%Z) false None = Ok (d, Sample.world_no_mkdir))
  /\ mkdir_raises Sample.world_no_mkdir = true
  /\ ~ exists d w',
        @genera_dati Sample.externals Sample.world_no_mkdir Run.start Run.stop
          None (Some 42%Z) true None = Ok (d, w').
Proof.
  split; [eexists; run|].
  split; [reflexivity|].
  intros (d & w' & H). vm_compute in H. discriminate H.
Qed.

(** C4 as stated fails on the stored values: the three decimals are
    -10.321, 26.571 and 36.891, 0.001 apart, and their floats are a little
    more than 0.001 apart. *)
Lemma stored_margin_exceeds :
  exists d w' r,
    @genera_dati Sample.fine_externals Sample.world Run.start Run.stop
       None (Some 42%Z) false None = Ok (d, w')
    /\ In r (rows d)
    /\ Rec.margine_eur r == Np.float64 (-10.321)
    /\ Rec.ricavi_totali_eur r == Np.float64 26.571
    /\ Rec.costo_totale_eur r == Np.float64 36.891
    /\ ~ Qabs (Rec.margine_eur r
               - (Rec.ricavi_totali_eur r - Rec.costo_totale_eur r)) <= 0.001.
Proof.
  let v := eval vm_compute in
      (@genera_dati Sample.fine_externals Sample.world Run.start Run.stop
         None (Some 42%Z) false None) in
  match v with
  | Ok ({| columns := ?c; rows := ?r0 :: ?r1 :: ?l |}, ?w) =>
      exists (mkDataFrame c (r0 :: r1 :: l)), w, r1
  end.
  split; [run|].
  split; [right; left; reflexivity|].
  split; [vm_compute; reflexivity|].
  split; [vm_compute; reflexivity|].
  split; [vm_compute; reflexivity|].
  intros H. vm_compute in H. apply H. reflexivity.
Qed.

(* ------------------------------------------------------------------ *)
(** * Further properties of the generator and of the dashboard *)

(* ------------------------------------------------------------------ *)
(** ** More on the primitives *)

Lemma min_below_first (a b : Q) : Py.min a b <= a.
Proof.
  unfold Py.min. destruct (Py.lt b a) eqn:H.
  - apply lt_true in H. lra.
  - lra.
Qed.

Lemma min_above (c a b : Q) : c <= a -> c <= b -> c <= Py.min a b.
Proof. intros Ha Hb. unfold Py.min. destruct (Py.lt b a); assumption. Qed.

Lemma max_below (c a b : Q) : a <= c -> b <= c -> Py.max a b <= c.
Proof. intros Ha Hb. unfold Py.max. destruct (Py.lt a b); assumption. Qed.

Lemma clip_below (x y lo hi : Q) : x <= y -> lo <= y -> Np.clip x lo hi <= y.
Proof.
  intros Hx Hlo. unfold Np.clip, Np.minimum, Np.maximum.
  destruct (Qle_bool lo x) eqn:H1.
  - destruct (Qle_bool x hi) eqn:H2; [exact Hx|].
    apply not_true_iff_false in H2. rewrite Qle_bool_iff in H2. lra.
  - destruct (Qle_bool lo hi) eqn:H2; [exact Hlo|].
    apply not_true_iff_false in H2. rewrite Qle_bool_iff in H2. lra.
Qed.

Lemma clip_above_bound (x y lo hi : Q) : y <= x -> y <= hi -> y <= Np.clip x lo hi.
Proof.
  intros Hx Hhi. unfold Np.clip, Np.minimum, Np.maximum.
  destruct (Qle_bool lo x) eqn:H1.
  - destruct (Qle_bool x hi); assumption.
  - apply not_true_iff_false in H1. rewrite Qle_bool_iff in H1.
    destruct (Qle_bool lo hi); [lra | assumption].
Qed.

(** The penalties leave a factor of at least 0.3: the floor [max(0.1, .)]
    of line 194 never changes it. *)
Lemma penalita_umidita_values (u : Q) :
  penalita_umidita u = 0.3 \/ penalita_umidita u = 0.15 \/ penalita_umidita u = 0.
Proof.
  unfold penalita_umidita.
  destruct (Py.lt u 25 || Py.gt u 80); [now left|].
  destruct (Py.lt u 35 || Py.gt u 70); [right; now left | right; now right].
Qed.

Lemma penalita_nutrienti_values (m : Q) :
  penalita_nutrienti m = 0.4 \/ penalita_nutrienti m = 0.2 \/ penalita_nutrienti m = 0.
Proof.
  unfold penalita_nutrienti.
  destruct (Py.lt m 20); [now left|].
  destruct (Py.lt m 35); [right; now left | right; now right].
Qed.

(** X8. The floor of the penalty factor is never reached: the two
    penalties add up to 0.7 at most, so the factor is between 0.3 and 1
    and [max(0.1, fattore_penalizzante)] returns it unchanged. *)
Theorem fattore_penalizzante_floor_unused (u m : Q) :
  let fattore := 1 - (penalita_umidita u + penalita_nutrienti m) in
  Py.max 0.1 fattore = fattore /\ 0.3 <= fattore /\ fattore <= 1.
Proof.
  cbv zeta.
  destruct (penalita_umidita_values u) as [Hu|[Hu|Hu]];
    destruct (penalita_nutrienti_values m) as [Hm|[Hm|Hm]];
    rewrite Hu, Hm; repeat split; try reflexivity;
    unfold Qle; cbn; lia.
Qed.

(* ------------------------------------------------------------------ *)
(** ** More on one run of the loop body *)

Ltac body_cbn :=
  lazy beta iota zeta delta
    [sample rng drawn records bind ret rng_normal rng_uniform rng_random call
     records_last records_append].

Ltac body_step :=
  first
    [ match goal with
      | H : last_item ?l = _ |- context [last_item ?l] => rewrite H
      end
    | match goal with
      | |- context [if ?c then _ else _] => destruct c eqn:?
      end ];
  body_cbn.

Ltac body_run := body_cbn; repeat body_step.

Ltac fields :=
  cbv beta iota delta
    [Rec.data Rec.id_appezzamento Rec.coltura Rec.superficie_ha
     Rec.umidita_suolo_pct Rec.precipitazioni_mm
     Rec.nutrienti_n Rec.nutrienti_p Rec.nutrienti_k].

Section MoreBodyFacts.
Context {E : Externals}.

Lemma genera_record_from_plot appez gt i d g ds rs :
  match genera_record appez gt i d (mkStato g ds rs) with
  | Ok (_, s') =>
      exists r, records s' = rs ++ [r] /\ Rec.data r = d /\ from_plot appez r
  | Raise _ => True
  end.
Proof.
  unfold genera_record.
  destruct (i =? 0)%Z eqn:Hi.
  - body_run; eexists; (split; [reflexivity|]); unfold from_plot; fields;
      repeat split.
  - destruct (last_item rs) as [prev|] eqn:Hlast.
    + body_run; eexists; (split; [reflexivity|]); unfold from_plot; fields;
        repeat split.
    + body_run; exact I.
Qed.

Section Ranges.

Hypothesis uniform_in_range : UniformInRange E.

Lemma uniform_between (low high : Q) (g : Generator) :
  low <= high ->
  low <= fst (gen_uniform low high g) /\ fst (gen_uniform low high g) <= high.
Proof. apply uniform_in_range. Qed.

Lemma genera_record_initial appez gt d g ds rs :
  match genera_record appez gt 0 d (mkStato g ds rs) with
  | Ok (_, s') => exists r, records s' = rs ++ [r] /\ initial_ranges r
  | Raise _ => True
  end.
Proof.
  unfold genera_record. cbn [Z.eqb].
  body_run; eexists; (split; [reflexivity|]); unfold initial_ranges; fields;
    repeat split;
    match goal with
    | |- context [gen_uniform ?lo ?hi ?g0] =>
        destruct (uniform_between lo hi g0) as [Hlo Hhi]; [lra|]; assumption
    end.
Qed.

(** The draws of a later day, with their ranges, as plain numbers. *)
Ltac draws :=
  repeat match goal with
         | |- context [fst (gen_uniform ?lo ?hi ?g0)] =>
             let H := fresh "Hu" in
             pose proof (uniform_between lo hi g0 ltac:(lra)) as H;
             generalize dependent (fst (gen_uniform lo hi g0)); intros
         end.

(** The recharge term [min(20, precipitazioni_mm * rng.uniform(0.3, 0.6))],
    with its range, as a plain number. *)
Ltac recharge :=
  try match goal with
      | |- context [Py.min 20 (Py.max 0 ?x * fst (gen_uniform ?lo ?hi ?g0))] =>
          let H := fresh "Hm" in
          assert (H : 0 <= Py.min 20 (Py.max 0 x * fst (gen_uniform lo hi g0))
                      /\ Py.min 20 (Py.max 0 x * fst (gen_uniform lo hi g0)) <= 20)
            by (split;
                [ apply min_above;
                  [ lra
                  | apply Qmult_le_0_compat;
                    [ apply max_lower
                    | destruct (uniform_between lo hi g0) as [? _]; lra ] ]
                | apply min_below_first ]);
          generalize dependent (Py.min 20 (Py.max 0 x * fst (gen_uniform lo hi g0)));
          intros
      end.

Ltac max_cases :=
  repeat match goal with
         | |- context [Py.max 5 ?x] =>
             let H := fresh "Hmax" in
             unfold Py.max at 1;
             destruct (Py.lt 5 x) eqn:H;
             [apply lt_true in H | apply lt_false in H]
         end.

Ltac step_goal :=
  match goal with
  | |- _ <= Np.clip _ _ _ => apply clip_above_bound; lra
  | |- Np.clip _ _ _ <= _ => apply clip_below; lra
  | |- ~ _ -> _ =>
      let Hdry := fresh "Hdry" in
      intros Hdry;
      first
        [ apply clip_below; lra
        | exfalso; apply Hdry; apply lt_true; assumption ]
  | |- fertilised _ = false -> _ =>
      let Hf := fresh "Hf" in
      intros Hf;
      first [ max_cases; lra | lazy in Hf; discriminate Hf ]
  | |- _ => max_cases; lra
  end.

Lemma genera_record_step appez gt i d g rs prev :
  i <> 0%Z -> last_item rs = Some prev -> in_bounds prev ->
  match genera_record appez gt i d (mkStato g [] rs) with
  | Ok (_, s') =>
      exists r,
        records s' = rs ++ [r]
        /\ moisture_step prev r
        /\ nutrient_step (drawn s') 0.3 25 (Rec.nutrienti_n prev) (Rec.nutrienti_n r)
        /\ nutrient_step (drawn s') 0.15 15 (Rec.nutrienti_p prev) (Rec.nutrienti_p r)
        /\ nutrient_step (drawn s') 0.25 20 (Rec.nutrienti_k prev) (Rec.nutrienti_k r)
  | Raise _ => True
  end.
Proof.
  intros Hi Hlast Hb.
  destruct prev as [pd pid pc ps pt pu pr pn pp pk pst prk prt pco pri pm].
  unfold in_bounds in Hb. cbn in Hb.
  destruct Hb as ((Hu1 & Hu2) & _ & (Hn & Hp & Hk) & _).
  unfold genera_record. apply Z.eqb_neq in Hi. rewrite Hi.
  body_run;
    try match goal with
        | H : Py.gt 0 0 = true |- _ => vm_compute in H; discriminate H
        end;
    eexists; (split; [reflexivity|]);
    unfold moisture_step, nutrient_step; fields; cbv beta iota delta [drawn];
    recharge; draws; repeat split; step_goal.
Qed.

End Ranges.
End MoreBodyFacts.

(* ------------------------------------------------------------------ *)
(** ** More on the loops and the date index *)

Lemma enumerate_from_in {A : Type} (l : list A) : forall k i x,
  In (i, x) (enumerate_from k l) ->
  (k <= i)%Z /\ nth_error l (Z.to_nat (i - k)) = Some x.
Proof.
  induction l as [|y l IH]; intros k i x H; [destruct H|].
  cbn [enumerate_from In] in H. destruct H as [H|H].
  - injection H as <- <-. rewrite Z.sub_diag. split; [lia | reflexivity].
  - apply IH in H. destruct H as [Hk Hn]. split; [lia|].
    replace (Z.to_nat (i - k)) with (S (Z.to_nat (i - (k + 1)))) by lia.
    exact Hn.
Qed.

Lemma date_range_nth (start stop : Timestamp) (n : nat) (d : Timestamp) :
  nth_error (date_range start stop) n = Some d ->
  d = (start + Z.of_nat n)%Z /\ (start <= d <= stop)%Z.
Proof.
  unfold date_range. intros H.
  rewrite nth_error_map in H.
  destruct (nth_error (seq 0 (Z.to_nat (stop - start + 1))) n) as [m|] eqn:Hm;
    [|discriminate].
  injection H as <-.
  pose proof (nth_error_nth _ _ 0%nat Hm) as Hnth.
  assert (Hlt : (n < List.length (seq 0 (Z.to_nat (stop - start + 1))))%nat)
    by (apply nth_error_Some; rewrite Hm; discriminate).
  rewrite length_seq in Hlt.
  rewrite seq_nth in Hnth by exact Hlt. cbn in Hnth. subst m.
  split; lia.
Qed.

Lemma date_range_enumerate (start stop : Timestamp) (i : Z) (d : Timestamp) :
  In (i, d) (enumerate (date_range start stop)) ->
  d = (start + i)%Z /\ (0 <= i)%Z /\ (start <= d <= stop)%Z.
Proof.
  intros H. apply enumerate_from_in in H. destruct H as [Hi Hn].
  apply date_range_nth in Hn. lia.
Qed.

Section MoreLoopFacts.
Context {E : Externals}.

Lemma for_each_invariant_in {A : Type} (I : Stato -> Prop) (body : A -> Sim unit)
    (l : list A) :
  (forall x s s', In x l -> I s -> body x s = Ok (tt, s') -> I s') ->
  forall s s', I s -> for_each l body s = Ok (tt, s') -> I s'.
Proof.
  induction l as [|x l IH]; intros Hbody s s' Hs H.
  - cbn in H. injection H as <-. exact Hs.
  - cbn [for_each] in H. unfold bind in H.
    destruct (body x s) as [[[] s1]|e] eqn:Hx; [|discriminate].
    refine (IH _ s1 s' (Hbody x s s1 (or_introl eq_refl) Hs Hx) H).
    intros y t t' Hy. apply Hbody. now right.
Qed.

(** A property of the record the body appends for each plot of the list
    and each day of the index holds of every record of the two loops. *)
Lemma appezzamenti_giorni_forall_in (P : Rec.t -> Prop)
    (appezzamenti : list Appezzamento) (gt : Z) (dates : list Timestamp) :
  (forall appez i d g ds rs,
      In appez appezzamenti -> In (i, d) (enumerate dates) ->
      match genera_record appez gt i d (mkStato g ds rs) with
      | Ok (_, s') => exists r, records s' = rs ++ [r] /\ P r
      | Raise _ => True
      end) ->
  forall s s',
    Forall P (records s) ->
    appezzamenti_giorni appezzamenti gt dates s = Ok (tt, s') ->
    Forall P (records s').
Proof.
  intros Hbody.
  apply (for_each_invariant_in (fun s => Forall P (records s))).
  intros appez s s' Hin. unfold giorni, giorni_da.
  apply (for_each_invariant_in (fun s => Forall P (records s))).
  intros [i d] [g ds rs] s2 Hid Hs H.
  specialize (Hbody appez i d g ds rs Hin Hid). rewrite H in Hbody.
  destruct Hbody as (r & -> & Hr). cbn [records] in Hs.
  apply Forall_app. split; [exact Hs | constructor; [exact Hr | constructor]].
Qed.

Lemma simula_forall_in (P : Rec.t -> Prop) w start stop appezzamenti random_state :
  (forall appez i d g ds rs,
      In appez (plots_of appezzamenti) ->
      In (i, d) (enumerate (date_range start stop)) ->
      match genera_record appez (days_inclusive start stop) i d (mkStato g ds rs) with
      | Ok (_, s') => exists r, records s' = rs ++ [r] /\ P r
      | Raise _ => True
      end) ->
  forall s,
    simula w start stop appezzamenti random_state = Ok s ->
    Forall P (records s).
Proof.
  intros Hbody s Hs. destruct (Z_lt_le_dec stop start) as [Hlt|Hle].
  - rewrite (simula_empty_range _ _ _ _ _ Hlt) in Hs. discriminate.
  - rewrite (simula_loops _ _ _ _ _ Hle) in Hs.
    destruct (appezzamenti_giorni _ _ _ _) as [[[] s0]|e] eqn:Hrun; [|discriminate].
    injection Hs as ->.
    eapply (appezzamenti_giorni_forall_in P); [exact Hbody| |exact Hrun].
    apply Forall_nil.
Qed.

End MoreLoopFacts.

(* ------------------------------------------------------------------ *)
(** ** More on the sort *)

Lemma sort_rows_of_sorted (l : list Rec.t) : sorted_rows l -> sort_rows l = l.
Proof.
  unfold sorted_rows. induction 1 as [|x l Hs IH Hx]; [reflexivity|].
  cbn [sort_rows]. rewrite IH. now apply insert_row_first.
Qed.

Lemma sorted_rows_round (l : list Rec.t) :
  sorted_rows l -> sorted_rows (map round_row l).
Proof.
  unfold sorted_rows. induction 1 as [|x l Hs IH Hx]; cbn [map]; constructor.
  - exact IH.
  - apply Forall_map. exact Hx.
Qed.

(** Records of one plot on increasing days are in the order of the sort. *)
Lemma sorted_rows_of_days (id : string) (l : list Rec.t) :
  Forall (fun r => Rec.id_appezzamento r = id) l ->
  StronglySorted Z.lt (map Rec.data l) ->
  sorted_rows l.
Proof.
  unfold sorted_rows. induction l as [|x l IH]; intros Hid Hd; [constructor|].
  cbn [map] in Hd. apply StronglySorted_inv in Hd. destruct Hd as [Hd Hx].
  inversion Hid as [|? ? Hxid Hlid]; subst.
  constructor; [now apply IH|].
  rewrite Forall_map in Hx.
  eapply Forall_impl; [|exact Hx]. intros r Hr.
  unfold row_le. apply Z.ltb_lt in Hr. rewrite Hr. reflexivity.
Qed.

Lemma seq_increasing (len start : nat) : StronglySorted lt (seq start len).
Proof.
  revert start. induction len as [|len IH]; intros start; cbn [seq]; constructor.
  - apply IH.
  - apply Forall_forall. intros x Hx. apply in_seq in Hx. lia.
Qed.

Lemma date_range_increasing (start stop : Timestamp) :
  StronglySorted Z.lt (date_range start stop).
Proof.
  unfold date_range.
  generalize (seq_increasing (Z.to_nat (stop - start + 1)) 0).
  generalize (seq 0 (Z.to_nat (stop - start + 1))).
  induction 1 as [|x l Hs IH Hx]; cbn [map]; constructor.
  - exact IH.
  - apply Forall_map. eapply Forall_impl; [|exact Hx]. cbn. intros. lia.
Qed.

Lemma rows_of_all (id : string) (l : list Rec.t) :
  Forall (fun r => Rec.id_appezzamento r = id) l -> rows_of id l = l.
Proof.
  unfold rows_of. induction 1 as [|x l Hx Hl IH]; [reflexivity|].
  cbn [filter]. rewrite Hx, String.eqb_refl, IH. reflexivity.
Qed.

Lemma rows_of_absent (id : string) (ids : list string) (l : list Rec.t) :
  ~ In id ids ->
  Forall (fun r => In (Rec.id_appezzamento r) ids) l ->
  rows_of id l = [].
Proof.
  intros Hid. unfold rows_of. induction 1 as [|x l Hx Hl IH]; [reflexivity|].
  cbn [filter]. destruct (String.eqb_spec (Rec.id_appezzamento x) id) as [He|_].
  - congruence.
  - exact IH.
Qed.

Section Blocks.
Context {E : Externals}.

Lemma genera_record_from_plot_at appez gt i d (s s' : Stato) :
  genera_record appez gt i d s = Ok (tt, s') ->
  exists r, records s' = records s ++ [r] /\ Rec.data r = d /\ from_plot appez r.
Proof.
  intros H. destruct s as [g ds rs].
  pose proof (genera_record_from_plot appez gt i d g ds rs) as Hr.
  rewrite H in Hr. exact Hr.
Qed.

(** The records the inner loop makes: one for each day, in order, with the
    identity of the plot. *)
Lemma giorni_da_block appez gt dates : forall k (s : Stato),
  (0 <= k)%Z -> k = 0%Z \/ records s <> [] ->
  exists s' b,
    giorni_da appez gt k dates s = Ok (tt, s')
    /\ records s' = records s ++ b
    /\ map Rec.data b = dates
    /\ Forall (from_plot appez) b.
Proof.
  induction dates as [|d dates IH]; intros k s Hk H.
  - exists s, []. rewrite app_nil_r. repeat split; constructor.
  - rewrite giorni_da_cons.
    destruct (genera_record_shape appez gt k d s H) as (g1 & seg & r & Hrun & _).
    rewrite Hrun.
    destruct (genera_record_from_plot_at _ _ _ _ _ _ Hrun) as (r' & Hrec & Hd & Hp).
    cbn [records] in Hrec. apply app_inv_head in Hrec. injection Hrec as <-.
    destruct (IH (k + 1)%Z (mkStato g1 (seg ++ drawn s) (records s ++ [r])))
      as (s' & b & Hrun' & Hrec' & Hdates & Hall).
    { lia. } { right. apply app_not_nil. }
    cbn [records] in Hrec'.
    exists s', (r :: b). rewrite Hrun', Hrec', <- app_assoc.
    repeat split; cbn [map app]; [congruence | constructor; assumption].
Qed.

Lemma simula_appezzamento_block appez gt dates g b g' :
  simula_appezzamento appez gt dates g = Ok (b, g') ->
  map Rec.data b = dates /\ Forall (from_plot appez) b.
Proof.
  unfold simula_appezzamento, giorni. intros H.
  destruct (giorni_da_block appez gt dates 0 (mkStato g [] []))
    as (s' & b0 & Hrun & Hrec & Hdates & Hall); [lia | now left |].
  rewrite Hrun in H. injection H as <- _. cbn [records app] in Hrec.
  rewrite Hrec. split; assumption.
Qed.

(** The records of the plots one after the other carry the ids of the plots. *)
Lemma per_plot_ids gt dates : forall appezzamenti g recs g',
  per_plot appezzamenti gt dates g = Ok (recs, g') ->
  Forall (fun r => In (Rec.id_appezzamento r) (map id_appezzamento appezzamenti))
    recs.
Proof.
  induction appezzamenti as [|appez rest IH]; intros g recs g' H.
  - cbn in H. injection H as <- _. constructor.
  - cbn [per_plot] in H.
    destruct (simula_appezzamento appez gt dates g) as [[b g1]|e] eqn:Hb;
      [|discriminate].
    destruct (per_plot rest gt dates g1) as [[bs g2]|e] eqn:Hbs; [|discriminate].
    injection H as <- _.
    apply simula_appezzamento_block in Hb. destruct Hb as [_ Hb].
    apply Forall_app. split.
    + eapply Forall_impl; [|exact Hb]. intros r (Hid & _). left. now symmetry.
    + eapply Forall_impl; [|exact (IH _ _ _ Hbs)]. intros r Hr. now right.
Qed.

(** The records of a plot whose id no other plot of the list has. *)
Lemma per_plot_rows_of gt dates before appez after g recs g' :
  ~ In (id_appezzamento appez) (map id_appezzamento (before ++ after)) ->
  per_plot (before ++ appez :: after) gt dates g = Ok (recs, g') ->
  map Rec.data (rows_of (id_appezzamento appez) recs) = dates
  /\ Forall (from_plot appez) (rows_of (id_appezzamento appez) recs).
Proof.
  intros Hid H. rewrite per_plot_app in H.
  destruct (per_plot before gt dates g) as [[b1 g1]|e] eqn:H1; [|discriminate].
  cbn [per_plot] in H.
  destruct (simula_appezzamento appez gt dates g1) as [[b g2]|e] eqn:Hb;
    [|discriminate].
  destruct (per_plot after gt dates g2) as [[b2 g3]|e] eqn:H2; [|discriminate].
  injection H as <- _.
  apply per_plot_ids in H1, H2.
  apply simula_appezzamento_block in Hb. destruct Hb as [Hdates Hb].
  rewrite map_app, in_app_iff in Hid.
  unfold rows_of. rewrite !filter_app.
  fold (rows_of (id_appezzamento appez) b1) (rows_of (id_appezzamento appez) b)
       (rows_of (id_appezzamento appez) b2).
  rewrite (rows_of_absent _ _ b1 (fun H => Hid (or_introl H)) H1).
  rewrite (rows_of_absent _ _ b2 (fun H => Hid (or_intror H)) H2).
  rewrite rows_of_all, app_nil_r.
  - split; assumption.
  - eapply Forall_impl; [|exact Hb]. intros r (Hr & _). exact Hr.
Qed.

End Blocks.

(* ------------------------------------------------------------------ *)
(** ** More properties of [genera_dati] *)

Lemma round_row_initial (r : Rec.t) : initial_ranges r -> initial_ranges (round_row r).
Proof.
  unfold initial_ranges, round_row. cbn.
  intros ((Hu1 & Hu2) & (Hn1 & Hn2) & (Hp1 & Hp2) & (Hk1 & Hk2)).
  repeat split.
  - apply round3_lower; [vm_compute; reflexivity | assumption].
  - apply round3_upper; [vm_compute; reflexivity | assumption].
  - apply round3_lower; [vm_compute; reflexivity | assumption].
  - apply round3_upper; [vm_compute; reflexivity | assumption].
  - apply round3_lower; [vm_compute; reflexivity | assumption].
  - apply round3_upper; [vm_compute; reflexivity | assumption].
  - apply round3_lower; [vm_compute; reflexivity | assumption].
  - apply round3_upper; [vm_compute; reflexivity | assumption].
Qed.

(* ------------------------------------------------------------------ *)
(** ** Paths *)

Example joinpath_name :
  Pathlib.joinpath OUTPUT_DIR "dati.csv" = "data/output/dati.csv"%string.
Proof. reflexivity. Qed.

Example joinpath_absolute :
  Pathlib.joinpath OUTPUT_DIR "/tmp/elsewhere/abs.csv" = "/tmp/elsewhere/abs.csv"%string.
Proof. reflexivity. Qed.

Example joinpath_nested :
  Pathlib.joinpath OUTPUT_DIR "./a//b/../c.csv" = "data/output/a/b/../c.csv"%string.
Proof. reflexivity. Qed.

Example joinpath_empty : Pathlib.joinpath OUTPUT_DIR "" = "data/output"%string.
Proof. reflexivity. Qed.





Section MoreTheorems.
Context {E : Externals}.

(** X1. The rows of a dataset returned by [genera_dati] are in the order
    of [sort_values]: by date, and by plot id within a date. *)
Theorem genera_dati_sorted (w : World) (start stop : Timestamp)
    (appezzamenti : option (list Appezzamento)) (random_state : option Z)
    (salva_csv : bool) (nome_file : option string) (d : DataFrame) (w' : World) :
  genera_dati w start stop appezzamenti random_state salva_csv nome_file = Ok (d, w') ->
  sorted_rows (rows d).
Proof.
  intros H. apply genera_dati_ok in H. destruct H as (s & _ & _ & ->).
  cbn [dataset rows]. apply sorted_rows_round, sort_rows_sorted.
Qed.

(** X2. Every row of a returned dataset has all sixteen columns, a date of
    the range, and the id and the crop of one plot of the list; its
    [superficie_ha] is the area of that plot rounded to 3 decimals. *)
Theorem genera_dati_rows_from_plots (w : World) (start stop : Timestamp)
    (appezzamenti : option (list Appezzamento)) (random_state : option Z)
    (salva_csv : bool) (nome_file : option string) (d : DataFrame) (w' : World) :
  genera_dati w start stop appezzamenti random_state salva_csv nome_file = Ok (d, w') ->
  columns d = Rec.keys
  /\ Forall (fun r =>
       (start <= Rec.data r <= stop)%Z
       /\ exists p,
           In p (plots_of appezzamenti)
           /\ Rec.id_appezzamento r = id_appezzamento p
           /\ Rec.coltura r = coltura p
           /\ Rec.superficie_ha r = Np.round3 (superficie_ha p))
       (rows d).
Proof.
  intros H. apply genera_dati_ok in H. destruct H as (s & Hs & _ & ->).
  split; [reflexivity|].
  cbn [dataset rows]. apply Forall_map, sort_rows_forall.
  refine (simula_forall_in _ w start stop appezzamenti random_state _ s Hs).
  intros appez i dt g ds rs Hin Hid.
  pose proof (genera_record_from_plot appez (days_inclusive start stop) i dt g ds rs)
    as Hr.
  destruct (genera_record _ _ _ _ _) as [[u s1]|e]; [|exact I].
  destruct Hr as (r & Hrec & Hd & Hid' & Hc & Ha).
  exists r. split; [exact Hrec|].
  apply date_range_enumerate in Hid.
  cbn [round_row Rec.data Rec.id_appezzamento Rec.coltura Rec.superficie_ha].
  split; [lia|]. exists appez. rewrite Ha. repeat split; assumption.
Qed.

(** X3. On the first day of the range every plot starts inside the ranges
    of the initial draws: moisture in [30, 60], nitrogen in [40, 80],
    phosphorus in [20, 50], potassium in [30, 70], also after the
    rounding. *)
Theorem genera_dati_first_day (w : World) (start stop : Timestamp)
    (appezzamenti : option (list Appezzamento)) (random_state : option Z)
    (salva_csv : bool) (nome_file : option string) (d : DataFrame) (w' : World) :
  UniformInRange E ->
  genera_dati w start stop appezzamenti random_state salva_csv nome_file = Ok (d, w') ->
  Forall (fun r => Rec.data r = start -> initial_ranges r) (rows d).
Proof.
  intros HU H. apply genera_dati_ok in H. destruct H as (s & Hs & _ & ->).
  cbn [dataset rows]. apply Forall_map, sort_rows_forall.
  refine (simula_forall_in _ w start stop appezzamenti random_state _ s Hs).
  intros appez i dt g ds rs Hin Hid.
  apply date_range_enumerate in Hid. destruct Hid as (Hdt & Hi & _).
  pose proof (genera_record_from_plot appez (days_inclusive start stop) i dt g ds rs)
    as Hr.
  pose proof (genera_record_initial HU appez (days_inclusive start stop) dt g ds rs)
    as Hr0.
  destruct (Z.eq_dec i 0) as [->|Hne].
  - destruct (genera_record _ _ _ _ _) as [[u s1]|e]; [|exact I].
    destruct Hr0 as (r & Hrec & Hinit). exists r. split; [exact Hrec|].
    intros _. now apply round_row_initial.
  - destruct (genera_record _ _ _ _ _) as [[u s1]|e]; [|exact I].
    destruct Hr as (r & Hrec & Hd & _). exists r. split; [exact Hrec|].
    cbn [round_row Rec.data]. intros Hstart. lia.
Qed.

(** The rows of one plot in the dataset of a run: one for each day, in
    the order of the days. *)
Lemma dataset_plot_days (w : World) (start stop : Timestamp)
    (before : list Appezzamento) (appez : Appezzamento)
    (after : list Appezzamento) (random_state : option Z) (s : Stato) :
  ~ In (id_appezzamento appez) (map id_appezzamento (before ++ after)) ->
  simula w start stop (Some (before ++ appez :: after)) random_state = Ok s ->
  map Rec.data (rows_of (id_appezzamento appez) (rows (dataset s)))
  = date_range start stop
  /\ Forall (fun r =>
       Rec.coltura r = coltura appez
       /\ Rec.superficie_ha r = Np.round3 (superficie_ha appez))
       (rows_of (id_appezzamento appez) (rows (dataset s))).
Proof.
  intros Hid Hs.
  destruct (Z_lt_le_dec stop start) as [Hlt|Hle].
  { rewrite (simula_empty_range _ _ _ _ _ Hlt) in Hs. discriminate. }
  destruct (simula_per_plot w start stop (Some (before ++ appez :: after))
              random_state Hle) as (s0 & Hs0 & Hpp).
  rewrite Hs in Hs0. injection Hs0 as <-. cbn [plots_of] in Hpp.
  destruct (per_plot_rows_of _ _ _ _ _ _ _ _ Hid Hpp) as [Hdates Hall].
  cbn [dataset rows]. rewrite rows_of_round.
  unfold rows_of at 1 2. rewrite filter_sort_rows.
  fold (rows_of (id_appezzamento appez) (records s)).
  rewrite sort_rows_of_sorted.
  - split.
    + rewrite map_map. cbn [round_row Rec.data]. exact Hdates.
    + apply Forall_map. eapply Forall_impl; [|exact Hall].
      intros r (_ & Hc & Ha). cbn [round_row Rec.coltura Rec.superficie_ha].
      rewrite Ha. split; [exact Hc | reflexivity].
  - apply (sorted_rows_of_days (id_appezzamento appez)).
    + eapply Forall_impl; [|exact Hall]. intros r (Hr & _). exact Hr.
    + rewrite Hdates. apply date_range_increasing.
Qed.

(** X4. A plot whose id no other plot of the list has gets exactly one row
    for each day of the range, in the order of the days, with its own crop
    and (rounded) area: the pair of a date and a plot id is a key of the
    dataset. *)
Theorem genera_dati_plot_days (w : World) (start stop : Timestamp)
    (before : list Appezzamento) (appez : Appezzamento)
    (after : list Appezzamento) (random_state : option Z)
    (salva_csv : bool) (nome_file : option string) (d : DataFrame) (w' : World) :
  ~ In (id_appezzamento appez) (map id_appezzamento (before ++ after)) ->
  genera_dati w start stop (Some (before ++ appez :: after)) random_state
    salva_csv nome_file = Ok (d, w') ->
  map Rec.data (rows_of (id_appezzamento appez) (rows d)) = date_range start stop
  /\ Forall (fun r =>
       Rec.coltura r = coltura appez
       /\ Rec.superficie_ha r = Np.round3 (superficie_ha appez))
       (rows_of (id_appezzamento appez) (rows d)).
Proof.
  intros Hid H. apply genera_dati_ok in H. destruct H as (s & Hs & _ & ->).
  exact (dataset_plot_days _ _ _ _ _ _ _ _ Hid Hs).
Qed.


(** X6. Moisture of a later day: after a previous record inside the
    bounds, the moisture falls by at most 0.8 and rises by at most 20, and
    on a day without precipitation it does not rise. *)
Theorem moisture_moves_little (appez : Appezzamento) (giorni_totali i : Z)
    (data : Timestamp) (s s' : Stato) (prev : Rec.t) :
  UniformInRange E ->
  i <> 0%Z -> last_item (records s) = Some prev -> in_bounds prev ->
  genera_record appez giorni_totali i data s = Ok (tt, s') ->
  exists r, records s' = records s ++ [r] /\ moisture_step prev r.
Proof.
  intros HU Hi Hlast Hb H.
  apply genera_record_fresh in H. destruct H as (s1 & H1 & ->).
  pose proof (genera_record_step HU appez giorni_totali i data (rng s) (records s)
                prev Hi Hlast Hb) as Hr.
  rewrite H1 in Hr. destruct Hr as (r & Hrec & Hm & _).
  exists r. split; assumption.
Qed.

(** X7. Nutrients of a later day: after a previous record inside the
    bounds, N, P and K fall by at most 0.3, 0.15 and 0.25, rise by at most
    25, 15 and 20, and do not rise on a day without the fertilisation
    draw. *)
Theorem nutrients_move_little (appez : Appezzamento) (giorni_totali i : Z)
    (data : Timestamp) (s s' : Stato) (prev : Rec.t) :
  UniformInRange E ->
  i <> 0%Z -> last_item (records s) = Some prev -> in_bounds prev ->
  genera_record appez giorni_totali i data s = Ok (tt, s') ->
  exists r day_log,
    records s' = records s ++ [r]
    /\ drawn s' = day_log ++ drawn s
    /\ nutrient_step day_log 0.3 25 (Rec.nutrienti_n prev) (Rec.nutrienti_n r)
    /\ nutrient_step day_log 0.15 15 (Rec.nutrienti_p prev) (Rec.nutrienti_p r)
    /\ nutrient_step day_log 0.25 20 (Rec.nutrienti_k prev) (Rec.nutrienti_k r).
Proof.
  intros HU Hi Hlast Hb H.
  apply genera_record_fresh in H. destruct H as (s1 & H1 & ->).
  pose proof (genera_record_step HU appez giorni_totali i data (rng s) (records s)
                prev Hi Hlast Hb) as Hr.
  rewrite H1 in Hr. destruct Hr as (r & Hrec & _ & Hn & Hp & Hk).
  exists r, (drawn s1). cbn [records drawn].
  split; [exact Hrec|]. split; [reflexivity|].
  split; [exact Hn|]. split; [exact Hp | exact Hk].
Qed.

End MoreTheorems.

(* ------------------------------------------------------------------ *)
(** ** The filter of the dashboard *)

Lemma filter_filter {A : Type} (p q : A -> bool) (l : list A) :
  filter q (filter p l) = filter (fun x => p x && q x) l.
Proof.
  induction l as [|x l IH]; [reflexivity|].
  cbn [filter]. destruct (p x); cbn [filter andb]; rewrite IH; reflexivity.
Qed.

Lemma filter_all {A : Type} (p : A -> bool) (l : list A) :
  Forall (fun x => p x = true) l -> filter p l = l.
Proof.
  induction 1 as [|x l Hx Hl IH]; [reflexivity|].
  cbn [filter]. rewrite Hx, IH. reflexivity.
Qed.

Lemma select_ok (df : DataFrame) (label : string) (test : Rec.t -> bool) :
  has_column df label = true ->
  Dashboard.select df label test
  = Ok (mkDataFrame (columns df) (filter test (rows df))).
Proof. intros H. unfold Dashboard.select. rewrite H. reflexivity. Qed.

Lemma filter_true {A : Type} (l : list A) : filter (fun _ => true) l = l.
Proof. apply filter_all, Forall_forall. reflexivity. Qed.

(** One optional selection of [filtra_dati]. *)
Lemma select_optional {X : Type} (df : DataFrame) (bound : option X)
    (label : string) (test : X -> Rec.t -> bool) :
  has_column df label = true ->
  match bound with
  | Some x => Dashboard.select df label (test x)
  | None => Ok df
  end
  = Ok (mkDataFrame (columns df)
          (filter (fun r => match bound with
                            | Some x => test x r
                            | None => true
                            end) (rows df))).
Proof.
  intros H. destruct bound as [x|].
  - now apply select_ok.
  - rewrite filter_true. destruct df; reflexivity.
Qed.

(** [filtra_dati] keeps the rows that pass its three tests, in the order
    of the frame, and the columns. *)
Lemma filtra_dati_filter (df : DataFrame) (appezzamento : option string)
    (start_date end_date : option Timestamp) :
  Dashboard.has_columns df ->
  Dashboard.filtra_dati df appezzamento start_date end_date
  = Ok (mkDataFrame (columns df)
          (filter (Dashboard.keeps appezzamento start_date end_date) (rows df))).
Proof.
  intros [Hid Hdata]. unfold Dashboard.filtra_dati.
  assert (H1 :
    match appezzamento with
    | Some id =>
        if Dashboard.truthy appezzamento && negb (String.eqb id "ALL")
        then Dashboard.select df "id_appezzamento"
               (fun r => String.eqb (Rec.id_appezzamento r) id)
        else Ok df
    | None => Ok df
    end
    = Ok (mkDataFrame (columns df)
            (filter (fun r =>
               match appezzamento with
               | Some id =>
                   if negb (String.eqb id "") && negb (String.eqb id "ALL")
                   then String.eqb (Rec.id_appezzamento r) id
                   else true
               | None => true
               end) (rows df)))).
  { destruct appezzamento as [id|]; cbn [Dashboard.truthy].
    - destruct (negb (String.eqb id "") && negb (String.eqb id "ALL")).
      + now apply select_ok.
      + rewrite filter_true. destruct df; reflexivity.
    - rewrite filter_true. destruct df; reflexivity. }
  rewrite H1.
  rewrite (select_optional _ start_date "data"
             (fun start r => (start <=? Rec.data r)%Z)) by exact Hdata.
  rewrite (select_optional _ end_date "data"
             (fun stop r => (Rec.data r <=? stop)%Z)) by exact Hdata.
  cbn [columns rows]. rewrite !filter_filter.
  do 2 f_equal. apply filter_ext. intros r.
  unfold Dashboard.keeps. rewrite ?andb_assoc. reflexivity.
Qed.

Lemma keeps_spec (appezzamento : option string)
    (start_date end_date : option Timestamp) (r : Rec.t) :
  Dashboard.keeps appezzamento start_date end_date r = true
  <-> (forall id, appezzamento = Some id -> id <> ""%string -> id <> "ALL"%string ->
       Rec.id_appezzamento r = id)
      /\ (forall lo, start_date = Some lo -> (lo <= Rec.data r)%Z)
      /\ (forall hi, end_date = Some hi -> (Rec.data r <= hi)%Z).
Proof.
  unfold Dashboard.keeps. rewrite !andb_true_iff. split.
  - intros [[Ha Hs] He]. repeat split.
    + intros id -> Hne Hall.
      destruct (String.eqb_spec id ""), (String.eqb_spec id "ALL"); try contradiction.
      cbn in Ha. now apply String.eqb_eq.
    + intros lo ->. now apply Z.leb_le.
    + intros hi ->. now apply Z.leb_le.
  - intros (Ha & Hs & He). repeat split.
    + destruct appezzamento as [id|]; [|reflexivity].
      destruct (String.eqb_spec id ""); [reflexivity|].
      destruct (String.eqb_spec id "ALL"); [reflexivity|].
      cbn. apply String.eqb_eq. now apply Ha.
    + destruct start_date as [lo|]; [|reflexivity]. apply Z.leb_le. now apply Hs.
    + destruct end_date as [hi|]; [|reflexivity]. apply Z.leb_le. now apply He.
Qed.

Lemma keeps_compose (a : option string) (s1 e1 s2 e2 : option Timestamp) (r : Rec.t) :
  Dashboard.keeps a s1 e1 r && Dashboard.keeps a s2 e2 r
  = Dashboard.keeps a (Dashboard.later s1 s2) (Dashboard.earlier e1 e2) r.
Proof.
  apply eq_true_iff_eq. rewrite andb_true_iff, !keeps_spec. split.
  - intros [(Ha & Hs1 & He1) (_ & Hs2 & He2)]. repeat split.
    + exact Ha.
    + intros lo Hlo. destruct s1 as [x|], s2 as [y|]; cbn in Hlo;
        try discriminate; injection Hlo as <-;
        try specialize (Hs1 _ eq_refl); try specialize (Hs2 _ eq_refl); lia.
    + intros hi Hhi. destruct e1 as [x|], e2 as [y|]; cbn in Hhi;
        try discriminate; injection Hhi as <-;
        try specialize (He1 _ eq_refl); try specialize (He2 _ eq_refl); lia.
  - intros (Ha & Hs & He). repeat split; try exact Ha.
    + intros lo ->. destruct s2 as [y|]; specialize (Hs _ eq_refl); lia.
    + intros hi ->. destruct e2 as [y|]; specialize (He _ eq_refl); lia.
    + intros lo ->. destruct s1 as [x|]; specialize (Hs _ eq_refl); lia.
    + intros hi ->. destruct e1 as [x|]; specialize (He _ eq_refl); lia.
Qed.

(** X9. [filtra_dati] on a frame with the columns [id_appezzamento] and
    [data] returns the columns of the frame and exactly its rows that have
    the requested plot id (unless it is empty, missing or ["ALL"]) and a
    date inside the bounds that are given, in the order of the frame. *)
Theorem filtra_dati_rows (df : DataFrame) (appezzamento : option string)
    (start_date end_date : option Timestamp) :
  Dashboard.has_columns df ->
  exists f,
    Dashboard.filtra_dati df appezzamento start_date end_date = Ok f
    /\ columns f = columns df
    /\ rows f = filter (Dashboard.keeps appezzamento start_date end_date) (rows df)
    /\ forall r,
        In r (rows f)
        <-> In r (rows df)
            /\ (forall id, appezzamento = Some id ->
                  id <> ""%string -> id <> "ALL"%string ->
                  Rec.id_appezzamento r = id)
            /\ (forall lo, start_date = Some lo -> (lo <= Rec.data r)%Z)
            /\ (forall hi, end_date = Some hi -> (Rec.data r <= hi)%Z).
Proof.
  intros H. eexists. split; [now apply filtra_dati_filter|].
  cbn [columns rows]. split; [reflexivity|]. split; [reflexivity|].
  intros r. rewrite filter_In, keeps_spec. reflexivity.
Qed.

(** X10. Two calls of [filtra_dati] in a row, for the same plot, are one
    call with the later of the two start dates and the earlier of the two
    end dates; a call repeated on its own result changes nothing. *)
Theorem filtra_dati_compose (df f1 : DataFrame) (appezzamento : option string)
    (start1 end1 start2 end2 : option Timestamp) :
  Dashboard.has_columns df ->
  Dashboard.filtra_dati df appezzamento start1 end1 = Ok f1 ->
  Dashboard.filtra_dati f1 appezzamento start2 end2
  = Dashboard.filtra_dati df appezzamento
      (Dashboard.later start1 start2) (Dashboard.earlier end1 end2)
  /\ Dashboard.filtra_dati f1 appezzamento start1 end1 = Ok f1.
Proof.
  intros H H1. rewrite (filtra_dati_filter _ _ _ _ H) in H1. injection H1 as <-.
  assert (H' : Dashboard.has_columns
                 (mkDataFrame (columns df)
                    (filter (Dashboard.keeps appezzamento start1 end1) (rows df))))
    by exact H.
  rewrite !(filtra_dati_filter _ _ _ _ H'), (filtra_dati_filter _ _ _ _ H).
  cbn [columns rows]. rewrite !filter_filter. split.
  - do 2 f_equal. apply filter_ext. intros r. apply keeps_compose.
  - do 2 f_equal. apply filter_ext. intros r. apply andb_diag.
Qed.

(* ------------------------------------------------------------------ *)
(** ** The module-level values of the dashboard *)

Lemma fold_min_spec (l : list Z) : forall x,
  In (fold_left Z.min l x) (x :: l)
  /\ Forall (fun y => (fold_left Z.min l x <= y)%Z) (x :: l).
Proof.
  induction l as [|y l IH]; intros x.
  - cbn. split; [now left | constructor; [lia | constructor]].
  - cbn [fold_left]. destruct (IH (Z.min x y)) as [Hin Hall]. split.
    + destruct Hin as [Hin|Hin]; [|right; now right].
      rewrite <- Hin. destruct (Z.min_spec x y) as [[_ ->]|[_ ->]];
        [now left | right; now left].
    + inversion Hall as [|? ? Hm Hl]; subst.
      constructor; [lia|]. constructor; [lia | exact Hl].
Qed.

Lemma fold_max_spec (l : list Z) : forall x,
  In (fold_left Z.max l x) (x :: l)
  /\ Forall (fun y => (y <= fold_left Z.max l x)%Z) (x :: l).
Proof.
  induction l as [|y l IH]; intros x.
  - cbn. split; [now left | constructor; [lia | constructor]].
  - cbn [fold_left]. destruct (IH (Z.max x y)) as [Hin Hall]. split.
    + destruct Hin as [Hin|Hin]; [|right; now right].
      rewrite <- Hin. destruct (Z.max_spec x y) as [[_ ->]|[_ ->]];
        [right; now left | now left].
    + inversion Hall as [|? ? Hm Hl]; subst.
      constructor; [lia|]. constructor; [lia | exact Hl].
Qed.

Lemma min_date_spec (l : list Timestamp) :
  match Dashboard.min_date l with
  | None => l = []
  | Some m => In m l /\ Forall (fun y => (m <= y)%Z) l
  end.
Proof. destruct l as [|x l]; [reflexivity|]. apply fold_min_spec. Qed.

Lemma max_date_spec (l : list Timestamp) :
  match Dashboard.max_date l with
  | None => l = []
  | Some m => In m l /\ Forall (fun y => (y <= m)%Z) l
  end.
Proof. destruct l as [|x l]; [reflexivity|]. apply fold_max_spec. Qed.

(** The least date of a list that has [lo] and nothing before it. *)
Lemma min_date_is (l : list Timestamp) (lo : Timestamp) :
  In lo l -> Forall (fun y => (lo <= y)%Z) l -> Dashboard.min_date l = Some lo.
Proof.
  intros Hin Hall. pose proof (min_date_spec l) as H.
  destruct (Dashboard.min_date l) as [m|]; [|subst; destruct Hin].
  destruct H as [Hm Hmall]. f_equal.
  rewrite Forall_forall in Hall, Hmall.
  specialize (Hall m Hm). specialize (Hmall lo Hin). lia.
Qed.

Lemma max_date_is (l : list Timestamp) (hi : Timestamp) :
  In hi l -> Forall (fun y => (y <= hi)%Z) l -> Dashboard.max_date l = Some hi.
Proof.
  intros Hin Hall. pose proof (max_date_spec l) as H.
  destruct (Dashboard.max_date l) as [m|]; [|subst; destruct Hin].
  destruct H as [Hm Hmall]. f_equal.
  rewrite Forall_forall in Hall, Hmall.
  specialize (Hall m Hm). specialize (Hmall hi Hin). lia.
Qed.

Lemma seen_spec (x : string) (seen : list string) :
  existsb (String.eqb x) seen = true <-> In x seen.
Proof.
  rewrite existsb_exists. split.
  - intros (y & Hy & He). apply String.eqb_eq in He. now subst.
  - intros H. exists x. split; [exact H | apply String.eqb_refl].
Qed.

Lemma unique_from_in (l : list string) : forall seen v,
  In v (Dashboard.unique_from seen l) <-> In v l /\ ~ In v seen.
Proof.
  induction l as [|x l IH]; intros seen v; cbn [Dashboard.unique_from In].
  - tauto.
  - destruct (existsb (String.eqb x) seen) eqn:Hx.
    + apply seen_spec in Hx. rewrite IH. split.
      * tauto.
      * intros [[->|H] Hn]; [contradiction | tauto].
    + apply not_true_iff_false in Hx. rewrite seen_spec in Hx.
      cbn [In]. rewrite IH. cbn [In]. split.
      * intros [->|[H Hn]]; [tauto|]. split; [tauto|]. intros Hv. apply Hn. now right.
      * intros [[->|H] Hn]; [now left|].
        destruct (string_dec x v) as [->|Hne]; [now left|].
        right. split; [exact H|]. intros [He|Hs]; [congruence | contradiction].
Qed.

Lemma unique_from_nodup (l : list string) : forall seen,
  NoDup (Dashboard.unique_from seen l).
Proof.
  induction l as [|x l IH]; intros seen; cbn [Dashboard.unique_from].
  - constructor.
  - destruct (existsb (String.eqb x) seen); [apply IH|].
    constructor; [|apply IH].
    rewrite unique_from_in. cbn [In]. tauto.
Qed.

Example unique_first_appearance :
  Dashboard.unique ["A2"; "A1"; "A2"; "A3"; "A1"]%string = ["A2"; "A1"; "A3"]%string.
Proof. reflexivity. Qed.

(** The first appearance of a member of a list. *)
Lemma in_split_first (b : string) (l : list string) :
  In b l -> exists pre post, l = pre ++ b :: post /\ ~ In b pre.
Proof.
  induction l as [|x l IH]; intros H; [destruct H|].
  destruct (string_dec x b) as [->|Hne].
  - exists [], l. split; [reflexivity | intros []].
  - destruct H as [H|H]; [contradiction|].
    destruct (IH H) as (pre & post & -> & Hpre).
    exists (x :: pre), post. split; [reflexivity|].
    intros [Hx|Hin]; [contradiction | now apply Hpre].
Qed.

(** [unique] lists the values in the order of their first appearance. *)
Lemma unique_from_order (l : list string) : forall seen l1 a l2 b l3,
  Dashboard.unique_from seen l = l1 ++ a :: l2 ++ b :: l3 ->
  first_before l a b.
Proof.
  induction l as [|x l IH]; intros seen l1 a l2 b l3 H;
    cbn [Dashboard.unique_from] in H.
  - destruct l1; discriminate H.
  - assert (Hb : In b (l1 ++ a :: l2 ++ b :: l3)).
    { apply in_or_app. right. right. apply in_or_app. right. now left. }
    destruct (existsb (String.eqb x) seen) eqn:Hx.
    + apply seen_spec in Hx.
      rewrite <- H in Hb. apply unique_from_in in Hb. destruct Hb as [_ Hnb].
      destruct (IH _ _ _ _ _ _ H) as (pre & post & -> & Hpre & Ha).
      exists (x :: pre), post. split; [reflexivity|]. split.
      * intros [->|Hin]; [contradiction | now apply Hpre].
      * now right.
    + destruct l1 as [|y l1]; cbn [app] in H; injection H as Hy Htail.
      * subst a.
        assert (Hb' : In b (Dashboard.unique_from (x :: seen) l)).
        { rewrite Htail. apply in_or_app. right. now left. }
        apply unique_from_in in Hb'. destruct Hb' as [Hbl Hnb].
        destruct (in_split_first b l Hbl) as (pre & post & -> & Hpre).
        exists (x :: pre), post. split; [reflexivity|]. split.
        -- intros [->|Hin]; [apply Hnb; now left | now apply Hpre].
        -- now left.
      * subst y.
        assert (Hb' : In b (Dashboard.unique_from (x :: seen) l)).
        { rewrite Htail. apply in_or_app. right. right.
          apply in_or_app. right. now left. }
        apply unique_from_in in Hb'. destruct Hb' as [_ Hnb].
        destruct (IH _ _ _ _ _ _ Htail) as (pre & post & -> & Hpre & Ha).
        exists (x :: pre), post. split; [reflexivity|]. split.
        -- intros [->|Hin]; [apply Hnb; now left | now apply Hpre].
        -- now right.
Qed.

(** X11. The reset of the filters shows the whole frame: on a frame with
    at least one row [reset_filtri] returns ["ALL"] with the least and the
    greatest date of the frame, both dates of some row, and [filtra_dati]
    on these three values returns the frame itself. *)
Theorem reset_filtri_shows_all (df : DataFrame) (n_clicks : Z) :
  Dashboard.has_columns df -> rows df <> [] ->
  exists lo hi,
    Dashboard.reset_filtri df n_clicks = Ok ("ALL"%string, Some lo, Some hi)
    /\ In lo (map Rec.data (rows df))
    /\ In hi (map Rec.data (rows df))
    /\ Dashboard.filtra_dati df (Some "ALL"%string) (Some lo) (Some hi) = Ok df.
Proof.
  intros H Hne. pose proof H as [Hid Hdata].
  unfold Dashboard.reset_filtri, Dashboard.data_min, Dashboard.data_max,
    Dashboard.column.
  rewrite Hdata.
  pose proof (min_date_spec (map Rec.data (rows df))) as Hmin.
  pose proof (max_date_spec (map Rec.data (rows df))) as Hmax.
  destruct (Dashboard.min_date _) as [lo|];
    [|destruct (rows df); [contradiction | discriminate Hmin]].
  destruct (Dashboard.max_date _) as [hi|];
    [|destruct (rows df); [contradiction | discriminate Hmax]].
  destruct Hmin as [Hlo Hmin], Hmax as [Hhi Hmax].
  exists lo, hi. split; [reflexivity|]. split; [exact Hlo|]. split; [exact Hhi|].
  rewrite (filtra_dati_filter _ _ _ _ H).
  rewrite filter_all; [destruct df; reflexivity|].
  apply Forall_forall. intros r Hr. apply keeps_spec.
  apply (in_map Rec.data) in Hr.
  rewrite Forall_forall in Hmin, Hmax.
  repeat split.
  - intros id Hid' _ Hall. injection Hid' as <-. contradiction.
  - intros lo' Hlo'. injection Hlo' as <-. now apply Hmin.
  - intros hi' Hhi'. injection Hhi' as <-. now apply Hmax.
Qed.

(** X12. The options of the plot selector: ["ALL"] first, then every plot
    id of the frame once, in the order of first appearance (of two ids
    offered, the one offered first is the one that comes first in the
    column); and every id offered, other than the empty string and
    ["ALL"], selects at least one row and only rows of that plot. *)
Theorem appezzamenti_options_select (df : DataFrame) :
  Dashboard.has_columns df ->
  exists ids,
    Dashboard.appezzamenti_options df
    = Ok (("Tutti gli appezzamenti", "ALL")
          :: map (fun id => ("Appezzamento " ++ id, id)) ids)%string
    /\ NoDup ids
    /\ (forall id, In id ids <-> exists r, In r (rows df) /\ Rec.id_appezzamento r = id)
    /\ (forall l1 a l2 b l3,
          ids = l1 ++ a :: l2 ++ b :: l3 ->
          first_before (map Rec.id_appezzamento (rows df)) a b)
    /\ forall id,
        In id ids -> id <> ""%string -> id <> "ALL"%string ->
        exists f,
          Dashboard.filtra_dati df (Some id) None None = Ok f
          /\ rows f <> []
          /\ Forall (fun r => Rec.id_appezzamento r = id) (rows f).
Proof.
  intros H. pose proof H as [Hid Hdata].
  exists (Dashboard.unique (map Rec.id_appezzamento (rows df))).
  unfold Dashboard.appezzamenti_options, Dashboard.column. rewrite Hid.
  split; [reflexivity|]. split; [apply unique_from_nodup|].
  assert (Hin : forall id,
             In id (Dashboard.unique (map Rec.id_appezzamento (rows df)))
             <-> exists r, In r (rows df) /\ Rec.id_appezzamento r = id).
  { intros id. unfold Dashboard.unique. rewrite unique_from_in, in_map_iff.
    cbn [In]. split.
    - intros [(r & Hr & Hin) _]. exists r. tauto.
    - intros (r & Hin & Hr). split; [exists r; tauto | tauto]. }
  split; [exact Hin|].
  split; [intros l1 a l2 b l3; apply unique_from_order|].
  intros id Hids Hne Hall. apply Hin in Hids. destruct Hids as (r & Hr & Hrid).
  eexists. split; [now apply filtra_dati_filter|]. cbn [rows]. split.
  - assert (Hrf : In r (filter (Dashboard.keeps (Some id) None None) (rows df))).
    { apply filter_In. split; [exact Hr|]. apply keeps_spec.
      repeat split; try discriminate. intros id' Hid' _ _. congruence. }
    intros Hnil. rewrite Hnil in Hrf. destruct Hrf.
  - apply Forall_forall. intros r' Hr'. apply filter_In in Hr'.
    destruct Hr' as [_ Hk]. apply keeps_spec in Hk.
    destruct Hk as (Ha & _). now apply Ha.
Qed.

(* ------------------------------------------------------------------ *)
(** ** The dashboard on a dataset of [genera_dati] *)

Lemma date_range_in (start stop d : Timestamp) :
  In d (date_range start stop) <-> (start <= d <= stop)%Z.
Proof.
  unfold date_range. rewrite in_map_iff. split.
  - intros (n & <- & Hn). apply in_seq in Hn. lia.
  - intros H. exists (Z.to_nat (d - start)). split; [lia|].
    apply in_seq. lia.
Qed.

Lemma sorted_lt_filter (p : Z -> bool) (l : list Z) :
  StronglySorted Z.lt l -> StronglySorted Z.lt (filter p l).
Proof.
  induction 1 as [|x l Hs IH Hx]; cbn [filter]; [constructor|].
  destruct (p x); [|exact IH]. constructor; [exact IH|].
  rewrite Forall_forall in *. intros y Hy. apply filter_In in Hy. now apply Hx.
Qed.

(** Two increasing lists with the same elements are the same list. *)
Lemma sorted_lt_same (l1 : list Z) : forall l2,
  StronglySorted Z.lt l1 -> StronglySorted Z.lt l2 ->
  (forall x, In x l1 <-> In x l2) -> l1 = l2.
Proof.
  induction l1 as [|x l1 IH]; intros [|y l2] H1 H2 Hin.
  - reflexivity.
  - exfalso. apply (Hin y). now left.
  - exfalso. apply (Hin x). now left.
  - apply StronglySorted_inv in H1, H2.
    destruct H1 as [H1 Hx], H2 as [H2 Hy].
    rewrite Forall_forall in Hx, Hy.
    assert (x = y).
    { destruct (proj1 (Hin x) (or_introl eq_refl)) as [->|Hxy]; [reflexivity|].
      destruct (proj2 (Hin y) (or_introl eq_refl)) as [->|Hyx]; [reflexivity|].
      specialize (Hx _ Hyx). specialize (Hy _ Hxy). lia. }
    subst y. f_equal. apply IH; try assumption.
    intros z. split; intros Hz.
    + destruct (proj1 (Hin z) (or_intror Hz)) as [<-|H]; [|exact H].
      specialize (Hx _ Hz). lia.
    + destruct (proj2 (Hin z) (or_intror Hz)) as [<-|H]; [|exact H].
      specialize (Hy _ Hz). lia.
Qed.

(** The days of a range inside a window are the days of the overlap. *)
Lemma date_range_window (start stop lo hi : Timestamp) :
  filter (fun d => (lo <=? d)%Z && (d <=? hi)%Z) (date_range start stop)
  = date_range (Z.max start lo) (Z.min stop hi).
Proof.
  apply sorted_lt_same.
  - apply sorted_lt_filter, date_range_increasing.
  - apply date_range_increasing.
  - intros d. rewrite filter_In, !date_range_in, andb_true_iff, !Z.leb_le. lia.
Qed.

Lemma filter_map_data (p : Z -> bool) (l : list Rec.t) :
  map Rec.data (filter (fun r => p (Rec.data r)) l) = filter p (map Rec.data l).
Proof.
  induction l as [|x l IH]; [reflexivity|].
  cbn [filter map]. destruct (p (Rec.data x)); cbn [map]; rewrite IH; reflexivity.
Qed.

Lemma sum_nonneg (l : list Q) : Forall (fun x => 0 <= x) l -> 0 <= Dashboard.sum l.
Proof.
  induction 1 as [|x l Hx Hl IH]; cbn [Dashboard.sum]; lra.
Qed.

Lemma sum_between (lo hi : Q) (l : list Q) :
  Forall (fun x => lo <= x /\ x <= hi) l ->
  lo * inject_Z (Z.of_nat (List.length l)) <= Dashboard.sum l
  /\ Dashboard.sum l <= hi * inject_Z (Z.of_nat (List.length l)).
Proof.
  induction 1 as [|x l [Hx1 Hx2] Hl [IH1 IH2]].
  - cbn [Dashboard.sum List.length]. change (inject_Z (Z.of_nat 0)) with 0.
    split; lra.
  - cbn [Dashboard.sum List.length]. rewrite Nat2Z.inj_succ.
    unfold Z.succ. rewrite inject_Z_plus. change (inject_Z 1) with 1.
    set (n := inject_Z (Z.of_nat (List.length l))) in *.
    assert (H1 : lo * (n + 1) == lo * n + lo) by ring.
    assert (H2 : hi * (n + 1) == hi * n + hi) by ring.
    rewrite H1, H2. split; lra.
Qed.

Lemma mean_between (lo hi : Q) (l : list Q) :
  l <> [] -> Forall (fun x => lo <= x /\ x <= hi) l ->
  exists m, Dashboard.mean l = Some m /\ lo <= m /\ m <= hi.
Proof.
  intros Hne Hall. destruct (sum_between lo hi l Hall) as [H1 H2].
  destruct l as [|x l]; [contradiction|].
  eexists. split; [reflexivity|].
  set (n := inject_Z (Z.of_nat (List.length (x :: l)))) in *.
  assert (Hn : 0 < n).
  { unfold n. change 0 with (inject_Z 0). rewrite <- Zlt_Qlt.
    cbn [List.length]. lia. }
  split.
  - apply Qle_shift_div_l; assumption.
  - apply Qle_shift_div_r; assumption.
Qed.

Lemma mean_nonneg (l : list Q) :
  l <> [] -> Forall (fun x => 0 <= x) l ->
  exists m, Dashboard.mean l = Some m /\ 0 <= m.
Proof.
  intros Hne Hall. pose proof (sum_nonneg l Hall) as Hs.
  destruct l as [|x l]; [contradiction|].
  eexists. split; [reflexivity|].
  apply Qle_shift_div_l.
  - change 0 with (inject_Z 0). rewrite <- Zlt_Qlt. cbn [List.length]. lia.
  - lra.
Qed.



Section DashboardOnDataset.
Context {E : Externals}.

Lemma dataset_has_columns (s : Stato) : Dashboard.has_columns (dataset s).
Proof. split; reflexivity. Qed.

(** The rows of a returned dataset have dates of the range, the first
    and the last day among them. *)
Lemma dataset_dates w start stop appezzamenti random_state s :
  simula w start stop appezzamenti random_state = Ok s ->
  records s <> [] ->
  In start (map Rec.data (rows (dataset s)))
  /\ In stop (map Rec.data (rows (dataset s)))
  /\ Forall (fun d => (start <= d <= stop)%Z) (map Rec.data (rows (dataset s))).
Proof.
  intros Hs Hne. destruct (Z_lt_le_dec stop start) as [Hlt|Hle].
  { rewrite (simula_empty_range _ _ _ _ _ Hlt) in Hs. discriminate. }
  destruct (simula_per_plot w start stop appezzamenti random_state Hle)
    as (s0 & Hs0 & Hpp).
  rewrite Hs in Hs0. injection Hs0 as <-.
  assert (Hdata : forall d, In d (map Rec.data (rows (dataset s)))
                            <-> In d (map Rec.data (records s))).
  { intros d. cbn [dataset rows]. rewrite map_map. cbn [round_row Rec.data].
    rewrite !in_map_iff. split; intros (r & Hr & Hin); exists r;
      (split; [exact Hr|]); now apply sort_rows_in. }
  assert (Hfirst : forall d, In d (date_range start stop) ->
                             In d (map Rec.data (records s))).
  { destruct (plots_of appezzamenti) as [|p rest].
    - cbn in Hpp. injection Hpp as Hr _. congruence.
    - cbn [per_plot] in Hpp.
      destruct (simula_appezzamento p _ _ _) as [[b g1]|e] eqn:Hb; [|discriminate].
      destruct (per_plot rest _ _ g1) as [[bs g2]|e]; [|discriminate].
      injection Hpp as <- _.
      apply simula_appezzamento_block in Hb. destruct Hb as [Hdates _].
      intros d Hd. rewrite map_app, in_app_iff. left. now rewrite Hdates. }
  split; [apply Hdata, Hfirst, date_range_in; lia|].
  split; [apply Hdata, Hfirst, date_range_in; lia|].
  apply Forall_forall. intros d Hd. apply Hdata in Hd.
  apply in_map_iff in Hd. destruct Hd as (r & <- & Hr).
  assert (Hall : Forall (fun r => (start <= Rec.data r <= stop)%Z) (records s)).
  { refine (simula_forall_in _ w start stop appezzamenti random_state _ s Hs).
    intros appez i dt g ds rs Hin Hid.
    pose proof (genera_record_from_plot appez (days_inclusive start stop) i dt g ds rs)
      as Hrec.
    destruct (genera_record _ _ _ _ _) as [[u s1]|e]; [|exact I].
    destruct Hrec as (r0 & Hrec & Hd & _). exists r0. split; [exact Hrec|].
    apply date_range_enumerate in Hid. lia. }
  rewrite Forall_forall in Hall. now apply Hall.
Qed.

(** X13. On a dataset returned by [genera_dati] the dashboard never
    raises: [filtra_dati] returns for every plot and every bounds, and the
    module-level [data_min] and [data_max] are the first and the last day
    of the simulated range. *)
Theorem dashboard_loads (w : World) (start stop : Timestamp)
    (appezzamenti : option (list Appezzamento)) (random_state : option Z)
    (salva_csv : bool) (nome_file : option string) (d : DataFrame) (w' : World) :
  genera_dati w start stop appezzamenti random_state salva_csv nome_file = Ok (d, w') ->
  Dashboard.data_min d = Ok (Some start)
  /\ Dashboard.data_max d = Ok (Some stop)
  /\ forall appezzamento start_date end_date,
      exists f,
        Dashboard.filtra_dati d appezzamento start_date end_date = Ok f
        /\ columns f = Rec.keys.
Proof.
  intros H. apply genera_dati_ok in H. destruct H as (s & Hs & Hne & ->).
  destruct (dataset_dates _ _ _ _ _ _ Hs Hne) as (Hlo & Hhi & Hall).
  unfold Dashboard.data_min, Dashboard.data_max, Dashboard.column.
  change (has_column (dataset s) "data") with true. cbv iota.
  split; [|split].
  - f_equal. apply min_date_is; [exact Hlo|].
    eapply Forall_impl; [|exact Hall]. cbn. intros. lia.
  - f_equal. apply max_date_is; [exact Hhi|].
    eapply Forall_impl; [|exact Hall]. cbn. intros. lia.
  - intros a lo hi. eexists.
    split; [apply filtra_dati_filter, dataset_has_columns | reflexivity].
Qed.


End DashboardOnDataset.

Lemma keeps_plot_window (id : string) (lo hi : Timestamp) (l : list Rec.t) :
  id <> ""%string -> id <> "ALL"%string ->
  filter (Dashboard.keeps (Some id) (Some lo) (Some hi)) l
  = filter (fun r => (fun d => (lo <=? d)%Z && (d <=? hi)%Z) (Rec.data r))
      (rows_of id l).
Proof.
  intros H1 H2. unfold rows_of. rewrite filter_filter.
  apply filter_ext. intros r. unfold Dashboard.keeps.
  destruct (String.eqb_spec id ""); [contradiction|].
  destruct (String.eqb_spec id "ALL"); [contradiction|].
  cbn [negb andb]. rewrite andb_assoc. reflexivity.
Qed.

Section KpiFacts.
Context {E : Externals}.

(** X15. The filters of the dashboard on one plot and a window of dates:
    for a plot whose id no other plot has (and is neither empty nor
    [ALL]), [filtra_dati] keeps exactly one row of that plot for each day
    that is both in the simulated range and in the window, in the order
    of the days; a window that misses the range gives an empty frame. *)
Theorem filtra_dati_plot_window (w : World) (start stop : Timestamp)
    (before : list Appezzamento) (appez : Appezzamento)
    (after : list Appezzamento) (random_state : option Z)
    (salva_csv : bool) (nome_file : option string) (d : DataFrame) (w' : World)
    (lo hi : Timestamp) :
  ~ In (id_appezzamento appez) (map id_appezzamento (before ++ after)) ->
  id_appezzamento appez <> ""%string ->
  id_appezzamento appez <> "ALL"%string ->
  genera_dati w start stop (Some (before ++ appez :: after)) random_state
    salva_csv nome_file = Ok (d, w') ->
  exists f,
    Dashboard.filtra_dati d (Some (id_appezzamento appez)) (Some lo) (Some hi) = Ok f
    /\ map Rec.data (rows f) = date_range (Z.max start lo) (Z.min stop hi)
    /\ Forall (fun r => Rec.id_appezzamento r = id_appezzamento appez) (rows f)
    /\ ((hi < start \/ stop < lo \/ hi < lo)%Z -> Dashboard.empty f = true).
Proof.
  intros Hid Hne Hall H. apply genera_dati_ok in H. destruct H as (s & Hs & _ & ->).
  destruct (dataset_plot_days _ _ _ _ _ _ _ _ Hid Hs) as [Hdays _].
  eexists. split; [apply filtra_dati_filter, dataset_has_columns|].
  cbn [rows]. rewrite (keeps_plot_window _ lo hi _ Hne Hall).
  assert (Hdates :
    map Rec.data
      (filter (fun r => (fun d => (lo <=? d)%Z && (d <=? hi)%Z) (Rec.data r))
         (rows_of (id_appezzamento appez) (rows (dataset s))))
    = date_range (Z.max start lo) (Z.min stop hi)).
  { rewrite (filter_map_data (fun d => (lo <=? d)%Z && (d <=? hi)%Z)), Hdays.
    apply date_range_window. }
  split; [exact Hdates|]. split.
  - apply Forall_forall. intros r Hr. apply filter_In in Hr. destruct Hr as [Hr _].
    unfold rows_of in Hr. apply filter_In in Hr. destruct Hr as [_ Hr].
    now apply String.eqb_eq.
  - intros Hout. unfold Dashboard.empty. cbn [rows].
    destruct (filter _ _) as [|r l]; [reflexivity|]. exfalso.
    cbn [map] in Hdates.
    assert (Hin : In (Rec.data r) (date_range (Z.max start lo) (Z.min stop hi))).
    { rewrite <- Hdates. now left. }
    apply date_range_in in Hin. lia.
Qed.

(** X16. The indicators of the dashboard on the rows [filtra_dati] keeps of
    a dataset of [genera_dati], for every plot and every window: the total
    precipitation, revenue and cost are at least 0; when a row is left the
    mean yield is a number and at least 0, and the mean moisture is a
    number in [10, 90] (so in the [0, 100] the tests ask for). *)
Theorem kpi_bounds (w : World) (start stop : Timestamp)
    (appezzamenti : option (list Appezzamento)) (random_state : option Z)
    (salva_csv : bool) (nome_file : option string) (d : DataFrame) (w' : World)
    (appezzamento : option string) (start_date end_date : option Timestamp)
    (f : DataFrame) :
  UniformInRange E ->
  genera_dati w start stop appezzamenti random_state salva_csv nome_file = Ok (d, w') ->
  Dashboard.filtra_dati d appezzamento start_date end_date = Ok f ->
  0 <= Dashboard.sum (map Rec.precipitazioni_mm (rows f))
  /\ 0 <= Dashboard.sum (map Rec.ricavi_totali_eur (rows f))
  /\ 0 <= Dashboard.sum (map Rec.costo_totale_eur (rows f))
  /\ (Dashboard.empty f = false ->
      (exists resa_media,
         Dashboard.mean (map Rec.resa_kg_ha (rows f)) = Some resa_media
         /\ 0 <= resa_media)
      /\ exists umidita_media,
         Dashboard.mean (map Rec.umidita_suolo_pct (rows f)) = Some umidita_media
         /\ 10 <= umidita_media /\ umidita_media <= 90).
Proof.
  intros HU H Hf.
  assert (Hrows : Forall in_bounds (rows f)).
  { apply genera_dati_ok in H. destruct H as (s & Hs & _ & ->).
    rewrite (filtra_dati_filter _ _ _ _ (dataset_has_columns s)) in Hf.
    injection Hf as <-. cbn [rows dataset].
    apply Forall_forall. intros r Hr. apply filter_In in Hr. destruct Hr as [Hr _].
    revert r Hr. apply Forall_forall, Forall_map, sort_rows_forall.
    assert (Hall : Forall in_bounds (records s)).
    { refine (simula_forall_in _ w start stop appezzamenti random_state _ s Hs).
      intros appez i dt g ds rs _ _.
      apply (genera_record_bounds HU). }
    eapply Forall_impl; [|exact Hall]. apply round_row_bounds. }
  assert (Hcol : forall (c : Rec.t -> Q) (P : Q -> Prop),
            (forall r, in_bounds r -> P (c r)) -> Forall P (map c (rows f))).
  { intros c P HP. apply Forall_map. eapply Forall_impl; [|exact Hrows]. exact HP. }
  split; [|split; [|split]].
  - apply sum_nonneg, Hcol. unfold in_bounds. tauto.
  - apply sum_nonneg, Hcol. unfold in_bounds. tauto.
  - apply sum_nonneg, Hcol. unfold in_bounds. tauto.
  - intros Hne. unfold Dashboard.empty in Hne.
    assert (Hmap : forall c : Rec.t -> Q, map c (rows f) <> []).
    { intros c. destruct (columns f); [discriminate Hne|].
      destruct (rows f); [discriminate Hne | discriminate]. }
    split.
    + apply mean_nonneg; [apply Hmap|]. apply Hcol. unfold in_bounds. tauto.
    + apply mean_between; [apply Hmap|]. apply Hcol. unfold in_bounds. tauto.
Qed.

End KpiFacts.

(* ------------------------------------------------------------------ *)
(** ** The climate zone of a plot *)

Section ZonaClimatica.
Context {E : Externals}.

Lemma for_each_ext {A : Type} (l : list A) (body body' : A -> Sim unit) :
  (forall x s, In x l -> body x s = body' x s) ->
  forall s, for_each l body s = for_each l body' s.
Proof.
  induction l as [|x l IH]; intros H s; [reflexivity|].
  cbn [for_each]. unfold bind. rewrite (H x s (or_introl eq_refl)).
  destruct (body' x s) as [[u s1]|e]; [|reflexivity].
  apply IH. intros y s2 Hy. apply H. now right.
Qed.

Lemma genera_record_zona (p q : Appezzamento) (giorni_totali i : Z)
    (data : Timestamp) (s : Stato) :
  same_but_zona p q ->
  genera_record p giorni_totali i data s = genera_record q giorni_totali i data s.
Proof.
  destruct p as [pid pc ps pz], q as [qid qc qs qz].
  intros (Hid & Hc & Hs). cbn in Hid, Hc, Hs. subst qid qc qs.
  reflexivity.
Qed.

Lemma simula_zona (w : World) (start stop : Timestamp)
    (plots plots' : list Appezzamento) (random_state : option Z) :
  Forall2 same_but_zona plots plots' ->
  simula w start stop (Some plots) random_state
  = simula w start stop (Some plots') random_state.
Proof.
  intros H. unfold simula. cbv zeta.
  destruct (last_item _) as [last_day|]; [|reflexivity].
  destruct (hd_error _) as [first_day|]; [|reflexivity].
  generalize (mkStato (default_rng match random_state with
                                   | Some seed => seed
                                   | None => os_entropy w
                                   end) [] []).
  enough (Hloops : forall s,
    for_each plots (fun appez =>
      for_each (enumerate (date_range start stop)) (fun '(i, data) =>
        genera_record appez (last_day - first_day + 1) i data)) s
    = for_each plots' (fun appez =>
      for_each (enumerate (date_range start stop)) (fun '(i, data) =>
        genera_record appez (last_day - first_day + 1) i data)) s).
  { intros s. rewrite Hloops. reflexivity. }
  induction H as [|p q plots plots' Hpq _ IH]; intros s; [reflexivity|].
  cbn [for_each]. unfold bind.
  rewrite (for_each_ext _ _
             (fun '(i, data) => genera_record q (last_day - first_day + 1) i data)).
  - destruct (for_each _ _ s) as [[u s1]|e]; [apply IH | reflexivity].
  - intros [i data] s1 _. now apply genera_record_zona.
Qed.

(** X17. The field [zona_climatica] of a plot is never read: two lists of
    plots that agree, plot by plot, on id, crop and area give the same
    result of [genera_dati] (the same dataset and the same file, or the
    same error), whatever their climate zones. *)
Theorem zona_climatica_unused (w : World) (start stop : Timestamp)
    (plots plots' : list Appezzamento) (random_state : option Z)
    (salva_csv : bool) (nome_file : option string) :
  Forall2 same_but_zona plots plots' ->
  genera_dati w start stop (Some plots) random_state salva_csv nome_file
  = genera_dati w start stop (Some plots') random_state salva_csv nome_file.
Proof.
  intros H. unfold genera_dati. rewrite (simula_zona _ _ _ _ _ _ H). reflexivity.
Qed.

End ZonaClimatica.

(* ------------------------------------------------------------------ *)
(** ** The further properties on concrete runs *)

Lemma genera_dati_sorted_witness :
  exists d w',
    @genera_dati Sample.externals Sample.world Run.start Run.stop
       None (Some 42%Z) false None = Ok (d, w')
    /\ sorted_rows (rows d).
Proof.
  assert (Hrun : exists d w',
            @genera_dati Sample.externals Sample.world Run.start Run.stop
              None (Some 42%Z) false None = Ok (d, w'))
    by (do 2 eexists; run).
  destruct Hrun as (d & w' & Hrun). exists d, w'. split; [exact Hrun|].
  exact (@genera_dati_sorted Sample.externals Sample.world Run.start Run.stop
           None (Some 42%Z) false None d w' Hrun).
Defined.

Lemma genera_dati_rows_from_plots_witness :
  exists d w',
    @genera_dati Sample.externals Sample.world Run.start Run.stop
       (Some [Run.a1; Run.b2]) (Some 42%Z) false None = Ok (d, w')
    /\ columns d = Rec.keys
    /\ Forall (fun r =>
         (Run.start <= Rec.data r <= Run.stop)%Z
         /\ exists p,
             In p [Run.a1; Run.b2]
             /\ Rec.id_appezzamento r = id_appezzamento p
             /\ Rec.coltura r = coltura p
             /\ Rec.superficie_ha r = Np.round3 (superficie_ha p))
         (rows d).
Proof.
  assert (Hrun : exists d w',
            @genera_dati Sample.externals Sample.world Run.start Run.stop
              (Some [Run.a1; Run.b2]) (Some 42%Z) false None = Ok (d, w'))
    by (do 2 eexists; run).
  destruct Hrun as (d & w' & Hrun). exists d, w'. split; [exact Hrun|].
  exact (@genera_dati_rows_from_plots Sample.externals Sample.world Run.start
           Run.stop (Some [Run.a1; Run.b2]) (Some 42%Z) false None d w' Hrun).
Defined.

Lemma genera_dati_first_day_witness :
  UniformInRange Sample.externals
  /\ exists d w',
      @genera_dati Sample.externals Sample.world Run.start Run.stop
         None (Some 42%Z) false None = Ok (d, w')
      /\ Forall (fun r => Rec.data r = Run.start -> initial_ranges r) (rows d).
Proof.
  split; [exact sample_uniform_in_range|].
  assert (Hrun : exists d w',
            @genera_dati Sample.externals Sample.world Run.start Run.stop
              None (Some 42%Z) false None = Ok (d, w'))
    by (do 2 eexists; run).
  destruct Hrun as (d & w' & Hrun). exists d, w'. split; [exact Hrun|].
  exact (@genera_dati_first_day Sample.externals Sample.world Run.start Run.stop
           None (Some 42%Z) false None d w' sample_uniform_in_range Hrun).
Defined.

Lemma genera_dati_plot_days_witness :
  ~ In (id_appezzamento Run.a2) (map id_appezzamento ([Run.a1] ++ [Run.a3]))
  /\ exists d w',
      @genera_dati Sample.externals Sample.world Run.start Run.stop
         (Some ([Run.a1] ++ Run.a2 :: [Run.a3])) (Some 42%Z) false None = Ok (d, w')
      /\ map Rec.data (rows_of "A2" (rows d)) = date_range Run.start Run.stop
      /\ Forall (fun r =>
           Rec.coltura r = "Mais"%string
           /\ Rec.superficie_ha r = Np.round3 8)
           (rows_of "A2" (rows d)).
Proof.
  assert (Hid : ~ In (id_appezzamento Run.a2)
                    (map id_appezzamento ([Run.a1] ++ [Run.a3])))
    by (simpl; intros [H|[H|[]]]; discriminate H).
  split; [exact Hid|].
  assert (Hrun : exists d w',
            @genera_dati Sample.externals Sample.world Run.start Run.stop
              (Some ([Run.a1] ++ Run.a2 :: [Run.a3])) (Some 42%Z) false None
            = Ok (d, w'))
    by (do 2 eexists; run).
  destruct Hrun as (d & w' & Hrun). exists d, w'. split; [exact Hrun|].
  exact (@genera_dati_plot_days Sample.externals Sample.world Run.start Run.stop
           [Run.a1] Run.a2 [Run.a3] (Some 42%Z) false None d w' Hid Hrun).
Defined.


(** An absolute [nome_file] is written where it says, outside the output
    directory. *)
Example export_absolute_name :
  exists d w',
    @genera_dati Sample.externals Sample.world Run.start Run.stop
       None (Some 42%Z) true (Some "/tmp/elsewhere/abs.csv"%string) = Ok (d, w')
    /\ files w' = [("/tmp/elsewhere/abs.csv"%string, d)].
Proof.
  let v := eval vm_compute in
      (@genera_dati Sample.externals Sample.world Run.start Run.stop
         None (Some 42%Z) true (Some "/tmp/elsewhere/abs.csv"%string)) in
  match v with
  | Ok (?d, ?w) => exists d, w
  end.
  split; [run | reflexivity].
Qed.

(** Two days of one plot, the second after the first. *)
Lemma two_days :
  exists s1 s2 prev,
    @genera_record Sample.externals Run.a1 3 0 Run.start Run.s0 = Ok (tt, s1)
    /\ @genera_record Sample.externals Run.a1 3 1 (Run.start + 1)%Z s1 = Ok (tt, s2)
    /\ last_item (records s1) = Some prev
    /\ in_bounds prev.
Proof.
  let v := eval vm_compute in
      (@genera_record Sample.externals Run.a1 3 0 Run.start Run.s0) in
  match v with
  | Ok (tt, ?s) => exists s
  end.
  eexists _, _.
  split; [run|]. split; [run|]. split; [run|].
  unfold in_bounds. repeat split; vm_compute; discriminate.
Defined.

Lemma moisture_moves_little_witness :
  UniformInRange Sample.externals
  /\ exists s1 s2 prev r,
      (1 <> 0)%Z
      /\ last_item (records s1) = Some prev
      /\ in_bounds prev
      /\ @genera_record Sample.externals Run.a1 3 1 (Run.start + 1)%Z s1 = Ok (tt, s2)
      /\ records s2 = records s1 ++ [r]
      /\ moisture_step prev r.
Proof.
  split; [exact sample_uniform_in_range|].
  destruct two_days as (s1 & s2 & prev & _ & Hrun & Hlast & Hb).
  assert (Hi : (1 <> 0)%Z) by lia.
  destruct (@moisture_moves_little Sample.externals Run.a1 3%Z 1%Z (Run.start + 1)%Z
              s1 s2 prev sample_uniform_in_range Hi Hlast Hb Hrun)
    as (r & Hrec & Hstep).
  exists s1, s2, prev, r. repeat (split; [assumption|]). exact Hstep.
Defined.

Lemma nutrients_move_little_witness :
  UniformInRange Sample.externals
  /\ exists s1 s2 prev r day_log,
      (1 <> 0)%Z
      /\ last_item (records s1) = Some prev
      /\ in_bounds prev
      /\ @genera_record Sample.externals Run.a1 3 1 (Run.start + 1)%Z s1 = Ok (tt, s2)
      /\ records s2 = records s1 ++ [r]
      /\ drawn s2 = day_log ++ drawn s1
      /\ nutrient_step day_log 0.3 25 (Rec.nutrienti_n prev) (Rec.nutrienti_n r)
      /\ nutrient_step day_log 0.15 15 (Rec.nutrienti_p prev) (Rec.nutrienti_p r)
      /\ nutrient_step day_log 0.25 20 (Rec.nutrienti_k prev) (Rec.nutrienti_k r).
Proof.
  split; [exact sample_uniform_in_range|].
  destruct two_days as (s1 & s2 & prev & _ & Hrun & Hlast & Hb).
  assert (Hi : (1 <> 0)%Z) by lia.
  destruct (@nutrients_move_little Sample.externals Run.a1 3%Z 1%Z (Run.start + 1)%Z
              s1 s2 prev sample_uniform_in_range Hi Hlast Hb Hrun)
    as (r & day_log & Hrec & Hlog & Hstep).
  exists s1, s2, prev, r, day_log. repeat (split; [assumption|]). exact Hstep.
Defined.

(** A frame of the dashboard: the dataset of a run. *)
Lemma a_frame :
  exists df w',
    @genera_dati Sample.externals Sample.world Run.start Run.stop
       None (Some 42%Z) false None = Ok (df, w')
    /\ Dashboard.has_columns df
    /\ rows df <> [].
Proof.
  let v := eval vm_compute in
      (@genera_dati Sample.externals Sample.world Run.start Run.stop
         None (Some 42%Z) false None) in
  match v with
  | Ok (?d, ?w) => exists d, w
  end.
  split; [run|]. split; [split; reflexivity | discriminate].
Defined.

Lemma filtra_dati_rows_witness :
  exists df f,
    Dashboard.has_columns df
    /\ Dashboard.filtra_dati df (Some "A2"%string) (Some 19724%Z) None = Ok f
    /\ columns f = columns df
    /\ rows f = filter (Dashboard.keeps (Some "A2"%string) (Some 19724%Z) None) (rows df).
Proof.
  destruct a_frame as (df & _ & _ & Hdf & Hne).
  destruct (filtra_dati_rows df (Some "A2"%string) (Some 19724%Z) None Hdf)
    as (f & Hf & Hcols & Hrows & _).
  exists df, f. repeat (split; [assumption|]). exact Hrows.
Defined.

Lemma filtra_dati_compose_witness :
  exists df f1,
    Dashboard.has_columns df
    /\ Dashboard.filtra_dati df (Some "A2"%string) (Some 19724%Z) None = Ok f1
    /\ Dashboard.filtra_dati f1 (Some "A2"%string) (Some 19723%Z) (Some 19724%Z)
       = Dashboard.filtra_dati df (Some "A2"%string)
           (Dashboard.later (Some 19724%Z) (Some 19723%Z))
           (Dashboard.earlier None (Some 19724%Z))
    /\ Dashboard.filtra_dati f1 (Some "A2"%string) (Some 19724%Z) None = Ok f1.
Proof.
  destruct a_frame as (df & _ & _ & Hdf & Hne).
  pose proof (filtra_dati_filter df (Some "A2"%string) (Some 19724%Z) None Hdf) as Hf.
  eexists df, _. split; [exact Hdf|]. split; [exact Hf|].
  exact (filtra_dati_compose df _ (Some "A2"%string) (Some 19724%Z) None
           (Some 19723%Z) (Some 19724%Z) Hdf Hf).
Defined.

Lemma reset_filtri_shows_all_witness :
  exists df lo hi,
    Dashboard.has_columns df
    /\ rows df <> []
    /\ Dashboard.reset_filtri df 1%Z = Ok ("ALL"%string, Some lo, Some hi)
    /\ Dashboard.filtra_dati df (Some "ALL"%string) (Some lo) (Some hi) = Ok df.
Proof.
  destruct a_frame as (df & _ & _ & Hdf & Hne).
  destruct (reset_filtri_shows_all df 1%Z Hdf Hne) as (lo & hi & Hreset & _ & _ & Hf).
  exists df, lo, hi. split; [exact Hdf|]. split; [exact Hne|].
  split; [exact Hreset | exact Hf].
Defined.

Lemma appezzamenti_options_select_witness :
  exists df ids,
    Dashboard.has_columns df
    /\ Dashboard.appezzamenti_options df
       = Ok (("Tutti gli appezzamenti", "ALL")
             :: map (fun id => ("Appezzamento " ++ id, id)) ids)%string
    /\ NoDup ids
    /\ forall l1 a l2 b l3,
        ids = l1 ++ a :: l2 ++ b :: l3 ->
        first_before (map Rec.id_appezzamento (rows df)) a b.
Proof.
  destruct a_frame as (df & _ & _ & Hdf & Hne).
  destruct (appezzamenti_options_select df Hdf)
    as (ids & Hopt & Hnd & _ & Horder & _).
  exists df, ids. split; [exact Hdf|]. split; [exact Hopt|].
  split; [exact Hnd | exact Horder].
Defined.

Lemma dashboard_loads_witness :
  exists d w',
    @genera_dati Sample.externals Sample.world Run.start Run.stop
       None (Some 42%Z) false None = Ok (d, w')
    /\ Dashboard.data_min d = Ok (Some Run.start)
    /\ Dashboard.data_max d = Ok (Some Run.stop).
Proof.
  assert (Hrun : exists d w',
            @genera_dati Sample.externals Sample.world Run.start Run.stop
              None (Some 42%Z) false None = Ok (d, w'))
    by (do 2 eexists; run).
  destruct Hrun as (d & w' & Hrun). exists d, w'. split; [exact Hrun|].
  destruct (@dashboard_loads Sample.externals Sample.world Run.start Run.stop
              None (Some 42%Z) false None d w' Hrun) as (Hmin & Hmax & _).
  split; [exact Hmin | exact Hmax].
Defined.

(** A run and one filter of the dashboard on its dataset. *)
Lemma a_filtered_frame :
  exists d w' f,
    @genera_dati Sample.externals Sample.world Run.start Run.stop
       None (Some 42%Z) false None = Ok (d, w')
    /\ Dashboard.filtra_dati d (Some "ALL"%string) (Some 19724%Z) (Some 19725%Z)
       = Ok f
    /\ Dashboard.empty f = false
    /\ rows f <> []
    /\ Forall (fun r => economic_magnitude r <= 1000000000000) (rows f).
Proof.
  let v := eval vm_compute in
      (@genera_dati Sample.externals Sample.world Run.start Run.stop
         None (Some 42%Z) false None) in
  match v with
  | Ok (?d, ?w) => exists d, w
  end.
  let v := eval vm_compute in
      (Dashboard.filtra_dati
         (fst (match @genera_dati Sample.externals Sample.world Run.start Run.stop
                       None (Some 42%Z) false None with
               | Ok p => p
               | Raise _ => (mkDataFrame [] [], Sample.world)
               end))
         (Some "ALL"%string) (Some 19724%Z) (Some 19725%Z)) in
  match v with
  | Ok ?f => exists f
  end.
  split; [run|]. split; [run|]. split; [reflexivity|]. split; [discriminate|].
  repeat (apply Forall_cons; [vm_compute; discriminate|]). apply Forall_nil.
Defined.


Lemma filtra_dati_plot_window_witness :
  ~ In (id_appezzamento Run.a2) (map id_appezzamento ([Run.a1] ++ [Run.a3]))
  /\ id_appezzamento Run.a2 <> ""%string
  /\ id_appezzamento Run.a2 <> "ALL"%string
  /\ exists d w' f,
      @genera_dati Sample.externals Sample.world Run.start Run.stop
         (Some ([Run.a1] ++ Run.a2 :: [Run.a3])) (Some 42%Z) false None = Ok (d, w')
      /\ Dashboard.filtra_dati d (Some "A2"%string) (Some 19724%Z) (Some 19800%Z)
         = Ok f
      /\ map Rec.data (rows f)
         = date_range (Z.max Run.start 19724) (Z.min Run.stop 19800).
Proof.
  assert (Hid : ~ In (id_appezzamento Run.a2)
                    (map id_appezzamento ([Run.a1] ++ [Run.a3])))
    by (simpl; intros [H|[H|[]]]; discriminate H).
  assert (H1 : id_appezzamento Run.a2 <> ""%string) by discriminate.
  assert (H2 : id_appezzamento Run.a2 <> "ALL"%string) by discriminate.
  split; [exact Hid|]. split; [exact H1|]. split; [exact H2|].
  assert (Hrun : exists d w',
            @genera_dati Sample.externals Sample.world Run.start Run.stop
              (Some ([Run.a1] ++ Run.a2 :: [Run.a3])) (Some 42%Z) false None
            = Ok (d, w'))
    by (do 2 eexists; run).
  destruct Hrun as (d & w' & Hrun).
  destruct (@filtra_dati_plot_window Sample.externals Sample.world Run.start
              Run.stop [Run.a1] Run.a2 [Run.a3] (Some 42%Z) false None d w'
              19724%Z 19800%Z Hid H1 H2 Hrun)
    as (f & Hf & Hdates & _).
  exists d, w', f. split; [exact Hrun|]. split; [exact Hf | exact Hdates].
Defined.

Lemma kpi_bounds_witness :
  UniformInRange Sample.externals
  /\ exists d w' f,
      @genera_dati Sample.externals Sample.world Run.start Run.stop
         None (Some 42%Z) false None = Ok (d, w')
      /\ Dashboard.filtra_dati d (Some "ALL"%string) (Some 19724%Z) (Some 19725%Z)
         = Ok f
      /\ Dashboard.empty f = false
      /\ 0 <= Dashboard.sum (map Rec.precipitazioni_mm (rows f))
      /\ exists umidita_media,
          Dashboard.mean (map Rec.umidita_suolo_pct (rows f)) = Some umidita_media
          /\ 10 <= umidita_media /\ umidita_media <= 90.
Proof.
  split; [exact sample_uniform_in_range|].
  destruct a_filtered_frame as (d & w' & f & Hrun & Hf & Hne & _).
  exists d, w', f. split; [exact Hrun|]. split; [exact Hf|]. split; [exact Hne|].
  destruct (@kpi_bounds Sample.externals Sample.world Run.start Run.stop
              None (Some 42%Z) false None d w' (Some "ALL"%string)
              (Some 19724%Z) (Some 19725%Z) f sample_uniform_in_range Hrun Hf)
    as (Hprec & _ & _ & Hmean).
  split; [exact Hprec | exact (proj2 (Hmean Hne))].
Defined.

Lemma zona_climatica_unused_witness :
  Forall2 same_but_zona
    [Run.a1; Run.a2]
    [mkAppezzamento "A1" "Grano" 1 "montagna"; mkAppezzamento "A2" "Mais" 8 "costa"]
  /\ @genera_dati Sample.externals Sample.world Run.start Run.stop
       (Some [Run.a1; Run.a2]) (Some 42%Z) false None
     = @genera_dati Sample.externals Sample.world Run.start Run.stop
         (Some [mkAppezzamento "A1" "Grano" 1 "montagna";
                mkAppezzamento "A2" "Mais" 8 "costa"]) (Some 42%Z) false None.
Proof.
  assert (H : Forall2 same_but_zona
                [Run.a1; Run.a2]
                [mkAppezzamento "A1" "Grano" 1 "montagna";
                 mkAppezzamento "A2" "Mais" 8 "costa"])
    by (repeat constructor).
  split; [exact H|].
  exact (@zona_climatica_unused Sample.externals Sample.world Run.start Run.stop
           _ _ (Some 42%Z) false None H).
Defined.
